(** * Internal RAG bot front end: state container, handlers and HTTP access

    A shallow embedding of the React front end under [frontend/src]:
    - [types/index.ts]: the records [Project], [Document], [ChatMessage],
      [Source];
    - [services/useProjects.js], [services/useProjectDocuments.js],
      [services/useChat.js]: the eight HTTP access functions;
    - [App.tsx] (the revision that talks to the backend): the state
      container and its handlers;
    - [components/ChatPanel/ChatPanel.tsx]: [handleSend] and the
      enabling conditions of the chat input;
    - [components/ProjectPanel/ProjectPanel.tsx]: [handleCreateProject].

    React state is a record; a handler is a computation in a small
    state-and-exception monad [Js]; an [async] function is split at its
    [await] into the part that issues the request and the part that
    resumes with the settled promise.  Requests in flight and armed
    timers are part of the world, so that every interleaving of user
    actions, responses and timers is a list of [Event]s.

    Conventions:
    - a string is a sequence of code units below 256; a [number] that
      counts or sizes something is an integer-valued double below the
      overflow threshold, and the sum of two of them is rounded to 53
      significant bits ([JsNumber.add]);
    - the dependency of the selection effect is compared by value, where
      React compares the identity of the object: a click on the selected
      row after a refetch re-runs the effect in the code and not here;
    - a functional update [setX(prev => f(prev))] is applied when it is
      called, so that updates compose in call order;
    - the clock and [Math.random()] are inputs of the handlers that read
      them;
    - the response bodies have the shapes of section 6 of the design; a
      body that is tested with [if (response)] is an [option], and the
      chat response, whose fields are read without a test, may also be
      one of the bodies of [UnshapedBody];
    - the [console.log] calls made while rendering, the dark mode, the
      source panel and the fields of the project form are not part of
      the world. *)

From Stdlib Require Import String Ascii List ZArith Bool Lia.
From Stdlib Require Import DecimalString.
Import ListNotations.

Local Open Scope string_scope.
Local Open Scope Z_scope.

(* ===================================================================== *)
(** ** JavaScript strings and values *)
(* ===================================================================== *)

Module JsString.

(** Code units are the 256 values of [ascii]; the white space and line
    terminator code units of ECMAScript that fall in that range. *)
Definition is_white_space (c : ascii) : bool :=
  let n := nat_of_ascii c in
  orb (Nat.eqb n 9) (orb (Nat.eqb n 10) (orb (Nat.eqb n 11)
  (orb (Nat.eqb n 12) (orb (Nat.eqb n 13) (orb (Nat.eqb n 32)
  (Nat.eqb n 160)))))).

Fixpoint trimStart (s : string) : string :=
  match s with
  | EmptyString => EmptyString
  | String c rest => if is_white_space c then trimStart rest else s
  end.

Fixpoint rev_append (s acc : string) : string :=
  match s with
  | EmptyString => acc
  | String c rest => rev_append rest (String c acc)
  end.

Definition reverse (s : string) : string := rev_append s EmptyString.

Definition trimEnd (s : string) : string := reverse (trimStart (reverse s)).

(** [String.prototype.trim]. *)
Definition trim (s : string) : string := trimEnd (trimStart s).

(** [String.prototype.toLowerCase] on one code unit: A-Z and the
    Latin-1 capitals (all of 192..222 but the multiplication sign). *)
Definition lower_unit (c : ascii) : ascii :=
  let n := nat_of_ascii c in
  if andb (Nat.leb 65 n) (Nat.leb n 90) then ascii_of_nat (n + 32)
  else if andb (andb (Nat.leb 192 n) (Nat.leb n 222)) (negb (Nat.eqb n 215))
       then ascii_of_nat (n + 32)
  else c.

Fixpoint toLowerCase (s : string) : string :=
  match s with
  | EmptyString => EmptyString
  | String c rest => String (lower_unit c) (toLowerCase rest)
  end.

(** [s.split('.').pop()]: the text after the last dot, the whole text
    when there is none.  [seg] is the segment read so far. *)
Fixpoint last_segment_from (seg s : string) : string :=
  match s with
  | EmptyString => reverse seg
  | String c rest =>
      if Ascii.eqb c "."%char then last_segment_from EmptyString rest
      else last_segment_from (String c seg) rest
  end.

Definition split_dot_pop (s : string) : string :=
  last_segment_from EmptyString s.

(** [Number.prototype.toString] and template interpolation of an
    integer. *)
Definition of_Z (z : Z) : string := NilZero.string_of_int (Z.to_int z).

(** ToBoolean on a string. *)
Definition truthy (s : string) : bool :=
  match s with EmptyString => false | String _ _ => true end.

(** [a || b] on strings. *)
Definition or_else (a b : string) : string := if truthy a then a else b.

End JsString.

(** The values a handler tests with [if (x)]: ToBoolean of ECMAScript.
    A promise is an object. *)
Inductive JsValue : Type :=
| JUndefined
| JNull
| JBool (b : bool)
| JNumber (z : Z)
| JString (s : string)
| JPromise (rid : nat).

Definition ToBoolean (v : JsValue) : bool :=
  match v with
  | JUndefined | JNull => false
  | JBool b => b
  | JNumber z => negb (Z.eqb z 0)
  | JString s => JsString.truthy s
  | JPromise _ => true
  end.

(** Numbers that hold integers.  A double has 53 significant bits: an
    integer below 2^53 in magnitude is itself, a larger one is rounded
    to the nearest representable value, ties to the even one. *)
Module JsNumber.

Definition round (z : Z) : Z :=
  let m := Z.abs z in
  if m <? 2 ^ 53 then z
  else
    let q := 2 ^ (Z.log2 m - 52) in   (* the spacing of doubles around m *)
    let k := m / q in
    let r := m mod q in
    let half := q / 2 in
    let k' := if r <? half then k
              else if half <? r then k + 1
              else if Z.even k then k else k + 1 in
    Z.sgn z * (k' * q).

(** [a + b] on two such numbers. *)
Definition add (a b : Z) : Z := round (a + b).

End JsNumber.

(** Thrown values. *)
Inductive JsError : Type :=
| AxiosError (message : string)
| TypeError (message : string).

(* ===================================================================== *)
(** ** Data model ([types/index.ts]) *)
(* ===================================================================== *)

Record Project : Type := mkProject {
  project_id : string;
  project_name : string;
  project_description : option string;
  project_createdAt : string;
  project_updatedAt : string;
  file_count : Z
}.

Inductive DocStatus : Type := processing | ready | error.

Record Document : Type := mkDocument {
  doc_id : string;
  doc_projectId : string;
  doc_filename : string;
  doc_fileType : string;
  doc_uploadedAt : string;
  doc_size : Z;
  doc_status : DocStatus
}.

Record Source : Type := mkSource {
  documentId : string;
  documentName : string;
  chunk : string;
  pageNumber : option Z;
  (** a score in [0,1], kept as the decimal text of the JSON number *)
  relevanceScore : option string
}.

Inductive Role : Type := user | assistant.

Record ChatMessage : Type := mkChatMessage {
  msg_id : string;
  msg_projectId : string;
  msg_content : string;
  msg_role : Role;
  msg_timestamp : string;
  msg_sources : option (list Source)
}.

(** A browser [File]: the fields the handlers read, and its bytes. *)
Record File : Type := mkFile {
  file_name : string;
  file_size : Z;
  file_bytes : string
}.

(** One conversation of the chat-history response. *)
Record Conversation : Type := mkConversation {
  conversation_id : string;
  conv_messages : list ChatMessage
}.

(** The body of [POST /api/chat/query]. *)
Record MessageMetadata : Type := mkMessageMetadata {
  meta_project_id : string;
  meta_timestamp : string
}.

Record ChatResponse : Type := mkChatResponse {
  success : bool;
  resp_conversation_id : string;
  response_text : string;
  message_metadata : MessageMetadata;
  resp_sources : option (list Source)
}.

(** A fulfilled body of [POST /api/chat/query] that does not have this
    shape, as far as [handleSend] can tell the difference. *)
Inductive UnshapedBody : Type :=
| BodyNull                              (* the JSON [null] *)
| BodyPrimitive                         (* a string (an empty body too), a
                                           number or a boolean: every
                                           property reads [undefined] *)
| BodyWithoutMetadata (success : bool). (* an object with no
                                           [message_metadata]; [success] is
                                           ToBoolean of its [success] field *)

(** The request body built by [handleSend]. *)
Record ChatPayload : Type := mkChatPayload {
  include_sources : bool;
  max_chunks : Z;
  payload_project_id : string;
  query : string
}.

(** The form of the project editor. *)
Record NewProject : Type := mkNewProject {
  new_name : string;
  new_description : string
}.

(** [FormData]: the appended entries, in order. *)
Inductive FormValue : Type :=
| FormText (s : string)
| FormFile (f : File).

Definition FormData : Type := list (string * FormValue).

(** Decidable equality of projects, for the dependency array of the
    selection effect. *)
Definition option_string_dec (a b : option string) : {a = b} + {a <> b}.
Proof. decide equality. apply string_dec. Defined.

Definition Project_eq_dec (p q : Project) : {p = q} + {p <> q}.
Proof.
  decide equality;
    try apply Z.eq_dec; try apply string_dec; apply option_string_dec.
Defined.

(* ===================================================================== *)
(** ** The world: React state, requests in flight, timers, console *)
(* ===================================================================== *)

(** One constructor per backend endpoint (section 6 of the design). *)
Inductive Request : Type :=
| GetProjects                                         (* GET /api/projects *)
| PostProject (body : NewProject)                     (* POST /api/projects *)
| DeleteProject (project_id : string)                 (* DELETE /api/projects/{id} *)
| GetProjectDocuments (project_id : string)           (* GET /api/documents/project/{id} *)
| PostDocument (projectId : string) (form : FormData) (* POST /api/documents/upload *)
| DeleteDocument (documentId : string)                (* DELETE /api/documents/{id} *)
| PostChatQuery (payload : ChatPayload)               (* POST /api/chat/query *)
| GetChatHistory (project_id : string).               (* GET /api/chat/history/{id} *)

Inductive LogEntry : Type :=
| console_log (label : string)
| console_error (label : string) (detail : option JsError).

Record World : Type := mkWorld {
  (* App.tsx, useState *)
  projects : list Project;
  selectedProject : option Project;
  documents : list Document;
  messages : list ChatMessage;
  isLoading : bool;
  (* ChatPanel.tsx, useState *)
  inputMessage : string;
  (* the run time *)
  inflight : list (nat * Request);     (* axios promises not yet settled *)
  timers : list (nat * list Document); (* setTimeout callbacks not yet run,
                                          with the newDocuments they close over *)
  console : list LogEntry;
  uncaught : list JsError;             (* uncaught errors, unhandled rejections *)
  next_handle : nat
}.

Definition init : World :=
  {| projects := []; selectedProject := None; documents := []; messages := [];
     isLoading := false; inputMessage := "";
     inflight := []; timers := []; console := []; uncaught := [];
     next_handle := 0 |}.

(** How a synchronous run ends, and how a promise settles. *)
Inductive Completion (A : Type) : Type :=
| Normal (a : A)
| Throw (e : JsError).
Arguments Normal {A} a.
Arguments Throw {A} e.

Inductive Settled (A : Type) : Type :=
| Fulfilled (a : A)
| Rejected (e : JsError).
Arguments Fulfilled {A} a.
Arguments Rejected {A} e.

(** State and exceptions. *)
Definition Js (A : Type) : Type := World -> World * Completion A.

Definition ret {A} (a : A) : Js A := fun w => (w, Normal a).

Definition bind {A B} (m : Js A) (k : A -> Js B) : Js B :=
  fun w => match m w with
           | (w', Normal a) => k a w'
           | (w', Throw e) => (w', Throw e)
           end.

Definition throw {A} (e : JsError) : Js A := fun w => (w, Throw e).

Definition try_catch {A} (body : Js A) (handler : JsError -> Js A) : Js A :=
  fun w => match body w with
           | (w', Normal a) => (w', Normal a)
           | (w', Throw e) => handler e w'
           end.

(** [await p] once [p] has settled. *)
Definition await {A} (p : Settled A) : Js A :=
  match p with
  | Fulfilled a => ret a
  | Rejected e => throw e
  end.

Definition get : Js World := fun w => (w, Normal w).

Declare Scope js_scope.
Delimit Scope js_scope with js.
Notation "x <- m ;; k" := (bind m (fun x => k))
  (at level 100, m at next level, right associativity) : js_scope.
Notation "m ;; k" := (bind m (fun _ => k))
  (at level 100, right associativity) : js_scope.
Local Open Scope js_scope.

(** The state setters, in their functional form [setX(prev => ...)]. *)
Definition setProjects (f : list Project -> list Project) : Js unit :=
  fun w => (mkWorld (f (projects w)) (selectedProject w) (documents w)
              (messages w) (isLoading w) (inputMessage w) (inflight w)
              (timers w) (console w) (uncaught w) (next_handle w), Normal tt).

Definition setSelectedProject (p : option Project) : Js unit :=
  fun w => (mkWorld (projects w) p (documents w)
              (messages w) (isLoading w) (inputMessage w) (inflight w)
              (timers w) (console w) (uncaught w) (next_handle w), Normal tt).

Definition setDocuments (f : list Document -> list Document) : Js unit :=
  fun w => (mkWorld (projects w) (selectedProject w) (f (documents w))
              (messages w) (isLoading w) (inputMessage w) (inflight w)
              (timers w) (console w) (uncaught w) (next_handle w), Normal tt).

Definition setMessages (f : list ChatMessage -> list ChatMessage) : Js unit :=
  fun w => (mkWorld (projects w) (selectedProject w) (documents w)
              (f (messages w)) (isLoading w) (inputMessage w) (inflight w)
              (timers w) (console w) (uncaught w) (next_handle w), Normal tt).

Definition setIsLoading (b : bool) : Js unit :=
  fun w => (mkWorld (projects w) (selectedProject w) (documents w)
              (messages w) b (inputMessage w) (inflight w)
              (timers w) (console w) (uncaught w) (next_handle w), Normal tt).

Definition setInputMessage (s : string) : Js unit :=
  fun w => (mkWorld (projects w) (selectedProject w) (documents w)
              (messages w) (isLoading w) s (inflight w)
              (timers w) (console w) (uncaught w) (next_handle w), Normal tt).

(** [console.log] and [console.error]. *)
Definition log (entry : LogEntry) : Js unit :=
  fun w => (mkWorld (projects w) (selectedProject w) (documents w)
              (messages w) (isLoading w) (inputMessage w) (inflight w)
              (timers w) (console w ++ [entry]) (uncaught w) (next_handle w),
            Normal tt).

(** [axios.get/post/delete]: the request leaves and a promise comes back. *)
Definition axios (r : Request) : Js nat :=
  fun w => (mkWorld (projects w) (selectedProject w) (documents w)
              (messages w) (isLoading w) (inputMessage w)
              (inflight w ++ [(next_handle w, r)])
              (timers w) (console w) (uncaught w) (S (next_handle w)),
            Normal (next_handle w)).

(** [setTimeout(callback, 2000)] of [handleFileUpload]. *)
Definition setTimeout (closure : list Document) : Js nat :=
  fun w => (mkWorld (projects w) (selectedProject w) (documents w)
              (messages w) (isLoading w) (inputMessage w) (inflight w)
              (timers w ++ [(next_handle w, closure)])
              (console w) (uncaught w) (S (next_handle w)),
            Normal (next_handle w)).

Definition same_handle (h : nat) (entry : nat * Request) : bool :=
  Nat.eqb (fst entry) h.

Definition pending (w : World) (rid : nat) : option Request :=
  option_map snd (find (same_handle rid) (inflight w)).

(** The promise [rid] has settled: it is no longer in flight. *)
Definition settle (rid : nat) (w : World) : World :=
  mkWorld (projects w) (selectedProject w) (documents w)
    (messages w) (isLoading w) (inputMessage w)
    (filter (fun entry => negb (same_handle rid entry)) (inflight w))
    (timers w) (console w) (uncaught w) (next_handle w).

Definition armed (w : World) (tid : nat) : option (list Document) :=
  option_map snd (find (fun entry => Nat.eqb (fst entry) tid) (timers w)).

Definition disarm (tid : nat) (w : World) : World :=
  mkWorld (projects w) (selectedProject w) (documents w)
    (messages w) (isLoading w) (inputMessage w) (inflight w)
    (filter (fun entry => negb (Nat.eqb (fst entry) tid)) (timers w))
    (console w) (uncaught w) (next_handle w).

Definition report (e : JsError) (w : World) : World :=
  mkWorld (projects w) (selectedProject w) (documents w)
    (messages w) (isLoading w) (inputMessage w) (inflight w)
    (timers w) (console w) (uncaught w ++ [e]) (next_handle w).

(** Run a handler whose result nobody reads: an event callback, or an
    [async] function whose promise is dropped.  What it throws becomes an
    uncaught error or an unhandled rejection. *)
Definition spawn (m : Js unit) (w : World) : World :=
  match m w with
  | (w', Normal _) => w'
  | (w', Throw e) => report e w'
  end.

(* ===================================================================== *)
(** ** HTTP access functions ([services/*.js]) *)
(* ===================================================================== *)

(** Each access function is [async]: [f] is the part before its [await]
    (the axios call leaves), [f_resume] the part after it, run with the
    settled axios promise; [response.data] is the fulfilled value.  A body
    that is empty or the JSON [null] is [None]. *)
Module Services.

(* useProjects.js *)
Definition getProjectsQuery : Js nat := axios GetProjects.
Definition getProjectsQuery_resume
    (response : Settled (option (list Project))) : Js (option (list Project)) :=
  try_catch (data <- await response ;; ret data)
    (fun error =>
       log (console_error "Error posting chat query:" (Some error)) ;;
       throw error).

Definition AddProjects (newProject : NewProject) : Js nat :=
  axios (PostProject newProject).
Definition AddProjects_resume
    (response : Settled (option Project)) : Js (option Project) :=
  try_catch (data <- await response ;; ret data)
    (fun error =>
       log (console_error "Error posting chat query:" (Some error)) ;;
       throw error).

Definition DeleteProjects (project_id : string) : Js nat :=
  axios (DeleteProject project_id).
Definition DeleteProjects_resume (response : Settled JsValue) : Js JsValue :=
  try_catch (data <- await response ;; ret data)
    (fun error =>
       log (console_error "Error posting chat query:" (Some error)) ;;
       throw error).

(* useProjectDocuments.js *)
Definition getProjectDocumentsQuery (project_id : string) : Js nat :=
  axios (GetProjectDocuments project_id).
Definition getProjectDocumentsQuery_resume
    (response : Settled (option (list Document))) : Js (option (list Document)) :=
  try_catch (data <- await response ;; ret data)
    (fun error =>
       log (console_error "Error posting chat query:" (Some error)) ;;
       throw error).

Definition uploadDocumentQuery (projectId : string) (formData : FormData)
  : Js nat :=
  axios (PostDocument projectId formData).
Definition uploadDocumentQuery_resume (response : Settled JsValue) : Js JsValue :=
  try_catch (data <- await response ;; ret data)
    (fun error =>
       log (console_error "Error uploading document:" (Some error)) ;;
       throw error).

Definition deleteDocument (documentId : string) : Js nat :=
  axios (DeleteDocument documentId).
Definition deleteDocument_resume (response : Settled JsValue) : Js JsValue :=
  try_catch (data <- await response ;; ret data)
    (fun error =>
       log (console_error "Error deleting document:" (Some error)) ;;
       throw error).

(* useChat.js *)
Definition postChatQuery (query : ChatPayload) : Js nat :=
  axios (PostChatQuery query).
Definition postChatQuery_resume
    (response : Settled ChatResponse) : Js ChatResponse :=
  try_catch (data <- await response ;; ret data)
    (fun error =>
       log (console_error "Error posting chat query:" (Some error)) ;;
       throw error).

Definition getChatHistory (project_id : string) : Js nat :=
  axios (GetChatHistory project_id).
Definition getChatHistory_resume
    (response : Settled (option (list Conversation)))
  : Js (option (list Conversation)) :=
  try_catch (data <- await response ;; ret data)
    (fun error =>
       log (console_error "Error posting chat feedback:" (Some error)) ;;
       throw error).

End Services.
Import Services.

(** The eight access functions as one family, to quantify over them. *)
Inductive AccessFunction : Type :=
| fn_getProjectsQuery | fn_AddProjects | fn_DeleteProjects
| fn_getProjectDocumentsQuery | fn_uploadDocumentQuery | fn_deleteDocument
| fn_postChatQuery | fn_getChatHistory.

Definition data_of (f : AccessFunction) : Type :=
  match f with
  | fn_getProjectsQuery => option (list Project)
  | fn_AddProjects => option Project
  | fn_DeleteProjects => JsValue
  | fn_getProjectDocumentsQuery => option (list Document)
  | fn_uploadDocumentQuery => JsValue
  | fn_deleteDocument => JsValue
  | fn_postChatQuery => ChatResponse
  | fn_getChatHistory => option (list Conversation)
  end.

Definition resume_of (f : AccessFunction)
  : Settled (data_of f) -> Js (data_of f) :=
  match f with
  | fn_getProjectsQuery => getProjectsQuery_resume
  | fn_AddProjects => AddProjects_resume
  | fn_DeleteProjects => DeleteProjects_resume
  | fn_getProjectDocumentsQuery => getProjectDocumentsQuery_resume
  | fn_uploadDocumentQuery => uploadDocumentQuery_resume
  | fn_deleteDocument => deleteDocument_resume
  | fn_postChatQuery => postChatQuery_resume
  | fn_getChatHistory => getChatHistory_resume
  end.

(** The label each function passes to [console.error]. *)
Definition label_of (f : AccessFunction) : string :=
  match f with
  | fn_uploadDocumentQuery => "Error uploading document:"
  | fn_deleteDocument => "Error deleting document:"
  | fn_getChatHistory => "Error posting chat feedback:"
  | _ => "Error posting chat query:"
  end.

(* ===================================================================== *)
(** ** The root container ([App.tsx]) and the chat panel *)
(* ===================================================================== *)

(** [Array.prototype.flatMap] with a callback that returns an array. *)
Definition flatMap {A B} (f : A -> list B) (l : list A) : list B :=
  concat (map f l).

(** What [Date.now()], [Math.random()] and [new Date().toISOString()]
    give while the [map] callback of [handleFileUpload] builds one
    record. *)
Record Draw : Type := mkDraw {
  draw_now : Z;
  draw_random : string;
  draw_iso : string
}.

Section Frontend.

(** [process.env.REACT_APP_NUM_CHUNKS] read as a decimal integer;
    [None] when it is unset or empty. *)
Variable REACT_APP_NUM_CHUNKS : option Z.

(** *** Fetches *)

Definition fetchProjects : Js nat := getProjectsQuery.
Definition fetchProjects_resume
    (settled : Settled (option (list Project))) : Js unit :=
  response <- getProjectsQuery_resume settled ;;
  match response with
  | Some data => setProjects (fun _ => data)
  | None => log (console_error "Failed to fetch projects" None)
  end.

Definition fetchProjectDocuments (projectId : string) : Js nat :=
  getProjectDocumentsQuery projectId.
Definition fetchProjectDocuments_resume
    (settled : Settled (option (list Document))) : Js unit :=
  try_catch
    (response <- getProjectDocumentsQuery_resume settled ;;
     match response with
     | Some data => setDocuments (fun _ => data)
     | None => log (console_error "Failed to fetch project documents" None)
     end)
    (fun error =>
       log (console_error "Error fetching project documents:" (Some error))).

Definition fetchChatHistory (projectId : string) : Js nat :=
  getChatHistory projectId.
Definition fetchChatHistory_resume
    (settled : Settled (option (list Conversation))) : Js unit :=
  try_catch
    (response <- getChatHistory_resume settled ;;
     log (console_log "Chat history response:") ;;
     match response with
     | Some data =>
         let allMessages := flatMap conv_messages data in
         setMessages (fun _ => allMessages)
     | None => log (console_error "Failed to fetch chat history" None)
     end)
    (fun error =>
       log (console_error "Error fetching chat history:" (Some error))).

(** [useEffect(() => { fetchProjects() }, [])]. *)
Definition mount_effect : Js unit :=
  _ <- fetchProjects ;; ret tt.

(** [useEffect(..., [selectedProject])]. *)
Definition selection_effect : Js unit :=
  w <- get ;;
  match selectedProject w with
  | Some p =>
      _ <- fetchProjectDocuments (JsString.or_else (project_id p) "") ;;
      _ <- fetchChatHistory (JsString.or_else (project_id p) "") ;;
      ret tt
  | None => ret tt
  end.

(** *** Handlers *)

Definition handleProjectCreate (name : string) (description : option string)
    (now : Z) (createdAt updatedAt : string) : Js unit :=
  let newProject :=
    {| project_id := "project-" ++ JsString.of_Z now;
       project_name := name;
       project_description := description;
       project_createdAt := createdAt;
       project_updatedAt := updatedAt;
       file_count := 0 |} in
  setProjects (fun prev => (prev ++ [newProject])%list) ;;
  log (console_log "[App] Project created:").

Definition handleProjectSelect (project : Project) : Js unit :=
  setSelectedProject (Some project) ;;
  setMessages (fun prev =>
    filter (fun m => String.eqb (msg_projectId m) (project_id project)) prev) ;;
  log (console_log "[App] Project selected:").

Definition handleProjectDelete (projectId : string) : Js unit :=
  closure <- get ;;
  setProjects (fun prev =>
    filter (fun p => negb (String.eqb (project_id p) projectId)) prev) ;;
  setDocuments (fun prev =>
    filter (fun d => negb (String.eqb (doc_projectId d) projectId)) prev) ;;
  setMessages (fun prev =>
    filter (fun m => negb (String.eqb (msg_projectId m) projectId)) prev) ;;
  response <- DeleteProjects projectId ;;
  (match selectedProject closure with
   | Some p =>
       if String.eqb (project_id p) projectId
       then setSelectedProject None else ret tt
   | None => ret tt
   end) ;;
  log (console_log "[App] Project deleted:").

Definition new_document (projectId : string) (dropped : File * Draw)
  : Document :=
  let (file, d) := dropped in
  {| doc_id := "doc-" ++ JsString.of_Z (draw_now d) ++ "-" ++ draw_random d;
     doc_projectId := projectId;
     doc_filename := file_name file;
     doc_fileType :=
       JsString.toLowerCase (JsString.split_dot_pop (file_name file));
     doc_uploadedAt := draw_iso d;
     doc_size := file_size file;
     doc_status := processing |}.

Definition with_status (s : DocStatus) (doc : Document) : Document :=
  {| doc_id := doc_id doc; doc_projectId := doc_projectId doc;
     doc_filename := doc_filename doc; doc_fileType := doc_fileType doc;
     doc_uploadedAt := doc_uploadedAt doc; doc_size := doc_size doc;
     doc_status := s |}.

(** The callback handed to [setTimeout]. *)
Definition mark_ready (newDocuments : list Document) : Js unit :=
  setDocuments (fun prev =>
    map (fun doc =>
           match find (fun d => String.eqb (doc_id d) (doc_id doc))
                      newDocuments with
           | Some _ => with_status ready doc
           | None => doc
           end) prev).

Definition bump_file_count (projectId : string) (n : Z) (updatedAt : string)
    (p : Project) : Project :=
  if String.eqb (project_id p) projectId
  then {| project_id := project_id p; project_name := project_name p;
          project_description := project_description p;
          project_createdAt := project_createdAt p;
          project_updatedAt := updatedAt;
          file_count := JsNumber.add (file_count p) n |}
  else p.

(** The [FormData] built from [files[0]]. *)
Definition upload_form (file0 : File) (projectId formIso : string) : FormData :=
  [ ("file", FormFile file0);
    ("projectId", FormText projectId);
    ("filename", FormText (file_name file0));
    ("fileType", FormText
       (JsString.or_else
          (JsString.toLowerCase (JsString.split_dot_pop (file_name file0)))
          "unknown"));
    ("size", FormText (JsString.of_Z (file_size file0)));
    ("uploadedAt", FormText formIso);
    ("status", FormText "processing") ].

(** [files] pairs each dropped file with the readings drawn for its
    record; [formIso] and [updatedAt] are the two later readings of the
    clock. *)
Definition handleFileUpload (files : list (File * Draw)) (projectId : string)
    (formIso updatedAt : string) : Js unit :=
  let newDocuments := map (new_document projectId) files in
  match files with
  | [] =>
      (* files[0] is undefined: reading files[0].name throws *)
      throw (TypeError
        "Cannot read properties of undefined (reading 'name')")
  | (file0, _) :: _ =>
      let formData := upload_form file0 projectId formIso in
      rid <- uploadDocumentQuery projectId formData ;;
      let response := JPromise rid in
      if negb (ToBoolean response) then
        log (console_error "Failed to upload documents" None)
      else
        setDocuments (fun prev => (prev ++ newDocuments)%list) ;;
        setProjects (fun prev =>
          map (bump_file_count projectId (Z.of_nat (length files)) updatedAt)
              prev) ;;
        _ <- setTimeout newDocuments ;;
        ret tt
  end.

(** FileUploader.tsx: [onDrop]. *)
Definition onDrop (acceptedFiles : list (File * Draw)) (projectId : string)
    (formIso updatedAt : string) : Js unit :=
  log (console_log "[FileUploader] Files dropped:") ;;
  handleFileUpload acceptedFiles projectId formIso updatedAt.

(** The drop zone calls [onDrop] inside a promise chain whose [catch]
    hands what was thrown to [console.error]. *)
Definition useDropzone (callback : Js unit) : Js unit :=
  try_catch callback (fun e => log (console_error "" (Some e))).

Definition handleSendMessage (content : string) (now : Z) (timestamp : string)
  : Js unit :=
  closure <- get ;;
  match selectedProject closure with
  | None => ret tt
  | Some p =>
      setIsLoading true ;;
      let userMessage :=
        {| msg_id := "msg-" ++ JsString.of_Z now;
           msg_projectId := project_id p;
           msg_content := content;
           msg_role := user;
           msg_timestamp := timestamp;
           msg_sources := None |} in
      setMessages (fun prev => (prev ++ [userMessage])%list)
  end.

(** The prop [selectedProjectId={selectedProject?.id || ''}]. *)
Definition selectedProjectId (w : World) : string :=
  match selectedProject w with
  | Some p => JsString.or_else (project_id p) ""
  | None => ""
  end.

(** ChatPanel.tsx: [handleSend] up to its [await]. *)
Definition handleSend (now : Z) (timestamp : string) : Js unit :=
  closure <- get ;;
  if andb (JsString.truthy (JsString.trim (inputMessage closure)))
          (negb (isLoading closure))
  then
    handleSendMessage (inputMessage closure) now timestamp ;;
    let payload :=
      {| include_sources := true;
         max_chunks := match REACT_APP_NUM_CHUNKS with
                       | Some n => n
                       | None => 5
                       end;
         payload_project_id := selectedProjectId closure;
         query := inputMessage closure |} in
    setInputMessage "" ;;
    _ <- postChatQuery payload ;;
    ret tt
  else ret tt.

(** [handleSend] from its [await] on, when the request is rejected or
    fulfilled with a body of the documented shape; the other bodies are
    the matter of [handleSend_resume_unshaped]. *)
Definition handleSend_resume (settled : Settled ChatResponse) : Js unit :=
  response <- postChatQuery_resume settled ;;
  (if success response then
     let message :=
       {| msg_id := resp_conversation_id response;
          msg_projectId := meta_project_id (message_metadata response);
          msg_content := response_text response;
          msg_role := assistant;
          msg_timestamp := meta_timestamp (message_metadata response);
          msg_sources := resp_sources response |} in
     setMessages (fun prevMessages => (prevMessages ++ [message])%list) ;;
     setInputMessage "" ;;
     setIsLoading false
   else
     log (console_error "Failed to send message" None)) ;;
  setIsLoading false.

(** [handleSend] from its [await] on, when the request is fulfilled with
    a body that is not of the documented shape: [response.success] cannot
    be read on [null], and building [message] reads
    [response.message_metadata.project_id]. *)
Definition handleSend_resume_unshaped (body : UnshapedBody) : Js unit :=
  success_field <-
    (match body with
     | BodyNull =>
         throw (TypeError "Cannot read properties of null (reading 'success')")
     | BodyPrimitive => ret false
     | BodyWithoutMetadata success => ret success
     end) ;;
  (if (success_field : bool) then
     throw (TypeError
       "Cannot read properties of undefined (reading 'project_id')")
   else
     log (console_error "Failed to send message" None)) ;;
  setIsLoading false.

(** ProjectPanel.tsx: [handleCreateProject], before and after its
    [await]; the form fields are local to the panel. *)
Definition handleCreateProject (newProject : NewProject) : Js unit :=
  if JsString.truthy (JsString.trim (new_name newProject))
  then _ <- AddProjects newProject ;; ret tt
  else ret tt.
Definition handleCreateProject_resume (settled : Settled (option Project))
  : Js unit :=
  response <- AddProjects_resume settled ;;
  match response with
  | Some _ =>
      log (console_log "Project created successfully:") ;;
      _ <- fetchProjects ;; ret tt
  | None => ret tt
  end.

(** *** What the panels enable *)

Definition selectedProjectName (w : World) : option string :=
  option_map project_name (selectedProject w).

Definition name_falsy (n : option string) : bool :=
  match n with
  | Some s => negb (JsString.truthy s)
  | None => true
  end.

(** [disabled={isLoading || !selectedProjectName}] of the textarea. *)
Definition textarea_disabled (w : World) : bool :=
  orb (isLoading w) (name_falsy (selectedProjectName w)).

(** [disabled={!inputMessage.trim() || isLoading || !selectedProjectName}]
    of the Send button. *)
Definition send_disabled (w : World) : bool :=
  orb (negb (JsString.truthy (JsString.trim (inputMessage w))))
      (orb (isLoading w) (name_falsy (selectedProjectName w))).

(** *** Events *)

Inductive Event : Type :=
(* the user *)
| SelectProject (project : Project)
| ClickDeleteProject (project : Project)
| CreateProject (name : string) (description : option string)
    (now : Z) (createdAt updatedAt : string)
| SubmitProjectForm (newProject : NewProject)
| DropFiles (files : list (File * Draw)) (formIso updatedAt : string)
| ChangeInput (text : string)
| PressSend (now : Z) (timestamp : string)
(* the network: the promise [rid] settles *)
| ProjectsSettled (rid : nat) (r : Settled (option (list Project)))
| AddProjectSettled (rid : nat) (r : Settled (option Project))
| DeleteProjectSettled (rid : nat) (r : Settled JsValue)
| DocumentsSettled (rid : nat) (r : Settled (option (list Document)))
| UploadSettled (rid : nat) (r : Settled JsValue)
| ChatSettled (rid : nat) (r : Settled ChatResponse)
| ChatSettledUnshaped (rid : nat) (body : UnshapedBody)
| HistorySettled (rid : nat) (r : Settled (option (list Conversation)))
(* the clock: the timeout [tid] expires *)
| TimerFired (tid : nat).

Definition same_selection (a b : option Project) : bool :=
  match a, b with
  | Some p, Some q => if Project_eq_dec p q then true else false
  | None, None => true
  | _, _ => false
  end.

(** After the render that follows a handler, the selection effect runs
    when its dependency changed. *)
Definition rerender (before : option Project) (w : World) : World :=
  if same_selection before (selectedProject w) then w
  else spawn selection_effect w.

Definition dispatch (handler : Js unit) (w : World) : World :=
  rerender (selectedProject w) (spawn handler w).

Definition listed (p : Project) (w : World) : bool :=
  existsb (fun q => if Project_eq_dec p q then true else false) (projects w).

(** One event; [None] when the interface does not offer it (a row that
    is not shown, a disabled control, a promise that is not in flight). *)
Definition exec (ev : Event) (w : World) : option World :=
  match ev with
  | SelectProject p =>
      if listed p w then Some (dispatch (handleProjectSelect p) w) else None
  | ClickDeleteProject p =>
      if listed p w
      then Some (dispatch (handleProjectDelete (project_id p)) w)
      else None
  | CreateProject name description now createdAt updatedAt =>
      Some (spawn (handleProjectCreate name description now createdAt updatedAt) w)
  | SubmitProjectForm np => Some (spawn (handleCreateProject np) w)
  | DropFiles files formIso updatedAt =>
      match selectedProject w with
      | Some p =>
          Some (spawn (useDropzone
                         (onDrop files (project_id p) formIso updatedAt)) w)
      | None => None
      end
  | ChangeInput text =>
      if textarea_disabled w then None
      else Some (spawn (setInputMessage text) w)
  | PressSend now timestamp =>
      if textarea_disabled w then None
      else Some (spawn (handleSend now timestamp) w)
  | ProjectsSettled rid r =>
      match pending w rid with
      | Some GetProjects => Some (spawn (fetchProjects_resume r) (settle rid w))
      | _ => None
      end
  | AddProjectSettled rid r =>
      match pending w rid with
      | Some (PostProject _) =>
          Some (spawn (handleCreateProject_resume r) (settle rid w))
      | _ => None
      end
  | DeleteProjectSettled rid r =>
      match pending w rid with
      | Some (DeleteProject _) =>
          Some (spawn (_ <- DeleteProjects_resume r ;; ret tt) (settle rid w))
      | _ => None
      end
  | DocumentsSettled rid r =>
      match pending w rid with
      | Some (GetProjectDocuments _) =>
          Some (spawn (fetchProjectDocuments_resume r) (settle rid w))
      | _ => None
      end
  | UploadSettled rid r =>
      match pending w rid with
      | Some (PostDocument _ _) =>
          Some (spawn (_ <- uploadDocumentQuery_resume r ;; ret tt) (settle rid w))
      | _ => None
      end
  | ChatSettled rid r =>
      match pending w rid with
      | Some (PostChatQuery _) =>
          Some (spawn (handleSend_resume r) (settle rid w))
      | _ => None
      end
  | ChatSettledUnshaped rid body =>
      match pending w rid with
      | Some (PostChatQuery _) =>
          Some (spawn (handleSend_resume_unshaped body) (settle rid w))
      | _ => None
      end
  | HistorySettled rid r =>
      match pending w rid with
      | Some (GetChatHistory _) =>
          Some (spawn (fetchChatHistory_resume r) (settle rid w))
      | _ => None
      end
  | TimerFired tid =>
      match armed w tid with
      | Some newDocuments =>
          Some (spawn (mark_ready newDocuments) (disarm tid w))
      | None => None
      end
  end.

Fixpoint run (evs : list Event) (w : World) : option World :=
  match evs with
  | [] => Some w
  | ev :: rest =>
      match exec ev w with
      | Some w' => run rest w'
      | None => None
      end
  end.

(** The page after its first render: the mount effect has run. *)
Definition boot : World := spawn mount_effect init.

Definition reachable (w : World) : Prop :=
  exists evs, run evs boot = Some w.

End Frontend.

(* ===================================================================== *)
(** ** The common button, the message bubble and the source panel *)
(* ===================================================================== *)

(** Button.tsx: [disabled={disabled || loading}]; the [disabled] prop may
    be absent. *)
Definition Button_disabled (disabled : option bool) (loading : bool) : bool :=
  match disabled with
  | Some true => true
  | _ => loading
  end.

(** The Send button of the chat panel:
    [<Button disabled={...} loading={isLoading} onClick={handleSend}>]. *)
Definition send_button_disabled (w : World) : bool :=
  Button_disabled (Some (send_disabled w)) (isLoading w).

(** MessageBubble.tsx *)
Definition isUser (message : ChatMessage) : bool :=
  match msg_role message with
  | user => true
  | assistant => false
  end.

(** [!isUser && message.sources && message.sources.length > 0]. *)
Definition shows_sources_button (message : ChatMessage) : bool :=
  andb (negb (isUser message))
       (match msg_sources message with
        | Some sources => Nat.ltb 0 (length sources)
        | None => false
        end).

(** The text [n source(s)] of the bubble and of the panel footer:
    [`${n} source${n > 1 ? 's' : ''}`]. *)
Definition count_of_sources (n : nat) : string :=
  JsString.of_Z (Z.of_nat n) ++ " source" ++ (if Nat.ltb 1 n then "s" else "").

(** App.tsx: the two state slices of the source panel and their
    handlers; no other handler sets them. *)
Record PanelState : Type := mkPanelState {
  currentSources : list Source;
  isSourcePanelOpen : bool
}.

Definition panel_init : PanelState :=
  {| currentSources := []; isSourcePanelOpen := false |}.

Definition handleSourceClick (sources : list Source) (s : PanelState)
  : PanelState :=
  {| currentSources := sources; isSourcePanelOpen := true |}.

(** [onClose={() => setIsSourcePanelOpen(false)}]. *)
Definition onClose (s : PanelState) : PanelState :=
  {| currentSources := currentSources s; isSourcePanelOpen := false |}.

(** SourcePanel.tsx: which of its three bodies is rendered. *)
Inductive PanelView : Type :=
| PanelHidden                                      (* return null *)
| PanelEmpty                                       (* "No sources to display" *)
| PanelList (cards : list Source) (footer : string).

Definition SourcePanel (sources : list Source) (isOpen : bool) : PanelView :=
  if negb isOpen then PanelHidden
  else if Nat.eqb (length sources) 0 then PanelEmpty
  else PanelList sources ("Showing " ++ count_of_sources (length sources)).

(** What the user can do with the panel: press the sources button of a
    bubble that shows one, or the close button of the open panel. *)
Inductive PanelEvent : Type :=
| ClickSources (message : ChatMessage)
| ClickClose.

Definition panel_exec (ev : PanelEvent) (s : PanelState) : option PanelState :=
  match ev with
  | ClickSources message =>
      if shows_sources_button message then
        match msg_sources message with
        | Some sources => Some (handleSourceClick sources s)
        | None => None
        end
      else None
  | ClickClose =>
      if isSourcePanelOpen s then Some (onClose s) else None
  end.

Fixpoint panel_run (evs : list PanelEvent) (s : PanelState)
  : option PanelState :=
  match evs with
  | [] => Some s
  | ev :: rest =>
      match panel_exec ev s with
      | Some s' => panel_run rest s'
      | None => None
      end
  end.

(* ===================================================================== *)
(** ** The earlier revision of the root container *)
(* ===================================================================== *)

(** App.tsx before the backend was wired in: the handlers whose bodies
    differ from the later ones and that fit the same world. *)
Module Legacy.

Definition handleProjectDelete (projectId : string) : Js unit :=
  closure <- get ;;
  setProjects (fun prev =>
    filter (fun p => negb (String.eqb (project_id p) projectId)) prev) ;;
  setDocuments (fun prev =>
    filter (fun d => negb (String.eqb (doc_projectId d) projectId)) prev) ;;
  setMessages (fun prev =>
    filter (fun m => negb (String.eqb (msg_projectId m) projectId)) prev) ;;
  (match selectedProject closure with
   | Some p =>
       if String.eqb (project_id p) projectId
       then setSelectedProject None else ret tt
   | None => ret tt
   end) ;;
  log (console_log "[App] Project deleted:").

Definition handleFileUpload (files : list (File * Draw)) (projectId : string)
    (updatedAt : string) : Js unit :=
  log (console_log "[App] Uploading files:") ;;
  let newDocuments := map (new_document projectId) files in
  setDocuments (fun prev => (prev ++ newDocuments)%list) ;;
  setProjects (fun prev =>
    map (bump_file_count projectId (Z.of_nat (length files)) updatedAt) prev) ;;
  _ <- setTimeout newDocuments ;;
  ret tt.

End Legacy.

(* ===================================================================== *)
(** ** Vocabulary of the statements *)
(* ===================================================================== *)

(** The operations on the local project list: [handleProjectCreate] and
    [handleProjectDelete], each followed by its render. *)
Inductive ProjectOp : Type :=
| OpCreate (name : string) (description : option string)
    (now : Z) (createdAt updatedAt : string)
| OpDelete (projectId : string).

Definition apply_op (w : World) (op : ProjectOp) : World :=
  match op with
  | OpCreate name description now createdAt updatedAt =>
      dispatch (handleProjectCreate name description now createdAt updatedAt) w
  | OpDelete projectId => dispatch (handleProjectDelete projectId) w
  end.

Definition apply_ops (ops : list ProjectOp) (w : World) : World :=
  fold_left apply_op ops w.

(** The chat queries in flight. *)
Definition is_chat_query (entry : nat * Request) : bool :=
  match snd entry with
  | PostChatQuery _ => true
  | _ => false
  end.

Definition chat_inflight (w : World) : list (nat * Request) :=
  filter is_chat_query (inflight w).

(** The upload requests in flight. *)
Definition is_upload (entry : nat * Request) : bool :=
  match snd entry with
  | PostDocument _ _ => true
  | _ => false
  end.

Definition uploads_inflight (w : World) : list (nat * Request) :=
  filter is_upload (inflight w).

(** While the flag is down no chat query is in flight, and there is never
    more than one. *)
Definition one_query_at_a_time (w : World) : Prop :=
  (isLoading w = false -> chat_inflight w = [])
  /\ (length (chat_inflight w) <= 1)%nat.

(** The flag is up and no chat query is left to bring it down. *)
Definition stuck_loading (w : World) : Prop :=
  isLoading w = true /\ chat_inflight w = [].

(** "A response for a project that is no longer the selected one is not
    applied", for the two fetches of the selection effect. *)
Definition stale_documents_discarded (env : option Z) : Prop :=
  forall (w w' : World) (rid : nat) (projectId : string) (current : Project)
         (data : option (list Document)),
    reachable env w ->
    pending w rid = Some (GetProjectDocuments projectId) ->
    selectedProject w = Some current ->
    project_id current <> projectId ->
    exec env (DocumentsSettled rid (Fulfilled data)) w = Some w' ->
    documents w' = documents w.

Definition stale_history_discarded (env : option Z) : Prop :=
  forall (w w' : World) (rid : nat) (projectId : string) (current : Project)
         (data : option (list Conversation)),
    reachable env w ->
    pending w rid = Some (GetChatHistory projectId) ->
    selectedProject w = Some current ->
    project_id current <> projectId ->
    exec env (HistorySettled rid (Fulfilled data)) w = Some w' ->
    messages w' = messages w.

(** [quiet m]: running [m] keeps [isLoading], and the requests it sends
    are not chat queries. *)
Definition quiet {A} (m : Js A) : Prop :=
  forall w,
    isLoading (fst (m w)) = isLoading w
    /\ exists sent,
         inflight (fst (m w)) = (inflight w ++ sent)%list
         /\ filter is_chat_query sent = [].

(** [calm w w']: from [w] to [w'] the flag is unchanged and no chat query
    was sent (some may have been dropped from the list). *)
Definition calm (w w' : World) : Prop :=
  isLoading w' = isLoading w
  /\ exists keep, chat_inflight w' = filter keep (chat_inflight w).

(** Which events may move the flag or send a chat query. *)
Definition about_chat (ev : Event) : bool :=
  match ev with
  | PressSend _ _ | ChatSettled _ _ | ChatSettledUnshaped _ _ => true
  | _ => false
  end.

(** A text of white space only, the empty text included. *)
Fixpoint blank (s : string) : bool :=
  match s with
  | EmptyString => true
  | String c rest => andb (JsString.is_white_space c) (blank rest)
  end.

Fixpoint has_dot (s : string) : bool :=
  match s with
  | EmptyString => false
  | String c rest => orb (Ascii.eqb c "."%char) (has_dot rest)
  end.

(** The event is the settlement of the promise [h]. *)
Definition settles (ev : Event) (h : nat) : Prop :=
  match ev with
  | ProjectsSettled rid _ | AddProjectSettled rid _
  | DeleteProjectSettled rid _ | DocumentsSettled rid _
  | UploadSettled rid _ | ChatSettled rid _ | ChatSettledUnshaped rid _
  | HistorySettled rid _ => rid = h
  | _ => False
  end.

(** [additive m]: running [m] only adds to the requests in flight and to
    the armed timers. *)
Definition additive {A} (m : Js A) : Prop :=
  forall w,
    (exists sent, inflight (fst (m w)) = (inflight w ++ sent)%list)
    /\ (exists armed_now, timers (fst (m w)) = (timers w ++ armed_now)%list).

(** The selection that [handleProjectDelete] leaves. *)
Definition selection_after_delete (projectId : string) (sel : option Project)
  : option Project :=
  match sel with
  | Some p => if String.eqb (project_id p) projectId then None else Some p
  | None => None
  end.

(** "A drop of N files adds N to the file count of the project", read
    on integers. *)
Definition drop_adds_N_to_count : Prop :=
  forall (files : list (File * Draw)) (projectId formIso updatedAt : string)
         (w : World),
    map file_count
        (projects (spawn (handleFileUpload files projectId formIso updatedAt) w))
    = map (fun p => if String.eqb (project_id p) projectId
                    then file_count p + Z.of_nat (length files)
                    else file_count p) (projects w).

(** The counts that a drop of [n] files raises stay within the integers
    a double holds exactly. *)
Definition counts_stay_exact (projectId : string) (n : Z) (l : list Project)
  : Prop :=
  Forall (fun p => project_id p = projectId ->
                   Z.abs (file_count p + n) <= 2 ^ 53) l.

(** A project whose count is the largest power of two a double still
    counts from, selected, and one file dropped on it. *)
Module Edge.

Definition crowded : Project :=
  {| project_id := "p9"; project_name := "Crowded";
     project_description := None;
     project_createdAt := "2024-01-03T00:00:00.000Z";
     project_updatedAt := "2024-01-03T00:00:00.000Z";
     file_count := 9007199254740992 |}.

Definition world : World :=
  mkWorld [crowded] (Some crowded) [] [] false "" [] [] [] [] 0.

Definition one_file : list (File * Draw) :=
  [ ({| file_name := "c.pdf"; file_size := 3000; file_bytes := "%PDF-c" |},
     {| draw_now := 1700000000000; draw_random := "0.5";
        draw_iso := "2023-11-14T22:13:20.000Z" |}) ].

End Edge.

(** Sample data. *)
Module Sample.

Definition alpha : Project :=
  {| project_id := "p1"; project_name := "Alpha";
     project_description := None;
     project_createdAt := "2024-01-01T00:00:00.000Z";
     project_updatedAt := "2024-01-01T00:00:00.000Z";
     file_count := 1 |}.

Definition beta : Project :=
  {| project_id := "p2"; project_name := "Beta";
     project_description := Some "second";
     project_createdAt := "2024-01-02T00:00:00.000Z";
     project_updatedAt := "2024-01-02T00:00:00.000Z";
     file_count := 0 |}.

Definition report_pdf : Document :=
  {| doc_id := "d1"; doc_projectId := "p1"; doc_filename := "report.pdf";
     doc_fileType := "pdf"; doc_uploadedAt := "2024-01-01T00:00:01.000Z";
     doc_size := 2048; doc_status := ready |}.

Definition excerpt : Source :=
  {| documentId := "d1"; documentName := "report.pdf";
     chunk := "Revenue grew."; pageNumber := Some 5;
     relevanceScore := Some "0.92" |}.

Definition question : ChatMessage :=
  {| msg_id := "m1"; msg_projectId := "p1"; msg_content := "Revenue?";
     msg_role := user; msg_timestamp := "2024-01-01T00:01:00.000Z";
     msg_sources := None |}.

Definition answer : ChatMessage :=
  {| msg_id := "m2"; msg_projectId := "p1"; msg_content := "It grew.";
     msg_role := assistant; msg_timestamp := "2024-01-01T00:01:02.000Z";
     msg_sources := Some [excerpt] |}.

Definition followup : ChatMessage :=
  {| msg_id := "m3"; msg_projectId := "p1"; msg_content := "By how much?";
     msg_role := user; msg_timestamp := "2024-01-01T00:02:00.000Z";
     msg_sources := None |}.

Definition history : list Conversation :=
  [ {| conversation_id := "c1"; conv_messages := [question; answer] |};
    {| conversation_id := "c2"; conv_messages := [followup] |} ].

Definition a_pdf : File :=
  {| file_name := "a.pdf"; file_size := 1000; file_bytes := "%PDF-a" |}.

Definition b_docx : File :=
  {| file_name := "b.docx"; file_size := 2000; file_bytes := "PK-b" |}.

Definition drop : list (File * Draw) :=
  [ (a_pdf, {| draw_now := 1700000000000; draw_random := "0.25";
               draw_iso := "2023-11-14T22:13:20.000Z" |});
    (b_docx, {| draw_now := 1700000000000; draw_random := "0.75";
                draw_iso := "2023-11-14T22:13:20.000Z" |}) ].

Definition reply : ChatResponse :=
  {| success := true; resp_conversation_id := "c9";
     response_text := "It grew.";
     message_metadata :=
       {| meta_project_id := "p1";
          meta_timestamp := "2024-01-01T00:01:02.000Z" |};
     resp_sources := Some [excerpt] |}.

Definition network_error : JsError := AxiosError "Network Error".

(** The project list arrives, [alpha] is selected. *)
Definition opened : list Event :=
  [ ProjectsSettled 0 (Fulfilled (Some [alpha; beta]));
    SelectProject alpha ].

(** ... then [beta] is selected while the fetches for [alpha] are still
    in flight (handles 1 and 2). *)
Definition switched : list Event :=
  (opened ++ [ SelectProject beta ])%list.

(** ... or a question is typed and sent (handle 3). *)
Definition asked : list Event :=
  (opened ++ [ ChangeInput "Revenue?";
               PressSend 1700000000000 "2023-11-14T22:13:20.000Z" ])%list.

Definition world_after (evs : list Event) : World :=
  match run None evs (boot) with
  | Some w => w
  | None => init
  end.

End Sample.

(* ===================================================================== *)
(** ** Proof support *)
(* ===================================================================== *)

Ltac js_unfold :=
  unfold spawn, bind, ret, throw, try_catch, await, get, log, axios,
    setTimeout, report, setProjects, setSelectedProject, setDocuments,
    setMessages, setIsLoading, setInputMessage in *.

Lemma filter_negb_eqb_absent {A} (key : A -> string) (k : string) (l : list A) :
  Forall (fun x => key x <> k)
         (filter (fun x => negb (String.eqb (key x) k)) l).
Proof.
  apply Forall_forall. intros x Hx.
  apply filter_In in Hx. destruct Hx as [_ Hneq].
  apply negb_true_iff in Hneq. apply String.eqb_neq in Hneq. exact Hneq.
Qed.

Lemma flatMap_app {A B} (f : A -> list B) (l1 l2 : list A) :
  flatMap f (l1 ++ l2) = (flatMap f l1 ++ flatMap f l2)%list.
Proof. unfold flatMap. rewrite map_app. apply concat_app. Qed.

Lemma flatMap_cons {A B} (f : A -> list B) (a : A) (l : list A) :
  flatMap f (a :: l) = (f a ++ flatMap f l)%list.
Proof. reflexivity. Qed.

Lemma in_flatMap {A B} (f : A -> list B) (l : list A) (a : A) (b : B) :
  In a l -> In b (f a) -> In b (flatMap f l).
Proof.
  intros Ha Hb. unfold flatMap. apply in_concat.
  exists (f a). split; [apply in_map; exact Ha | exact Hb].
Qed.

(** Doubles around 2^53: the odd integers are missing, ties go to the
    even neighbour. *)
Example round_below_2_53 : JsNumber.round 9007199254740991 = 9007199254740991.
Proof. reflexivity. Qed.

Example round_tie_down : JsNumber.round 9007199254740993 = 9007199254740992.
Proof. vm_compute. reflexivity. Qed.

Example round_tie_up : JsNumber.round 9007199254740995 = 9007199254740996.
Proof. vm_compute. reflexivity. Qed.

Example round_negative : JsNumber.round (-9007199254740995) = -9007199254740996.
Proof. vm_compute. reflexivity. Qed.

Example round_spacing_four :
  JsNumber.round 18014398509481987 = 18014398509481988.
Proof. vm_compute. reflexivity. Qed.

(** The string helpers on small inputs. *)
Example trim_surrounding : JsString.trim "  Revenue? " = "Revenue?".
Proof. reflexivity. Qed.

Example trim_blank : JsString.truthy (JsString.trim "   ") = false.
Proof. reflexivity. Qed.

Example file_type_of_name :
  JsString.toLowerCase (JsString.split_dot_pop "Report.Final.PDF") = "pdf".
Proof. reflexivity. Qed.

Example file_type_without_dot :
  JsString.toLowerCase (JsString.split_dot_pop "README") = "readme".
Proof. reflexivity. Qed.

Example document_id_of_draw :
  "doc-" ++ JsString.of_Z 1700000000000 ++ "-" ++ "0.25"
  = "doc-1700000000000-0.25".
Proof. reflexivity. Qed.

(* ===================================================================== *)
(** ** HTTP access functions: a failure is logged and thrown again *)
(* ===================================================================== *)

(** C8.  For each of the eight HTTP access functions and every failing
    request, the function catches the failure, writes one
    [console.error] entry that carries the error, and throws the same
    error to its caller: it ends with [Throw error], never with a value,
    and nothing but the console changes. *)
Theorem access_function_logs_and_rethrows :
  forall (f : AccessFunction) (error : JsError) (w : World),
    resume_of f (Rejected error) w
    = (fst (log (console_error (label_of f) (Some error)) w), Throw error)
    /\ console (fst (resume_of f (Rejected error) w))
       = (console w ++ [console_error (label_of f) (Some error)])%list
    /\ (forall substitute,
          snd (resume_of f (Rejected error) w) <> Normal substitute).
Proof.
  intros f error w.
  destruct f; cbn; (split; [reflexivity | split; [reflexivity | ]]);
    intros substitute; discriminate.
Qed.

(* ===================================================================== *)
(** ** Chat history: flattening *)
(* ===================================================================== *)

(** C6.  When the chat-history response is a list of conversations,
    [fetchChatHistory] sets the message list to the flattening of the
    response: every message of every conversation is in it, and the
    messages of each conversation appear as one block, in their own
    order, after those of the conversations before it and before those
    of the conversations after it. *)
Theorem fetchChatHistory_flattens_all_in_order :
  forall (w : World) (response : list Conversation),
    let w' := spawn (fetchChatHistory_resume (Fulfilled (Some response))) w in
    messages w' = flatMap conv_messages response
    /\ (forall c m, In c response -> In m (conv_messages c) -> In m (messages w'))
    /\ (forall before c after,
          response = (before ++ c :: after)%list ->
          messages w'
          = (flatMap conv_messages before ++ conv_messages c
             ++ flatMap conv_messages after)%list)
    /\ length (messages w')
       = list_sum (map (fun c => length (conv_messages c)) response).
Proof.
  intros w response w'.
  assert (Hflat : messages w' = flatMap conv_messages response) by reflexivity.
  split; [exact Hflat | split; [ | split]].
  - intros c m Hc Hm. rewrite Hflat. eapply in_flatMap; eassumption.
  - intros before c after Hsplit. rewrite Hflat, Hsplit.
    rewrite flatMap_app, flatMap_cons. reflexivity.
  - rewrite Hflat. clear. induction response as [| c rest IH].
    + reflexivity.
    + rewrite flatMap_cons, length_app, IH. reflexivity.
Qed.

(* ===================================================================== *)
(** ** Renders and settlements leave the lists alone *)
(* ===================================================================== *)

(** The selection effect only sends requests. *)
Lemma rerender_frame (before : option Project) (w : World) :
  projects (rerender before w) = projects w
  /\ documents (rerender before w) = documents w
  /\ messages (rerender before w) = messages w
  /\ selectedProject (rerender before w) = selectedProject w
  /\ isLoading (rerender before w) = isLoading w
  /\ inputMessage (rerender before w) = inputMessage w
  /\ console (rerender before w) = console w
  /\ timers (rerender before w) = timers w
  /\ exists sent,
       inflight (rerender before w) = (inflight w ++ sent)%list
       /\ filter is_chat_query sent = []
       /\ filter is_upload sent = [].
Proof.
  unfold rerender.
  destruct (same_selection before (selectedProject w)).
  - repeat (split; [reflexivity | ]). exists []. rewrite app_nil_r. auto.
  - unfold selection_effect, fetchProjectDocuments, fetchChatHistory,
      getProjectDocumentsQuery, getChatHistory.
    js_unfold. destruct (selectedProject w) as [p |] eqn:Hsel; cbn.
    + rewrite Hsel. repeat (split; [reflexivity | ]).
      eexists. rewrite <- app_assoc. split; [reflexivity | split; reflexivity].
    + rewrite Hsel. repeat (split; [reflexivity | ]).
      exists []. rewrite app_nil_r. auto.
Qed.

(** A settled [DeleteProjects] or [uploadDocumentQuery] touches the
    console and the list of unhandled rejections, nothing else. *)
Lemma dropped_promise_frame {A} (resume : Settled A -> Js A) (label : string)
    (outcome : Settled A) (w : World) :
  (forall r x,
      resume r x
      = match r with
        | Fulfilled a => (x, Normal a)
        | Rejected e => (fst (log (console_error label (Some e)) x), Throw e)
        end) ->
  let w' := spawn (_ <- resume outcome ;; ret tt) w in
  projects w' = projects w /\ documents w' = documents w
  /\ messages w' = messages w /\ selectedProject w' = selectedProject w
  /\ isLoading w' = isLoading w /\ inflight w' = inflight w
  /\ timers w' = timers w.
Proof.
  intros Hresume w'. subst w'. unfold spawn, bind. rewrite Hresume.
  destruct outcome; cbn; repeat split; reflexivity.
Qed.

(* ===================================================================== *)
(** ** Deleting a project *)
(* ===================================================================== *)

(** C1.  After any sequence of create-project and delete-project
    operations, [handleProjectDelete projectId] leaves no project with
    that id in the project list and no document or message of that
    project in the document and message lists.  The removal is done
    while the backend call is still in flight, and whichever way that
    call settles, the three lists stay as the handler left them. *)
Theorem handleProjectDelete_removes_locally :
  forall (ops : list ProjectOp) (w0 : World) (projectId : string),
    let w := apply_ops ops w0 in
    let w' := dispatch (handleProjectDelete projectId) w in
    Forall (fun p => project_id p <> projectId) (projects w')
    /\ Forall (fun d => doc_projectId d <> projectId) (documents w')
    /\ Forall (fun m => msg_projectId m <> projectId) (messages w')
    /\ In (next_handle w, DeleteProject projectId) (inflight w')
    /\ forall (rid : nat) (outcome : Settled JsValue),
         let w'' := spawn (_ <- DeleteProjects_resume outcome ;; ret tt)
                          (settle rid w') in
         projects w'' = projects w'
         /\ documents w'' = documents w'
         /\ messages w'' = messages w'.
Proof.
  intros ops w0 projectId. generalize (apply_ops ops w0). clear ops w0.
  intros w. cbv zeta. unfold dispatch.
  set (handled := spawn (handleProjectDelete projectId) w).
  destruct (rerender_frame (selectedProject w) handled)
    as (Hp & Hd & Hm & _ & _ & _ & _ & _ & sent & Hsent & _).
  assert (Hlists :
    projects handled
    = filter (fun p => negb (String.eqb (project_id p) projectId)) (projects w)
    /\ documents handled
       = filter (fun d => negb (String.eqb (doc_projectId d) projectId))
                (documents w)
    /\ messages handled
       = filter (fun m => negb (String.eqb (msg_projectId m) projectId))
                (messages w)
    /\ inflight handled
       = (inflight w ++ [(next_handle w, DeleteProject projectId)])%list).
  { subst handled. unfold handleProjectDelete, DeleteProjects. js_unfold. cbn.
    destruct (selectedProject w) as [p |]; cbn;
      [destruct (String.eqb (project_id p) projectId); cbn | ];
      repeat split; reflexivity. }
  destruct Hlists as (Hp' & Hd' & Hm' & Hin').
  rewrite Hp, Hd, Hm, Hp', Hd', Hm'.
  split; [apply filter_negb_eqb_absent | ].
  split; [apply filter_negb_eqb_absent | ].
  split; [apply filter_negb_eqb_absent | ].
  split.
  - rewrite Hsent, Hin'. apply in_or_app. left. apply in_or_app. right.
    left. reflexivity.
  - intros rid outcome.
    destruct (dropped_promise_frame DeleteProjects_resume
                "Error posting chat query:" outcome
                (settle rid (rerender (selectedProject w) handled)))
      as (Ep & Ed & Em & _).
    { intros r x. destruct r; reflexivity. }
    rewrite Ep, Ed, Em. cbn.
    rewrite Hp, Hd, Hm, Hp', Hd', Hm'. repeat split; reflexivity.
Qed.

(* ===================================================================== *)
(** ** Computations that neither touch the loading flag nor query the chat *)
(* ===================================================================== *)


Lemma quiet_ret {A} (a : A) : quiet (ret a).
Proof. intros w. split; [reflexivity | ]. exists []. cbn. rewrite app_nil_r. auto. Qed.

Lemma quiet_throw {A} (e : JsError) : quiet (@throw A e).
Proof. intros w. split; [reflexivity | ]. exists []. cbn. rewrite app_nil_r. auto. Qed.

Lemma quiet_get : quiet get.
Proof. intros w. split; [reflexivity | ]. exists []. cbn. rewrite app_nil_r. auto. Qed.

Lemma quiet_bind {A B} (m : Js A) (k : A -> Js B) :
  quiet m -> (forall a, quiet (k a)) -> quiet (bind m k).
Proof.
  intros Hm Hk w. unfold bind.
  destruct (Hm w) as (Hl & sent & Hs & Hc).
  destruct (m w) as [w1 [a | e]]; cbn in *.
  - destruct (Hk a w1) as (Hl' & sent' & Hs' & Hc').
    split; [congruence | ]. exists (sent ++ sent')%list.
    rewrite Hs', Hs, app_assoc, filter_app, Hc, Hc'. auto.
  - split; [exact Hl | ]. exists sent. auto.
Qed.

Lemma quiet_try_catch {A} (body : Js A) (handler : JsError -> Js A) :
  quiet body -> (forall e, quiet (handler e)) -> quiet (try_catch body handler).
Proof.
  intros Hm Hk w. unfold try_catch.
  destruct (Hm w) as (Hl & sent & Hs & Hc).
  destruct (body w) as [w1 [a | e]]; cbn in *.
  - split; [exact Hl | ]. exists sent. auto.
  - destruct (Hk e w1) as (Hl' & sent' & Hs' & Hc').
    split; [congruence | ]. exists (sent ++ sent')%list.
    rewrite Hs', Hs, app_assoc, filter_app, Hc, Hc'. auto.
Qed.

Lemma quiet_await {A} (p : Settled A) : quiet (await p).
Proof. destruct p; [apply quiet_ret | apply quiet_throw]. Qed.

Lemma quiet_log (entry : LogEntry) : quiet (log entry).
Proof. intros w. split; [reflexivity | ]. exists []. cbn. rewrite app_nil_r. auto. Qed.

Lemma quiet_setProjects f : quiet (setProjects f).
Proof. intros w. split; [reflexivity | ]. exists []. cbn. rewrite app_nil_r. auto. Qed.

Lemma quiet_setDocuments f : quiet (setDocuments f).
Proof. intros w. split; [reflexivity | ]. exists []. cbn. rewrite app_nil_r. auto. Qed.

Lemma quiet_setMessages f : quiet (setMessages f).
Proof. intros w. split; [reflexivity | ]. exists []. cbn. rewrite app_nil_r. auto. Qed.

Lemma quiet_setSelectedProject p : quiet (setSelectedProject p).
Proof. intros w. split; [reflexivity | ]. exists []. cbn. rewrite app_nil_r. auto. Qed.

Lemma quiet_setInputMessage s : quiet (setInputMessage s).
Proof. intros w. split; [reflexivity | ]. exists []. cbn. rewrite app_nil_r. auto. Qed.

Lemma quiet_setTimeout closure : quiet (setTimeout closure).
Proof. intros w. split; [reflexivity | ]. exists []. cbn. rewrite app_nil_r. auto. Qed.

Lemma quiet_axios (r : Request) :
  is_chat_query (0%nat, r) = false -> quiet (axios r).
Proof.
  intros Hr w. split; [reflexivity | ]. exists [(next_handle w, r)]. cbn.
  split; [reflexivity | ]. unfold is_chat_query in *. cbn in *. rewrite Hr.
  reflexivity.
Qed.

Create HintDb quiet.
#[local] Hint Resolve quiet_ret quiet_throw quiet_get quiet_await quiet_log
  quiet_setProjects quiet_setDocuments quiet_setMessages
  quiet_setSelectedProject quiet_setInputMessage quiet_setTimeout : quiet.

(** Walk through a handler: one sequencing, catch or branch at a time. *)
Ltac quiet_walk :=
  repeat first
    [ progress auto with quiet
    | apply quiet_axios; reflexivity
    | apply quiet_bind; [ | intro ]
    | apply quiet_try_catch; [ | intro ]
    | match goal with
      | |- quiet (match ?x with _ => _ end) => destruct x
      | |- quiet (let _ := _ in _) => cbv zeta
      end ].

Lemma quiet_fetchProjects_resume r : quiet (fetchProjects_resume r).
Proof. unfold fetchProjects_resume, getProjectsQuery_resume. quiet_walk. Qed.

Lemma quiet_fetchProjectDocuments_resume r :
  quiet (fetchProjectDocuments_resume r).
Proof.
  unfold fetchProjectDocuments_resume, getProjectDocumentsQuery_resume.
  quiet_walk.
Qed.

Lemma quiet_fetchChatHistory_resume r : quiet (fetchChatHistory_resume r).
Proof. unfold fetchChatHistory_resume, getChatHistory_resume. quiet_walk. Qed.

Lemma quiet_selection_effect : quiet selection_effect.
Proof.
  unfold selection_effect, fetchProjectDocuments, fetchChatHistory,
    getProjectDocumentsQuery, getChatHistory.
  quiet_walk.
Qed.

Lemma quiet_handleProjectCreate name description now createdAt updatedAt :
  quiet (handleProjectCreate name description now createdAt updatedAt).
Proof. unfold handleProjectCreate. quiet_walk. Qed.

Lemma quiet_handleProjectSelect p : quiet (handleProjectSelect p).
Proof. unfold handleProjectSelect. quiet_walk. Qed.

Lemma quiet_handleProjectDelete projectId : quiet (handleProjectDelete projectId).
Proof. unfold handleProjectDelete, DeleteProjects. quiet_walk. Qed.

Lemma quiet_handleFileUpload files projectId formIso updatedAt :
  quiet (handleFileUpload files projectId formIso updatedAt).
Proof.
  unfold handleFileUpload, uploadDocumentQuery. destruct files as [| [file0 d] rest].
  - apply quiet_throw.
  - quiet_walk.
Qed.

Lemma quiet_useDropzone files projectId formIso updatedAt :
  quiet (useDropzone (onDrop files projectId formIso updatedAt)).
Proof.
  unfold useDropzone, onDrop. apply quiet_try_catch; [ | intro; apply quiet_log].
  apply quiet_bind; [apply quiet_log | intro].
  apply quiet_handleFileUpload.
Qed.

Lemma quiet_handleCreateProject np : quiet (handleCreateProject np).
Proof. unfold handleCreateProject, AddProjects. quiet_walk. Qed.

Lemma quiet_handleCreateProject_resume r : quiet (handleCreateProject_resume r).
Proof.
  unfold handleCreateProject_resume, AddProjects_resume, fetchProjects,
    getProjectsQuery.
  quiet_walk.
Qed.

Lemma quiet_DeleteProjects_resume r :
  quiet (_ <- DeleteProjects_resume r ;; ret tt).
Proof. unfold DeleteProjects_resume. quiet_walk. Qed.

Lemma quiet_uploadDocumentQuery_resume r :
  quiet (_ <- uploadDocumentQuery_resume r ;; ret tt).
Proof. unfold uploadDocumentQuery_resume. quiet_walk. Qed.

Lemma quiet_mark_ready newDocuments : quiet (mark_ready newDocuments).
Proof. unfold mark_ready. quiet_walk. Qed.

(* ===================================================================== *)
(** ** The loading flag along a run *)
(* ===================================================================== *)


Lemma filter_true {A} (l : list A) : filter (fun _ => true) l = l.
Proof. induction l as [| a l IH]; cbn; [ | rewrite IH]; reflexivity. Qed.

Lemma filter_filter {A} (f g : A -> bool) (l : list A) :
  filter f (filter g l) = filter (fun a => andb (g a) (f a)) l.
Proof.
  induction l as [| a l IH]; cbn; [reflexivity | ].
  destruct (g a); cbn; [destruct (f a) | ]; rewrite IH; reflexivity.
Qed.

Lemma filter_comm {A} (f g : A -> bool) (l : list A) :
  filter f (filter g l) = filter g (filter f l).
Proof.
  rewrite !filter_filter. apply filter_ext. intros a. apply andb_comm.
Qed.

Lemma calm_refl w : calm w w.
Proof. split; [reflexivity | ]. exists (fun _ => true). symmetry. apply filter_true. Qed.

Lemma calm_trans w1 w2 w3 : calm w1 w2 -> calm w2 w3 -> calm w1 w3.
Proof.
  intros (Hl & k & Hk) (Hl' & k' & Hk'). split; [congruence | ].
  eexists. rewrite Hk', Hk, filter_filter. reflexivity.
Qed.

Lemma calm_spawn (m : Js unit) w : quiet m -> calm w (spawn m w).
Proof.
  intros Hm. destruct (Hm w) as (Hl & sent & Hs & Hc). unfold spawn.
  destruct (m w) as [w1 [a | e]]; cbn in *;
    (split; [exact Hl | ]); exists (fun _ => true);
    unfold chat_inflight; cbn; rewrite Hs, filter_app, Hc, app_nil_r;
    symmetry; apply filter_true.
Qed.

Lemma calm_settle rid w : calm w (settle rid w).
Proof.
  split; [reflexivity | ]. eexists. unfold chat_inflight. cbn.
  apply filter_comm.
Qed.

Lemma calm_disarm tid w : calm w (disarm tid w).
Proof. split; [reflexivity | ]. exists (fun _ => true). symmetry. apply filter_true. Qed.

Lemma calm_dispatch (m : Js unit) w : quiet m -> calm w (dispatch m w).
Proof.
  intros Hm. unfold dispatch, rerender.
  destruct (same_selection _ _).
  - apply calm_spawn. exact Hm.
  - eapply calm_trans; [apply calm_spawn; exact Hm | ].
    apply calm_spawn. apply quiet_selection_effect.
Qed.


Lemma exec_calm env ev w w' :
  about_chat ev = false -> exec env ev w = Some w' -> calm w w'.
Proof.
  intros Hev Hexec. destruct ev; try discriminate Hev; unfold exec in Hexec.
  - destruct (listed project w); inversion Hexec; subst.
    apply calm_dispatch, quiet_handleProjectSelect.
  - destruct (listed project w); inversion Hexec; subst.
    apply calm_dispatch, quiet_handleProjectDelete.
  - inversion Hexec; subst. apply calm_spawn, quiet_handleProjectCreate.
  - inversion Hexec; subst. apply calm_spawn, quiet_handleCreateProject.
  - destruct (selectedProject w); inversion Hexec; subst.
    apply calm_spawn, quiet_useDropzone.
  - destruct (textarea_disabled w); inversion Hexec; subst.
    apply calm_spawn, quiet_setInputMessage.
  - destruct (pending w rid) as [[] |]; inversion Hexec; subst.
    eapply calm_trans; [apply calm_settle | ].
    apply calm_spawn, quiet_fetchProjects_resume.
  - destruct (pending w rid) as [[] |]; inversion Hexec; subst.
    eapply calm_trans; [apply calm_settle | ].
    apply calm_spawn, quiet_handleCreateProject_resume.
  - destruct (pending w rid) as [[] |]; inversion Hexec; subst.
    eapply calm_trans; [apply calm_settle | ].
    apply calm_spawn, quiet_DeleteProjects_resume.
  - destruct (pending w rid) as [[] |]; inversion Hexec; subst.
    eapply calm_trans; [apply calm_settle | ].
    apply calm_spawn, quiet_fetchProjectDocuments_resume.
  - destruct (pending w rid) as [[] |]; inversion Hexec; subst.
    eapply calm_trans; [apply calm_settle | ].
    apply calm_spawn, quiet_uploadDocumentQuery_resume.
  - destruct (pending w rid) as [[] |]; inversion Hexec; subst.
    eapply calm_trans; [apply calm_settle | ].
    apply calm_spawn, quiet_fetchChatHistory_resume.
  - destruct (armed w tid); inversion Hexec; subst.
    eapply calm_trans; [apply calm_disarm | ].
    apply calm_spawn, quiet_mark_ready.
Qed.

(** What [handleSend] does when its guard lets the message through. *)
Lemma handleSend_sends env now timestamp w p :
  selectedProject w = Some p ->
  JsString.truthy (JsString.trim (inputMessage w)) = true ->
  isLoading w = false ->
  spawn (handleSend env now timestamp) w
  = {| projects := projects w;
       selectedProject := selectedProject w;
       documents := documents w;
       messages :=
         (messages w ++
          [ {| msg_id := "msg-" ++ JsString.of_Z now;
               msg_projectId := project_id p;
               msg_content := inputMessage w;
               msg_role := user;
               msg_timestamp := timestamp;
               msg_sources := None |} ])%list;
       isLoading := true;
       inputMessage := "";
       inflight :=
         (inflight w ++
          [ (next_handle w,
             PostChatQuery
               {| include_sources := true;
                  max_chunks := match env with Some n => n | None => 5 end;
                  payload_project_id := JsString.or_else (project_id p) "";
                  query := inputMessage w |}) ])%list;
       timers := timers w;
       console := console w;
       uncaught := uncaught w;
       next_handle := S (next_handle w) |}.
Proof.
  intros Hsel Htrim Hload.
  unfold handleSend, handleSendMessage, postChatQuery, selectedProjectId.
  js_unfold. cbn. rewrite Htrim, Hload. cbn. rewrite Hsel. cbn.
  rewrite Hsel. reflexivity.
Qed.

(** ... and when it does not. *)
Lemma handleSend_blocked env now timestamp w :
  andb (JsString.truthy (JsString.trim (inputMessage w)))
       (negb (isLoading w)) = false ->
  spawn (handleSend env now timestamp) w = w.
Proof.
  intros Hguard. unfold handleSend. js_unfold. cbn. rewrite Hguard.
  reflexivity.
Qed.

(** [handleSend] after its [await]. *)
Lemma handleSend_resume_rejected e w :
  spawn (handleSend_resume (Rejected e)) w
  = {| projects := projects w;
       selectedProject := selectedProject w;
       documents := documents w;
       messages := messages w;
       isLoading := isLoading w;
       inputMessage := inputMessage w;
       inflight := inflight w;
       timers := timers w;
       console :=
         (console w ++ [console_error "Error posting chat query:" (Some e)])%list;
       uncaught := (uncaught w ++ [e])%list;
       next_handle := next_handle w |}.
Proof. reflexivity. Qed.

Lemma handleSend_resume_fulfilled response w :
  let w' := spawn (handleSend_resume (Fulfilled response)) w in
  isLoading w' = false
  /\ inflight w' = inflight w
  /\ messages w'
     = if success response
       then (messages w ++
             [ {| msg_id := resp_conversation_id response;
                  msg_projectId := meta_project_id (message_metadata response);
                  msg_content := response_text response;
                  msg_role := assistant;
                  msg_timestamp := meta_timestamp (message_metadata response);
                  msg_sources := resp_sources response |} ])%list
       else messages w.
Proof.
  unfold handleSend_resume, postChatQuery_resume. js_unfold. cbn.
  destruct (success response); cbn; repeat split; reflexivity.
Qed.

Lemma textarea_enabled_inv w :
  textarea_disabled w = false ->
  isLoading w = false /\ exists p, selectedProject w = Some p.
Proof.
  unfold textarea_disabled, selectedProjectName, name_falsy.
  intros H. apply orb_false_iff in H. destruct H as [Hl Hn].
  split; [exact Hl | ].
  destruct (selectedProject w) as [p |]; [eauto | discriminate Hn].
Qed.

Lemma pending_In w rid r :
  pending w rid = Some r -> In (rid, r) (inflight w).
Proof.
  unfold pending. destruct (find (same_handle rid) (inflight w)) as [[h r'] |] eqn:Hf;
    [ | discriminate].
  cbn. intros H. inversion H; subst.
  destruct (find_some _ _ Hf) as [Hin Hrid].
  unfold same_handle in Hrid. cbn in Hrid. apply Nat.eqb_eq in Hrid. subst.
  exact Hin.
Qed.

Lemma chat_inflight_settle rid w :
  chat_inflight (settle rid w)
  = filter (fun entry => negb (same_handle rid entry)) (chat_inflight w).
Proof. unfold chat_inflight. cbn. apply filter_comm. Qed.

Lemma pending_chat_inflight w rid payload :
  pending w rid = Some (PostChatQuery payload) ->
  In (rid, PostChatQuery payload) (chat_inflight w).
Proof.
  intros H. apply filter_In. split; [apply pending_In; exact H | reflexivity].
Qed.

Lemma single_settled rid r (l : list (nat * Request)) :
  (length l <= 1)%nat -> In (rid, r) l ->
  filter (fun entry => negb (same_handle rid entry)) l = [].
Proof.
  destruct l as [| a [| b l]]; cbn; intros Hlen Hin.
  - reflexivity.
  - destruct Hin as [-> | []]. unfold same_handle. cbn.
    rewrite Nat.eqb_refl. reflexivity.
  - lia.
Qed.

Lemma handleSend_resume_chat_inflight r w :
  chat_inflight (spawn (handleSend_resume r) w) = chat_inflight w.
Proof.
  unfold chat_inflight. destruct r as [response | e].
  - destruct (handleSend_resume_fulfilled response w) as (_ & Hin & _).
    rewrite Hin. reflexivity.
  - rewrite handleSend_resume_rejected. reflexivity.
Qed.

Lemma chat_settled_shape env rid r w w' :
  exec env (ChatSettled rid r) w = Some w' ->
  exists payload,
    pending w rid = Some (PostChatQuery payload)
    /\ w' = spawn (handleSend_resume r) (settle rid w).
Proof.
  unfold exec. destruct (pending w rid) as [[] |]; try discriminate.
  intros H. inversion H. eauto.
Qed.

Lemma chat_settled_unshaped_shape env rid body w w' :
  exec env (ChatSettledUnshaped rid body) w = Some w' ->
  exists payload,
    pending w rid = Some (PostChatQuery payload)
    /\ w' = spawn (handleSend_resume_unshaped body) (settle rid w).
Proof.
  unfold exec. destruct (pending w rid) as [[] |]; try discriminate.
  intros H. inversion H. eauto.
Qed.

Lemma handleSend_resume_unshaped_chat_inflight body w :
  chat_inflight (spawn (handleSend_resume_unshaped body) w) = chat_inflight w.
Proof. destruct body as [| | []]; reflexivity. Qed.

Lemma boot_one_query : one_query_at_a_time boot.
Proof. split; [reflexivity | cbn; lia]. Qed.

Lemma exec_one_query env ev w w' :
  one_query_at_a_time w -> exec env ev w = Some w' -> one_query_at_a_time w'.
Proof.
  intros [Hidle Hone] Hexec.
  destruct (about_chat ev) eqn:Hev.
  - destruct ev; try discriminate Hev.
    + (* PressSend *)
      unfold exec in Hexec.
      destruct (textarea_disabled w) eqn:Hena; [discriminate | ].
      inversion Hexec; subst; clear Hexec.
      destruct (textarea_enabled_inv w Hena) as [Hload [p Hsel]].
      destruct (JsString.truthy (JsString.trim (inputMessage w))) eqn:Htrim.
      * rewrite (handleSend_sends env now timestamp w p Hsel Htrim Hload).
        unfold one_query_at_a_time, chat_inflight. cbn.
        rewrite filter_app. fold (chat_inflight w). rewrite (Hidle Hload).
        cbn. split; [discriminate | lia].
      * rewrite handleSend_blocked by (rewrite Htrim; reflexivity).
        split; assumption.
    + (* ChatSettled *)
      destruct (chat_settled_shape _ _ _ _ _ Hexec) as (payload & Hpend & ->).
      assert (Hgone : chat_inflight (settle rid w) = []).
      { rewrite chat_inflight_settle.
        eapply single_settled; [exact Hone | ].
        apply pending_chat_inflight. exact Hpend. }
      unfold one_query_at_a_time.
      rewrite handleSend_resume_chat_inflight, Hgone.
      cbn. split; [reflexivity | lia].
    + (* ChatSettledUnshaped *)
      destruct (chat_settled_unshaped_shape _ _ _ _ _ Hexec)
        as (payload & Hpend & ->).
      assert (Hgone : chat_inflight (settle rid w) = []).
      { rewrite chat_inflight_settle.
        eapply single_settled; [exact Hone | ].
        apply pending_chat_inflight. exact Hpend. }
      unfold one_query_at_a_time.
      rewrite handleSend_resume_unshaped_chat_inflight, Hgone.
      cbn. split; [reflexivity | lia].
  - destruct (exec_calm env ev w w' Hev Hexec) as (Hl & keep & Hk).
    split.
    + intros Hdown. rewrite Hk, Hidle by congruence. reflexivity.
    + rewrite Hk. etransitivity; [apply filter_length_le | exact Hone].
Qed.

Lemma run_one_query env evs : forall w w',
  one_query_at_a_time w -> run env evs w = Some w' -> one_query_at_a_time w'.
Proof.
  induction evs as [| ev rest IH]; intros w w' Hinv Hrun; cbn in Hrun.
  - inversion Hrun; subst. exact Hinv.
  - destruct (exec env ev w) as [w1 |] eqn:Hexec; [ | discriminate].
    eapply IH; [ | exact Hrun]. eapply exec_one_query; eassumption.
Qed.

Lemma reachable_one_query env w : reachable env w -> one_query_at_a_time w.
Proof. intros [evs Hrun]. eapply run_one_query; [apply boot_one_query | exact Hrun]. Qed.

Lemma exec_stuck env ev w w' :
  stuck_loading w -> exec env ev w = Some w' -> stuck_loading w'.
Proof.
  intros [Hup Hnone] Hexec.
  destruct (about_chat ev) eqn:Hev.
  - destruct ev; try discriminate Hev.
    + unfold exec in Hexec.
      destruct (textarea_disabled w) eqn:Hena; [discriminate | ].
      destruct (textarea_enabled_inv w Hena) as [Hload _]. congruence.
    + destruct (chat_settled_shape _ _ _ _ _ Hexec) as (payload & Hpend & _).
      apply pending_chat_inflight in Hpend. rewrite Hnone in Hpend.
      destruct Hpend.
    + destruct (chat_settled_unshaped_shape _ _ _ _ _ Hexec)
        as (payload & Hpend & _).
      apply pending_chat_inflight in Hpend. rewrite Hnone in Hpend.
      destruct Hpend.
  - destruct (exec_calm env ev w w' Hev Hexec) as (Hl & keep & Hk).
    split; [congruence | ]. rewrite Hk, Hnone. reflexivity.
Qed.

Lemma run_stuck env evs : forall w w',
  stuck_loading w -> run env evs w = Some w' -> stuck_loading w'.
Proof.
  induction evs as [| ev rest IH]; intros w w' Hinv Hrun; cbn in Hrun.
  - inversion Hrun; subst. exact Hinv.
  - destruct (exec env ev w) as [w1 |] eqn:Hexec; [ | discriminate].
    eapply IH; [ | exact Hrun]. eapply exec_stuck; eassumption.
Qed.

Lemma loading_disables w :
  isLoading w = true -> textarea_disabled w = true /\ send_disabled w = true.
Proof.
  intros H. unfold textarea_disabled, send_disabled. rewrite H. cbn.
  split; [reflexivity | apply orb_true_r].
Qed.

(* ===================================================================== *)
(** ** Sending a chat query *)
(* ===================================================================== *)

(** C2.  When a message that is not blank is sent with a project
    selected (and no query is pending), [handleSend] appends exactly one
    user message before it returns, with the query still in flight.
    Exactly one assistant message is appended when the response arrives
    and reports success, and its sources are the [sources] field of the
    response; a response that reports failure, or a rejected request,
    appends nothing. *)
Theorem send_appends_user_then_assistant :
  forall (env : option Z) (w : World) (now : Z) (timestamp : string)
         (p : Project),
    selectedProject w = Some p ->
    JsString.truthy (JsString.trim (inputMessage w)) = true ->
    isLoading w = false ->
    let w1 := spawn (handleSend env now timestamp) w in
    messages w1
    = (messages w ++
       [ {| msg_id := "msg-" ++ JsString.of_Z now;
            msg_projectId := project_id p;
            msg_content := inputMessage w;
            msg_role := user;
            msg_timestamp := timestamp;
            msg_sources := None |} ])%list
    /\ (exists payload,
          In (next_handle w, PostChatQuery payload) (inflight w1)
          /\ query payload = inputMessage w)
    /\ (forall (w2 : World) (response : ChatResponse),
          success response = true ->
          exists reply,
            messages (spawn (handleSend_resume (Fulfilled response)) w2)
            = (messages w2 ++ [reply])%list
            /\ msg_role reply = assistant
            /\ msg_content reply = response_text response
            /\ msg_sources reply = resp_sources response)
    /\ (forall (w2 : World) (response : ChatResponse),
          success response = false ->
          messages (spawn (handleSend_resume (Fulfilled response)) w2)
          = messages w2)
    /\ (forall (w2 : World) (e : JsError),
          messages (spawn (handleSend_resume (Rejected e)) w2) = messages w2).
Proof.
  intros env w now timestamp p Hsel Htrim Hload w1. subst w1.
  rewrite (handleSend_sends env now timestamp w p Hsel Htrim Hload).
  split; [reflexivity | ]. split.
  { eexists. split; [apply in_or_app; right; left; reflexivity | reflexivity]. }
  split; [ | split].
  - intros w2 response Hok.
    destruct (handleSend_resume_fulfilled response w2) as (_ & _ & Hm).
    rewrite Hok in Hm. eexists. split; [exact Hm | ]. cbn. auto.
  - intros w2 response Hko.
    destruct (handleSend_resume_fulfilled response w2) as (_ & _ & Hm).
    rewrite Hko in Hm. exact Hm.
  - intros w2 e. rewrite handleSend_resume_rejected. reflexivity.
Qed.

(** C5.  When the request of a chat query is rejected, the message list
    is left as it was, so the user message appended by the send stays
    where it is; no request is issued in return (the one that failed
    leaves the list of requests in flight and nothing joins it); the
    thread gets no assistant and no error message: the error goes to the
    console and out of [handleSend]. *)
Theorem rejected_query_keeps_thread :
  forall (env : option Z) (w w' : World) (rid : nat) (e : JsError),
    exec env (ChatSettled rid (Rejected e)) w = Some w' ->
    messages w' = messages w
    /\ inflight w'
       = filter (fun entry => negb (same_handle rid entry)) (inflight w)
    /\ console w'
       = (console w ++ [console_error "Error posting chat query:" (Some e)])%list
    /\ uncaught w' = (uncaught w ++ [e])%list
    /\ (forall (now : Z) (timestamp : string) (p : Project) (w0 : World),
          selectedProject w0 = Some p ->
          JsString.truthy (JsString.trim (inputMessage w0)) = true ->
          isLoading w0 = false ->
          w = spawn (handleSend env now timestamp) w0 ->
          messages w'
          = (messages w0 ++
             [ {| msg_id := "msg-" ++ JsString.of_Z now;
                  msg_projectId := project_id p;
                  msg_content := inputMessage w0;
                  msg_role := user;
                  msg_timestamp := timestamp;
                  msg_sources := None |} ])%list).
Proof.
  intros env w w' rid e Hexec.
  destruct (chat_settled_shape _ _ _ _ _ Hexec) as (payload & _ & ->).
  rewrite handleSend_resume_rejected. cbn.
  repeat (split; [reflexivity | ]).
  intros now timestamp p w0 Hsel Htrim Hload ->.
  rewrite (handleSend_sends env now timestamp w0 p Hsel Htrim Hload).
  reflexivity.
Qed.

(** C10.  [handleSendMessage] raises the loading flag when a project is
    selected.  When the request of the chat query is then rejected, the
    error leaves [handleSend] uncaught, the flag is still up after the
    failure, and it stays up along every later run of events: the text
    area and the Send button remain disabled. *)
Theorem rejected_query_leaves_loading_on :
  forall (env : option Z) (w w' : World) (rid : nat) (e : JsError),
    reachable env w ->
    exec env (ChatSettled rid (Rejected e)) w = Some w' ->
    (forall content now timestamp x p,
        selectedProject x = Some p ->
        isLoading (spawn (handleSendMessage content now timestamp) x) = true)
    /\ uncaught w' = (uncaught w ++ [e])%list
    /\ isLoading w = true
    /\ isLoading w' = true
    /\ (forall evs w'',
          run env evs w' = Some w'' ->
          isLoading w'' = true
          /\ textarea_disabled w'' = true
          /\ send_disabled w'' = true).
Proof.
  intros env w w' rid e Hreach Hexec.
  pose proof (reachable_one_query env w Hreach) as Hinv.
  pose proof (exec_one_query env _ _ _ Hinv Hexec) as Hinv'.
  destruct (chat_settled_shape _ _ _ _ _ Hexec) as (payload & Hpend & Hw').
  assert (Hup : isLoading w = true).
  { destruct Hinv as [Hidle _]. destruct (isLoading w) eqn:Hl; [reflexivity | ].
    apply pending_chat_inflight in Hpend. rewrite (Hidle eq_refl) in Hpend.
    destruct Hpend. }
  assert (Hup' : isLoading w' = true).
  { rewrite Hw', handleSend_resume_rejected. exact Hup. }
  assert (Hstuck : stuck_loading w').
  { split; [exact Hup' | ].
    rewrite Hw', handleSend_resume_chat_inflight, chat_inflight_settle.
    destruct Hinv as [_ Hone].
    eapply single_settled; [exact Hone | ].
    apply pending_chat_inflight. exact Hpend. }
  split.
  { intros content now timestamp x p Hsel.
    unfold handleSendMessage. js_unfold. cbn. rewrite Hsel. reflexivity. }
  split; [rewrite Hw', handleSend_resume_rejected; reflexivity | ].
  split; [exact Hup | ]. split; [exact Hup' | ].
  intros evs w'' Hrun.
  destruct (run_stuck env evs w' w'' Hstuck Hrun) as [Hl _].
  split; [exact Hl | apply loading_disables; exact Hl].
Qed.

(* ===================================================================== *)
(** ** Dropping files *)
(* ===================================================================== *)

(** What [handleFileUpload] does with a drop that is not empty. *)
Lemma handleFileUpload_runs file0 d0 rest projectId formIso updatedAt w :
  let files := (file0, d0) :: rest in
  spawn (handleFileUpload files projectId formIso updatedAt) w
  = {| projects :=
         map (bump_file_count projectId (Z.of_nat (length files)) updatedAt)
             (projects w);
       selectedProject := selectedProject w;
       documents := (documents w ++ map (new_document projectId) files)%list;
       messages := messages w;
       isLoading := isLoading w;
       inputMessage := inputMessage w;
       inflight :=
         (inflight w ++
          [ (next_handle w,
             PostDocument projectId (upload_form file0 projectId formIso)) ])%list;
       timers :=
         (timers w ++
          [ (S (next_handle w), map (new_document projectId) files) ])%list;
       console := console w;
       uncaught := uncaught w;
       next_handle := S (S (next_handle w)) |}.
Proof. reflexivity. Qed.

(** ... and with an empty one: reading [files[0].name] throws before any
    state is set. *)
Lemma handleFileUpload_empty projectId formIso updatedAt w :
  spawn (handleFileUpload [] projectId formIso updatedAt) w
  = report (TypeError "Cannot read properties of undefined (reading 'name')") w.
Proof. reflexivity. Qed.


Lemma find_same_id (d : Document) (l : list Document) :
  In d l -> find (fun x => String.eqb (doc_id x) (doc_id d)) l <> None.
Proof.
  intros Hin Hnone. apply (find_none _ _ Hnone) in Hin.
  rewrite String.eqb_refl in Hin. discriminate.
Qed.

Lemma find_known_id (d : Document) (l : list Document) :
  In (doc_id d) (map doc_id l) ->
  find (fun x => String.eqb (doc_id x) (doc_id d)) l <> None.
Proof.
  intros Hin Hnone. apply in_map_iff in Hin. destruct Hin as (x & Hid & Hx).
  apply (find_none _ _ Hnone) in Hx. cbn in Hx. rewrite Hid in Hx.
  rewrite String.eqb_refl in Hx. discriminate.
Qed.

Lemma bump_file_count_id projectId n updatedAt p :
  project_id (bump_file_count projectId n updatedAt p) = project_id p.
Proof.
  unfold bump_file_count.
  destruct (String.eqb (project_id p) projectId); reflexivity.
Qed.

Lemma bump_file_count_count projectId n updatedAt p :
  file_count (bump_file_count projectId n updatedAt p)
  = if String.eqb (project_id p) projectId
    then JsNumber.add (file_count p) n
    else file_count p.
Proof.
  unfold bump_file_count.
  destruct (String.eqb (project_id p) projectId); reflexivity.
Qed.

Lemma bump_file_count_updatedAt projectId n updatedAt p :
  project_updatedAt (bump_file_count projectId n updatedAt p)
  = if String.eqb (project_id p) projectId then updatedAt
    else project_updatedAt p.
Proof.
  unfold bump_file_count.
  destruct (String.eqb (project_id p) projectId); reflexivity.
Qed.

(** Below 2^53 in magnitude the sum of two integers is exact. *)
Lemma js_add_exact (a b : Z) :
  Z.abs (a + b) <= 2 ^ 53 -> JsNumber.add a b = a + b.
Proof.
  unfold JsNumber.add, JsNumber.round. intros Hsafe.
  destruct (Z.abs (a + b) <? 2 ^ 53) eqn:Hlt; [reflexivity | ].
  apply Z.ltb_ge in Hlt.
  assert (Hedge : a + b = 9007199254740992 \/ a + b = - 9007199254740992).
  { change (2 ^ 53) with 9007199254740992 in *. lia. }
  destruct Hedge as [-> | ->]; vm_compute; reflexivity.
Qed.

(** At 2^53 the next integer is not a double: adding one changes nothing. *)
Lemma js_add_at_2_53 : JsNumber.add 9007199254740992 1 = 9007199254740992.
Proof. vm_compute. reflexivity. Qed.

Lemma counts_after_bump projectId n updatedAt (l : list Project) :
  map file_count (map (bump_file_count projectId n updatedAt) l)
  = map (fun p => if String.eqb (project_id p) projectId
                  then JsNumber.add (file_count p) n
                  else file_count p) l.
Proof. rewrite map_map. apply map_ext. intros p. apply bump_file_count_count. Qed.

Lemma counts_exact_in_range projectId n (l : list Project) :
  counts_stay_exact projectId n l ->
  map (fun p => if String.eqb (project_id p) projectId
                then JsNumber.add (file_count p) n
                else file_count p) l
  = map (fun p => if String.eqb (project_id p) projectId
                  then file_count p + n
                  else file_count p) l.
Proof.
  intros Hsafe. apply map_ext_in. intros p Hp.
  destruct (String.eqb (project_id p) projectId) eqn:Hid; [ | reflexivity].
  apply js_add_exact. unfold counts_stay_exact in Hsafe.
  rewrite Forall_forall in Hsafe. apply Hsafe; [exact Hp | ].
  apply String.eqb_eq. exact Hid.
Qed.

(** The documents after the timer of a drop has expired. *)
Lemma documents_after_expiry newDocuments w :
  documents (spawn (mark_ready newDocuments) w)
  = map (fun doc =>
           match find (fun d => String.eqb (doc_id d) (doc_id doc))
                      newDocuments with
           | Some _ => with_status ready doc
           | None => doc
           end) (documents w).
Proof. reflexivity. Qed.

Lemma new_documents_fields projectId (files : list (File * Draw)) :
  let newDocuments := map (new_document projectId) files in
  length newDocuments = length files
  /\ map doc_filename newDocuments = map (fun f => file_name (fst f)) files
  /\ map doc_size newDocuments = map (fun f => file_size (fst f)) files
  /\ map doc_id newDocuments
     = map (fun f => "doc-" ++ JsString.of_Z (draw_now (snd f)) ++ "-"
                     ++ draw_random (snd f)) files
  /\ Forall (fun d => doc_status d = processing /\ doc_projectId d = projectId)
            newDocuments.
Proof.
  cbv zeta. split; [apply length_map | ].
  split; [rewrite map_map; apply map_ext; intros [file d]; reflexivity | ].
  split; [rewrite map_map; apply map_ext; intros [file d]; reflexivity | ].
  split; [rewrite map_map; apply map_ext; intros [file d]; reflexivity | ].
  apply Forall_forall. intros d Hd.
  apply in_map_iff in Hd. destruct Hd as ([file dr] & <- & _).
  split; reflexivity.
Qed.

(** When the timer expires right after the drop, the records of the drop
    end the list, each with status [ready]. *)
Lemma records_ready_after_expiry (old newDocuments : list Document) w :
  documents w = (old ++ newDocuments)%list ->
  exists earlier readied,
    documents (spawn (mark_ready newDocuments) w) = (earlier ++ readied)%list
    /\ length earlier = length old
    /\ Forall (fun d => doc_status d = ready) readied
    /\ map doc_id readied = map doc_id newDocuments
    /\ map doc_filename readied = map doc_filename newDocuments
    /\ map doc_projectId readied = map doc_projectId newDocuments.
Proof.
  intros Hdocs. rewrite documents_after_expiry, Hdocs, map_app.
  eexists. eexists. split; [reflexivity | ]. split; [apply length_map | ].
  assert (Hhit : forall d, In d newDocuments ->
            match find (fun x => String.eqb (doc_id x) (doc_id d)) newDocuments with
            | Some _ => with_status ready d
            | None => d
            end = with_status ready d).
  { intros d Hd. destruct (find _ newDocuments) eqn:Hfind; [reflexivity | ].
    exfalso. eapply find_same_id; eassumption. }
  split; [ | split; [ | split]].
  - apply Forall_forall. intros d' Hd'. apply in_map_iff in Hd'.
    destruct Hd' as (d & <- & Hd). rewrite (Hhit d Hd). reflexivity.
  - rewrite map_map. apply map_ext_in. intros d Hd. rewrite (Hhit d Hd).
    reflexivity.
  - rewrite map_map. apply map_ext_in. intros d Hd. rewrite (Hhit d Hd).
    reflexivity.
  - rewrite map_map. apply map_ext_in. intros d Hd. rewrite (Hhit d Hd).
    reflexivity.
Qed.

(** When the timer expires in any later list, a document that carries
    the id of one of the records is [ready] afterwards, at its place and
    otherwise as it was. *)
Lemma known_document_ready_after_expiry newDocuments w before d after :
  documents w = (before ++ d :: after)%list ->
  In (doc_id d) (map doc_id newDocuments) ->
  exists before' after',
    documents (spawn (mark_ready newDocuments) w)
    = (before' ++
       {| doc_id := doc_id d; doc_projectId := doc_projectId d;
          doc_filename := doc_filename d; doc_fileType := doc_fileType d;
          doc_uploadedAt := doc_uploadedAt d; doc_size := doc_size d;
          doc_status := ready |} :: after')%list
    /\ length before' = length before
    /\ length after' = length after.
Proof.
  intros Hdocs Hid. rewrite documents_after_expiry, Hdocs, map_app.
  cbn [map]. eexists. eexists.
  split; [ | split; apply length_map].
  f_equal. f_equal.
  destruct (find _ newDocuments) eqn:Hfind; [reflexivity | ].
  exfalso. eapply find_known_id; eassumption.
Qed.

(** Every drop that is not empty sends one request, for its first file. *)
Lemma handleFileUpload_one_request file0 d0 rest projectId formIso updatedAt w :
  uploads_inflight
    (spawn (handleFileUpload ((file0, d0) :: rest) projectId formIso updatedAt) w)
  = (uploads_inflight w ++
     [ (next_handle w,
        PostDocument projectId (upload_form file0 projectId formIso)) ])%list.
Proof.
  rewrite handleFileUpload_runs. unfold uploads_inflight. cbn [inflight].
  rewrite filter_app. reflexivity.
Qed.

(** C3.  Two files, [a.pdf] and [b.docx], dropped on the selected project
    [p1]: the handler sends one upload request, whose form carries
    [a.pdf]; no request carries [b.docx], although two records are added
    to the document list and the file count of the project goes up by
    two. *)
Theorem two_files_dropped_one_uploaded :
  let w := Sample.world_after Sample.opened in
  let w' := spawn (handleFileUpload Sample.drop "p1"
                     "2023-11-14T22:13:20.001Z" "2023-11-14T22:13:20.002Z") w in
  length Sample.drop = 2%nat
  /\ uploads_inflight w = []
  /\ uploads_inflight w'
     = [ (3%nat, PostDocument "p1"
                   (upload_form Sample.a_pdf "p1" "2023-11-14T22:13:20.001Z")) ]
  /\ map doc_filename (documents w') = ["a.pdf"; "b.docx"]
  /\ map file_count (projects w) = [1; 0]
  /\ map file_count (projects w') = [3; 0].
Proof. vm_compute. repeat split. Qed.

(** C7, as stated, fails on the count.  The count is a double: on a
    project whose file count is 2^53 a drop of one file leaves the count
    at 2^53. *)
Lemma count_at_2_53_is_not_raised :
  map file_count
      (projects (spawn (handleFileUpload Edge.one_file "p9"
                          "2023-11-14T22:13:20.001Z" "2023-11-14T22:13:20.002Z")
                       Edge.world))
  = [9007199254740992]
  /\ ~ drop_adds_N_to_count.
Proof.
  assert (Hcount :
            map file_count
                (projects (spawn (handleFileUpload Edge.one_file "p9"
                                    "2023-11-14T22:13:20.001Z"
                                    "2023-11-14T22:13:20.002Z") Edge.world))
            = [9007199254740992]) by (vm_compute; reflexivity).
  split; [exact Hcount | ].
  intros Hclaim.
  specialize (Hclaim Edge.one_file "p9" "2023-11-14T22:13:20.001Z"
                "2023-11-14T22:13:20.002Z" Edge.world).
  rewrite Hcount in Hclaim. vm_compute in Hclaim. discriminate Hclaim.
Qed.

(** C7, amended.  For every drop, [handleFileUpload] appends one record
    per dropped file to the document list, each with status [processing],
    the id drawn for it, and the name and size of its file.  The file
    count of every project with the given id is raised by the number of
    files whenever the raised count is at most 2^53 in magnitude, the
    range in which doubles add exactly.  A timer is armed with these
    records; the upload request, however it settles, does not disarm it.
    When the timer expires, every document in the list that carries the
    id of one of the records has status [ready], at its place and with
    its other fields as they were; when the list is as the handler left
    it, these are the records of the drop, at the end of the list. *)
Theorem handleFileUpload_optimistic_then_ready :
  forall (files : list (File * Draw)) (projectId formIso updatedAt : string)
         (w : World),
    let newDocuments := map (new_document projectId) files in
    let w' := spawn (handleFileUpload files projectId formIso updatedAt) w in
    documents w' = (documents w ++ newDocuments)%list
    /\ length newDocuments = length files
    /\ map doc_filename newDocuments = map (fun f => file_name (fst f)) files
    /\ map doc_size newDocuments = map (fun f => file_size (fst f)) files
    /\ map doc_id newDocuments
       = map (fun f => "doc-" ++ JsString.of_Z (draw_now (snd f)) ++ "-"
                       ++ draw_random (snd f)) files
    /\ Forall (fun d => doc_status d = processing /\ doc_projectId d = projectId)
              newDocuments
    /\ map project_id (projects w') = map project_id (projects w)
    /\ (counts_stay_exact projectId (Z.of_nat (length files)) (projects w) ->
        map file_count (projects w')
        = map (fun p => if String.eqb (project_id p) projectId
                        then file_count p + Z.of_nat (length files)
                        else file_count p) (projects w))
    /\ (files = [] \/ In (S (next_handle w), newDocuments) (timers w'))
    /\ (forall rid outcome,
          timers (spawn (_ <- uploadDocumentQuery_resume outcome ;; ret tt)
                        (settle rid w')) = timers w')
    /\ (forall w2 before d after,
          documents w2 = (before ++ d :: after)%list ->
          In (doc_id d) (map doc_id newDocuments) ->
          exists before' after',
            documents (spawn (mark_ready newDocuments) w2)
            = (before' ++
               {| doc_id := doc_id d; doc_projectId := doc_projectId d;
                  doc_filename := doc_filename d; doc_fileType := doc_fileType d;
                  doc_uploadedAt := doc_uploadedAt d; doc_size := doc_size d;
                  doc_status := ready |} :: after')%list
            /\ length before' = length before
            /\ length after' = length after)
    /\ (forall w2,
          length (documents (spawn (mark_ready newDocuments) w2))
          = length (documents w2))
    /\ (exists earlier readied,
          documents (spawn (mark_ready newDocuments) w')
          = (earlier ++ readied)%list
          /\ length earlier = length (documents w)
          /\ length readied = length files
          /\ Forall (fun d => doc_status d = ready) readied
          /\ map doc_id readied = map doc_id newDocuments
          /\ map doc_filename readied = map (fun f => file_name (fst f)) files
          /\ Forall (fun d => doc_projectId d = projectId) readied).
Proof.
  intros files projectId formIso updatedAt w newDocuments w'.
  destruct (new_documents_fields projectId files)
    as (Hfiles & Hnames & Hsizes & Hids & Hfresh).
  fold newDocuments in Hfiles, Hnames, Hsizes, Hids, Hfresh.
  assert (Hdocs : documents w' = (documents w ++ newDocuments)%list).
  { subst w' newDocuments. destruct files as [| [file0 d0] rest].
    - rewrite handleFileUpload_empty. cbn. symmetry. apply app_nil_r.
    - rewrite handleFileUpload_runs. reflexivity. }
  split; [exact Hdocs | ].
  split; [exact Hfiles | ]. split; [exact Hnames | ].
  split; [exact Hsizes | ]. split; [exact Hids | ]. split; [exact Hfresh | ].
  split; [ | split; [ | split; [ | split; [ | split; [ | split]]]]].
  - subst w'. destruct files as [| [file0 d0] rest].
    + rewrite handleFileUpload_empty. reflexivity.
    + rewrite handleFileUpload_runs. cbn [projects]. rewrite map_map.
      apply map_ext. intros p. apply bump_file_count_id.
  - intros Hsafe. subst w'. destruct files as [| [file0 d0] rest].
    + rewrite handleFileUpload_empty. cbn [projects report length].
      apply map_ext. intros p.
      destruct (String.eqb (project_id p) projectId); [ | reflexivity].
      cbn. symmetry. apply Z.add_0_r.
    + rewrite handleFileUpload_runs. cbn [projects].
      rewrite counts_after_bump. apply counts_exact_in_range. exact Hsafe.
  - subst w'. destruct files as [| [file0 d0] rest]; [left; reflexivity | ].
    right. rewrite handleFileUpload_runs. cbn [timers].
    apply in_or_app. right. left. reflexivity.
  - intros rid outcome.
    destruct (dropped_promise_frame uploadDocumentQuery_resume
                "Error uploading document:" outcome (settle rid w'))
      as (_ & _ & _ & _ & _ & _ & Ht).
    { intros r x. destruct r; reflexivity. }
    rewrite Ht. reflexivity.
  - intros w2 before d after Hsplit Hid.
    apply known_document_ready_after_expiry; assumption.
  - intros w2. rewrite documents_after_expiry. apply length_map.
  - destruct (records_ready_after_expiry (documents w) newDocuments w' Hdocs)
      as (earlier & readied & Hexp & Hlen & Hst & Hrid & Hrname & Hrown).
    exists earlier, readied. split; [exact Hexp | ]. split; [exact Hlen | ].
    split.
    { rewrite <- Hfiles, <- (length_map doc_id readied), Hrid. apply length_map. }
    split; [exact Hst | ]. split; [exact Hrid | ].
    split; [rewrite Hrname; exact Hnames | ].
    apply Forall_forall. intros d Hd.
    assert (Hin : In (doc_projectId d) (map doc_projectId newDocuments))
      by (rewrite <- Hrown; apply in_map; exact Hd).
    apply in_map_iff in Hin. destruct Hin as (x & Hx & Hxin).
    rewrite Forall_forall in Hfresh. destruct (Hfresh x Hxin) as [_ Hown].
    congruence.
Qed.

(** C9.  In [handleFileUpload] the value bound to [response] is the
    promise returned by [uploadDocumentQuery], which is truthy: for every
    input the branch under [if (!response)] is not taken, so its message
    never reaches the console.  Whenever a request is sent (the drop is
    not empty) the records are added and the file count is raised in the
    same run, while the request is still in flight: one [processing]
    record per file joins the list, and every project with the given id
    gets the sum of its count and the number of files (their integer sum
    up to 2^53) and the new [updatedAt].  However the request settles
    later, the document and project lists stay as they are. *)
Theorem upload_failure_branch_unreachable :
  (forall rid, ToBoolean (JPromise rid) = true)
  /\ (forall files projectId formIso updatedAt w,
        console (spawn (handleFileUpload files projectId formIso updatedAt) w)
        = console w)
  /\ (forall file0 d0 rest projectId formIso updatedAt w,
        let files := (file0, d0) :: rest in
        let w' := spawn (handleFileUpload files projectId formIso updatedAt) w in
        documents w' = (documents w ++ map (new_document projectId) files)%list
        /\ projects w'
           = map (bump_file_count projectId (Z.of_nat (length files)) updatedAt)
                 (projects w)
        /\ In (next_handle w,
               PostDocument projectId (upload_form file0 projectId formIso))
              (inflight w')
        /\ (forall rid outcome,
              let w'' := spawn (_ <- uploadDocumentQuery_resume outcome ;; ret tt)
                               (settle rid w') in
              documents w'' = documents w' /\ projects w'' = projects w')
        /\ (exists added,
              documents w' = (documents w ++ added)%list
              /\ length added = length files
              /\ map doc_filename added = map (fun f => file_name (fst f)) files
              /\ Forall (fun d => doc_status d = processing
                                  /\ doc_projectId d = projectId) added)
        /\ map project_id (projects w') = map project_id (projects w)
        /\ map file_count (projects w')
           = map (fun p => if String.eqb (project_id p) projectId
                           then JsNumber.add (file_count p)
                                             (Z.of_nat (length files))
                           else file_count p) (projects w)
        /\ map project_updatedAt (projects w')
           = map (fun p => if String.eqb (project_id p) projectId
                           then updatedAt
                           else project_updatedAt p) (projects w)
        /\ (counts_stay_exact projectId (Z.of_nat (length files)) (projects w) ->
            map file_count (projects w')
            = map (fun p => if String.eqb (project_id p) projectId
                            then file_count p + Z.of_nat (length files)
                            else file_count p) (projects w))).
Proof.
  split; [reflexivity | ]. split.
  - intros files projectId formIso updatedAt w.
    destruct files as [| [file0 d0] rest]; reflexivity.
  - intros file0 d0 rest projectId formIso updatedAt w files w'.
    destruct (new_documents_fields projectId files)
      as (Hfiles & Hnames & _ & _ & Hfresh).
    subst w' files. rewrite handleFileUpload_runs.
    set (files := (file0, d0) :: rest) in *.
    split; [reflexivity | ]. split; [reflexivity | ]. split.
    { cbn [inflight]. apply in_or_app. right. left. reflexivity. }
    split.
    { intros rid outcome w''. subst w''.
      match goal with
      | |- context [settle rid ?x] =>
          destruct (dropped_promise_frame uploadDocumentQuery_resume
                      "Error uploading document:" outcome (settle rid x))
            as (Hp & Hd & _)
      end.
      { intros r x. destruct r; reflexivity. }
      rewrite Hp, Hd. split; reflexivity. }
    cbn [documents projects].
    split.
    { exists (map (new_document projectId) files).
      split; [reflexivity | ]. split; [exact Hfiles | ].
      split; [exact Hnames | exact Hfresh]. }
    split.
    { rewrite map_map. apply map_ext. intros p. apply bump_file_count_id. }
    split; [apply counts_after_bump | ].
    split.
    { rewrite map_map. apply map_ext. intros p. apply bump_file_count_updatedAt. }
    intros Hsafe. rewrite counts_after_bump.
    apply counts_exact_in_range. exact Hsafe.
Qed.

(* ===================================================================== *)
(** ** Switching the project while its fetches are in flight *)
(* ===================================================================== *)

Lemma documents_settled_shape env rid r w w' :
  exec env (DocumentsSettled rid r) w = Some w' ->
  exists projectId,
    pending w rid = Some (GetProjectDocuments projectId)
    /\ w' = spawn (fetchProjectDocuments_resume r) (settle rid w).
Proof.
  unfold exec. destruct (pending w rid) as [[] |]; try discriminate.
  intros H. inversion H. eauto.
Qed.

Lemma history_settled_shape env rid r w w' :
  exec env (HistorySettled rid r) w = Some w' ->
  exists projectId,
    pending w rid = Some (GetChatHistory projectId)
    /\ w' = spawn (fetchChatHistory_resume r) (settle rid w).
Proof.
  unfold exec. destruct (pending w rid) as [[] |]; try discriminate.
  intros H. inversion H. eauto.
Qed.

Lemma spawn_inflight_grows (m : Js unit) w entry :
  quiet m -> In entry (inflight w) -> In entry (inflight (spawn m w)).
Proof.
  intros Hm Hin. destruct (Hm w) as (_ & sent & Hs & _). unfold spawn.
  destruct (m w) as [w1 [a | e]]; cbn in *; rewrite Hs;
    apply in_or_app; left; exact Hin.
Qed.

(** C4, as stated, fails.  The project list arrives, [Alpha] (p1) is
    selected, then [Beta] (p2) while the two fetches for p1 are in
    flight.  The documents response for p1 then replaces the document
    list, and the history response for p1 the message list, with [Beta]
    selected. *)
Lemma stale_response_is_applied :
  ~ stale_documents_discarded None /\ ~ stale_history_discarded None.
Proof.
  assert (Hreach : reachable None (Sample.world_after Sample.switched)).
  { exists Sample.switched. vm_compute. reflexivity. }
  assert (Hsel : selectedProject (Sample.world_after Sample.switched)
                 = Some Sample.beta) by (vm_compute; reflexivity).
  assert (Hneq : project_id Sample.beta <> "p1") by discriminate.
  split.
  - intros Hclaim.
    assert (Hpend : pending (Sample.world_after Sample.switched) 1
                    = Some (GetProjectDocuments "p1"))
      by (vm_compute; reflexivity).
    assert (Hexec :
              exec None (DocumentsSettled 1 (Fulfilled (Some [Sample.report_pdf])))
                   (Sample.world_after Sample.switched)
              = Some (Sample.world_after
                        (Sample.switched ++
                         [DocumentsSettled 1
                            (Fulfilled (Some [Sample.report_pdf]))])))
      by (vm_compute; reflexivity).
    pose proof (Hclaim _ _ _ _ _ _ Hreach Hpend Hsel Hneq Hexec) as Hsame.
    vm_compute in Hsame. discriminate Hsame.
  - intros Hclaim.
    assert (Hpend : pending (Sample.world_after Sample.switched) 2
                    = Some (GetChatHistory "p1"))
      by (vm_compute; reflexivity).
    assert (Hexec :
              exec None (HistorySettled 2 (Fulfilled (Some Sample.history)))
                   (Sample.world_after Sample.switched)
              = Some (Sample.world_after
                        (Sample.switched ++
                         [HistorySettled 2 (Fulfilled (Some Sample.history))])))
      by (vm_compute; reflexivity).
    pose proof (Hclaim _ _ _ _ _ _ Hreach Hpend Hsel Hneq Hexec) as Hsame.
    vm_compute in Hsame. discriminate Hsame.
Qed.

(** C4, amended.  Selecting a project cancels no request: what was in
    flight before the click is in flight after it.  When a documents
    response with a body arrives, the document list becomes that body,
    and when a chat-history response with a body arrives, the message
    list becomes its flattening, whichever project is selected at that
    moment; the selection itself is not changed. *)
Theorem settled_fetch_applies_to_current_state :
  forall (env : option Z) (w w' : World) (rid : nat),
    (forall p entry,
        exec env (SelectProject p) w = Some w' ->
        In entry (inflight w) -> In entry (inflight w'))
    /\ (forall data,
          exec env (DocumentsSettled rid (Fulfilled (Some data))) w = Some w' ->
          documents w' = data /\ selectedProject w' = selectedProject w)
    /\ (forall data,
          exec env (HistorySettled rid (Fulfilled (Some data))) w = Some w' ->
          messages w' = flatMap conv_messages data
          /\ selectedProject w' = selectedProject w).
Proof.
  intros env w w' rid. split; [ | split].
  - intros p entry Hexec Hin. unfold exec in Hexec.
    destruct (listed p w); [ | discriminate].
    inversion Hexec; subst; clear Hexec.
    unfold dispatch, rerender.
    destruct (same_selection _ _).
    + apply spawn_inflight_grows; [apply quiet_handleProjectSelect | exact Hin].
    + apply spawn_inflight_grows; [apply quiet_selection_effect | ].
      apply spawn_inflight_grows; [apply quiet_handleProjectSelect | exact Hin].
  - intros data Hexec.
    destruct (documents_settled_shape _ _ _ _ _ Hexec) as (projectId & _ & ->).
    split; reflexivity.
  - intros data Hexec.
    destruct (history_settled_shape _ _ _ _ _ Hexec) as (projectId & _ & ->).
    split; reflexivity.
Qed.

(* ===================================================================== *)
(** ** The statements at sample inputs *)
(* ===================================================================== *)

(** C1 at a sample: a project is created locally, then [p1] is deleted. *)
Lemma handleProjectDelete_removes_locally_sample :
  Forall (fun p => project_id p <> "p1")
    (projects
       (dispatch (handleProjectDelete "p1")
          (apply_ops
             [OpCreate "Q3 Filings" (Some "") 1700000000000
                "2023-11-14T22:13:20.000Z" "2023-11-14T22:13:20.000Z"]
             (Sample.world_after Sample.opened)))).
Proof.
  exact (proj1 (handleProjectDelete_removes_locally
                  [OpCreate "Q3 Filings" (Some "") 1700000000000
                     "2023-11-14T22:13:20.000Z" "2023-11-14T22:13:20.000Z"]
                  (Sample.world_after Sample.opened) "p1")).
Defined.

(** C2 at a sample: "Revenue?" is sent with [Alpha] selected. *)
Lemma send_appends_user_then_assistant_sample :
  let w := Sample.world_after (Sample.opened ++ [ChangeInput "Revenue?"]) in
  selectedProject w = Some Sample.alpha
  /\ JsString.truthy (JsString.trim (inputMessage w)) = true
  /\ isLoading w = false
  /\ messages (spawn (handleSend None 1700000000000 "2023-11-14T22:13:20.000Z") w)
     = (messages w ++
        [ {| msg_id := "msg-" ++ JsString.of_Z 1700000000000;
             msg_projectId := project_id Sample.alpha;
             msg_content := inputMessage w;
             msg_role := user;
             msg_timestamp := "2023-11-14T22:13:20.000Z";
             msg_sources := None |} ])%list.
Proof.
  intros w.
  assert (Hsel : selectedProject w = Some Sample.alpha)
    by (vm_compute; reflexivity).
  assert (Htrim : JsString.truthy (JsString.trim (inputMessage w)) = true)
    by (vm_compute; reflexivity).
  assert (Hload : isLoading w = false) by (vm_compute; reflexivity).
  split; [exact Hsel | ]. split; [exact Htrim | ]. split; [exact Hload | ].
  exact (proj1 (send_appends_user_then_assistant None w 1700000000000
                  "2023-11-14T22:13:20.000Z" Sample.alpha Hsel Htrim Hload)).
Defined.

(** C4 (amended) at the sample of the counterexample. *)
Lemma settled_fetch_applies_to_current_state_sample :
  let w := Sample.world_after Sample.switched in
  let w' := Sample.world_after
              (Sample.switched ++
               [DocumentsSettled 1 (Fulfilled (Some [Sample.report_pdf]))]) in
  exec None (DocumentsSettled 1 (Fulfilled (Some [Sample.report_pdf]))) w = Some w'
  /\ documents w' = [Sample.report_pdf]
  /\ selectedProject w' = selectedProject w.
Proof.
  intros w w'.
  assert (Hexec :
            exec None (DocumentsSettled 1 (Fulfilled (Some [Sample.report_pdf]))) w
            = Some w') by (vm_compute; reflexivity).
  split; [exact Hexec | ].
  exact (proj1 (proj2 (settled_fetch_applies_to_current_state None w w' 1))
           [Sample.report_pdf] Hexec).
Defined.

(** C5 at a sample: the query "Revenue?" is rejected. *)
Lemma rejected_query_keeps_thread_sample :
  let w := Sample.world_after Sample.asked in
  let w' := Sample.world_after
              (Sample.asked ++ [ChatSettled 3 (Rejected Sample.network_error)]) in
  exec None (ChatSettled 3 (Rejected Sample.network_error)) w = Some w'
  /\ messages w' = messages w.
Proof.
  intros w w'.
  assert (Hexec :
            exec None (ChatSettled 3 (Rejected Sample.network_error)) w = Some w')
    by (vm_compute; reflexivity).
  split; [exact Hexec | ].
  exact (proj1 (rejected_query_keeps_thread None w w' 3 Sample.network_error Hexec)).
Defined.

(** C6 at a sample: the answer of the first conversation is in the list. *)
Lemma fetchChatHistory_flattens_all_in_order_sample :
  In Sample.answer
     (messages
        (spawn (fetchChatHistory_resume (Fulfilled (Some Sample.history))) init)).
Proof.
  apply (proj1 (proj2 (fetchChatHistory_flattens_all_in_order init Sample.history))
           {| conversation_id := "c1";
              conv_messages := [Sample.question; Sample.answer] |}
           Sample.answer).
  - simpl. left. reflexivity.
  - simpl. right. left. reflexivity.
Defined.

Lemma sample_counts_stay_exact :
  counts_stay_exact "p1" (Z.of_nat (length Sample.drop))
    (projects (Sample.world_after Sample.opened)).
Proof.
  assert (Hlist : projects (Sample.world_after Sample.opened)
                  = [Sample.alpha; Sample.beta]) by (vm_compute; reflexivity).
  rewrite Hlist. unfold counts_stay_exact.
  apply Forall_cons; [ | apply Forall_cons; [ | apply Forall_nil]];
    intros _; vm_compute; discriminate.
Defined.

(** C7 (amended) at a sample: two files are dropped on [Alpha], whose
    count goes from 1 to 3, and the record of [a.pdf] is [ready] once the
    timer has expired. *)
Lemma handleFileUpload_optimistic_then_ready_sample :
  let newDocuments := map (new_document "p1") Sample.drop in
  let w := Sample.world_after Sample.opened in
  let w' := spawn (handleFileUpload Sample.drop "p1"
                     "2023-11-14T22:13:20.001Z" "2023-11-14T22:13:20.002Z") w in
  let d := new_document "p1"
             (Sample.a_pdf,
              {| draw_now := 1700000000000; draw_random := "0.25";
                 draw_iso := "2023-11-14T22:13:20.000Z" |}) in
  let after := [ new_document "p1"
                   (Sample.b_docx,
                    {| draw_now := 1700000000000; draw_random := "0.75";
                       draw_iso := "2023-11-14T22:13:20.000Z" |}) ] in
  counts_stay_exact "p1" (Z.of_nat (length Sample.drop)) (projects w)
  /\ map file_count (projects w')
     = map (fun p => if String.eqb (project_id p) "p1"
                     then file_count p + Z.of_nat (length Sample.drop)
                     else file_count p) (projects w)
  /\ documents w' = ([] ++ d :: after)%list
  /\ In (doc_id d) (map doc_id newDocuments)
  /\ exists before' after',
       documents (spawn (mark_ready newDocuments) w')
       = (before' ++
          {| doc_id := doc_id d; doc_projectId := doc_projectId d;
             doc_filename := doc_filename d; doc_fileType := doc_fileType d;
             doc_uploadedAt := doc_uploadedAt d; doc_size := doc_size d;
             doc_status := ready |} :: after')%list
       /\ length before' = length (@nil Document)
       /\ length after' = length after.
Proof.
  intros newDocuments w w' d after.
  assert (Hdocs : documents w' = ([] ++ d :: after)%list)
    by (vm_compute; reflexivity).
  assert (Hid : In (doc_id d) (map doc_id newDocuments))
    by (vm_compute; left; reflexivity).
  destruct (handleFileUpload_optimistic_then_ready Sample.drop "p1"
              "2023-11-14T22:13:20.001Z" "2023-11-14T22:13:20.002Z" w)
    as (_ & _ & _ & _ & _ & _ & _ & Hcount & _ & _ & Hready & _).
  split; [exact sample_counts_stay_exact | ].
  split; [exact (Hcount sample_counts_stay_exact) | ].
  split; [exact Hdocs | ]. split; [exact Hid | ].
  exact (Hready w' [] d after Hdocs Hid).
Defined.

(** C8 at a sample: a rejected chat query does not come back as a reply. *)
Lemma access_function_logs_and_rethrows_sample :
  snd (resume_of fn_postChatQuery (Rejected Sample.network_error) init)
  <> Normal Sample.reply.
Proof.
  exact (proj2 (proj2 (access_function_logs_and_rethrows fn_postChatQuery
                         Sample.network_error init)) Sample.reply).
Defined.

(** C9 at a sample: the drop of two files on [Alpha] logs nothing and
    raises the count from 1 to 3. *)
Lemma upload_failure_branch_unreachable_sample :
  let w := Sample.world_after Sample.opened in
  let w' := spawn (handleFileUpload Sample.drop "p1"
                     "2023-11-14T22:13:20.001Z" "2023-11-14T22:13:20.002Z") w in
  console w' = console w
  /\ counts_stay_exact "p1" (Z.of_nat (length Sample.drop)) (projects w)
  /\ map file_count (projects w')
     = map (fun p => if String.eqb (project_id p) "p1"
                     then file_count p + Z.of_nat (length Sample.drop)
                     else file_count p) (projects w).
Proof.
  intros w w'.
  destruct upload_failure_branch_unreachable as (_ & Hquiet & Hruns).
  split.
  { exact (Hquiet Sample.drop "p1" "2023-11-14T22:13:20.001Z"
             "2023-11-14T22:13:20.002Z" w). }
  split; [exact sample_counts_stay_exact | ].
  destruct (Hruns Sample.a_pdf
              {| draw_now := 1700000000000; draw_random := "0.25";
                 draw_iso := "2023-11-14T22:13:20.000Z" |}
              [ (Sample.b_docx,
                 {| draw_now := 1700000000000; draw_random := "0.75";
                    draw_iso := "2023-11-14T22:13:20.000Z" |}) ]
              "p1" "2023-11-14T22:13:20.001Z" "2023-11-14T22:13:20.002Z" w)
    as (_ & _ & _ & _ & _ & _ & _ & _ & Hexact).
  exact (Hexact sample_counts_stay_exact).
Defined.

(** C10 at a sample: the query "Revenue?" is rejected, then [Beta] is
    selected: the flag is still up. *)
Lemma rejected_query_leaves_loading_on_sample :
  let w := Sample.world_after Sample.asked in
  let w' := Sample.world_after
              (Sample.asked ++ [ChatSettled 3 (Rejected Sample.network_error)]) in
  let w'' := Sample.world_after
               (Sample.asked ++ [ChatSettled 3 (Rejected Sample.network_error);
                                 SelectProject Sample.beta]) in
  reachable None w
  /\ exec None (ChatSettled 3 (Rejected Sample.network_error)) w = Some w'
  /\ run None [SelectProject Sample.beta] w' = Some w''
  /\ isLoading w'' = true
  /\ textarea_disabled w'' = true
  /\ send_disabled w'' = true.
Proof.
  intros w w' w''.
  assert (Hreach : reachable None w)
    by (exists Sample.asked; vm_compute; reflexivity).
  assert (Hexec :
            exec None (ChatSettled 3 (Rejected Sample.network_error)) w = Some w')
    by (vm_compute; reflexivity).
  assert (Hrun : run None [SelectProject Sample.beta] w' = Some w'')
    by (vm_compute; reflexivity).
  split; [exact Hreach | ]. split; [exact Hexec | ]. split; [exact Hrun | ].
  destruct (rejected_query_leaves_loading_on None w w' 3 Sample.network_error
              Hreach Hexec) as (_ & _ & _ & _ & Hforever).
  exact (Hforever [SelectProject Sample.beta] w'' Hrun).
Defined.

(* ===================================================================== *)
(** ** Blank input and file extensions *)
(* ===================================================================== *)

Lemma truthy_rev_append s acc :
  JsString.truthy (JsString.rev_append s acc)
  = orb (JsString.truthy s) (JsString.truthy acc).
Proof.
  revert acc. induction s as [| c s IH]; intros acc; cbn.
  - reflexivity.
  - rewrite IH. cbn. apply orb_true_r.
Qed.

Lemma blank_rev_append s acc :
  blank (JsString.rev_append s acc) = andb (blank s) (blank acc).
Proof.
  revert acc. induction s as [| c s IH]; intros acc; cbn.
  - reflexivity.
  - rewrite IH. cbn. destruct (JsString.is_white_space c), (blank s); reflexivity.
Qed.

Lemma trimStart_blank s : blank s = true -> JsString.trimStart s = "".
Proof.
  induction s as [| c s IH]; cbn; [reflexivity | ].
  destruct (JsString.is_white_space c); [exact IH | discriminate].
Qed.

Lemma trimStart_keeps_ink s :
  blank s = false ->
  JsString.truthy (JsString.trimStart s) = true
  /\ blank (JsString.trimStart s) = false.
Proof.
  induction s as [| c s IH]; cbn; [discriminate | ].
  destruct (JsString.is_white_space c) eqn:Hc; cbn.
  - exact IH.
  - intros _. rewrite Hc. split; reflexivity.
Qed.

(** [inputMessage.trim()] is falsy exactly on blank input. *)
Lemma trim_truthy_iff_ink s :
  JsString.truthy (JsString.trim s) = negb (blank s).
Proof.
  unfold JsString.trim, JsString.trimEnd, JsString.reverse.
  destruct (blank s) eqn:Hs; cbn.
  - rewrite (trimStart_blank s Hs). reflexivity.
  - destruct (trimStart_keeps_ink s Hs) as [_ Hink].
    assert (Hrev : blank (JsString.rev_append (JsString.trimStart s) "") = false).
    { rewrite blank_rev_append, Hink. reflexivity. }
    destruct (trimStart_keeps_ink _ Hrev) as [Hfull _].
    rewrite truthy_rev_append, Hfull. reflexivity.
Qed.

Lemma last_segment_without_dot seg s :
  has_dot s = false ->
  JsString.last_segment_from seg s = JsString.rev_append seg s.
Proof.
  revert seg. induction s as [| c s IH]; intros seg Hs; cbn in *.
  - reflexivity.
  - apply orb_false_iff in Hs. destruct Hs as [Hc Hs].
    rewrite Hc. rewrite IH by exact Hs. reflexivity.
Qed.

Lemma last_segment_after_dot seg pre ext :
  JsString.last_segment_from seg (pre ++ String "."%char ext)
  = JsString.last_segment_from "" ext.
Proof.
  revert seg. induction pre as [| c pre IH]; intros seg; cbn.
  - reflexivity.
  - destruct (Ascii.eqb c "."%char); apply IH.
Qed.

Lemma has_dot_rev_append s acc :
  has_dot (JsString.rev_append s acc) = orb (has_dot s) (has_dot acc).
Proof.
  revert acc. induction s as [| c s IH]; intros acc; cbn.
  - reflexivity.
  - rewrite IH. cbn.
    destruct (Ascii.eqb c "."%char), (has_dot s); reflexivity.
Qed.

Lemma last_segment_has_no_dot seg s :
  has_dot seg = false -> has_dot (JsString.last_segment_from seg s) = false.
Proof.
  revert seg. induction s as [| c s IH]; intros seg Hseg; cbn.
  - unfold JsString.reverse. rewrite has_dot_rev_append, Hseg. reflexivity.
  - destruct (Ascii.eqb c "."%char) eqn:Hc.
    + apply IH. reflexivity.
    + apply IH. cbn. rewrite Hc, Hseg. reflexivity.
Qed.

Lemma truthy_toLowerCase s :
  JsString.truthy (JsString.toLowerCase s) = JsString.truthy s.
Proof. destruct s; reflexivity. Qed.

Lemma or_else_empty s : JsString.or_else s "" = s.
Proof. destruct s; reflexivity. Qed.

(** X16.  The file type written into the record of a dropped file is the
    text after the last dot of its name, in lower case, whatever that
    text is: a name without a dot gives the whole name, and the result is
    never checked against the five types of [Document].  The form that
    is uploaded carries the same text, or [unknown] when it is empty. *)
Theorem file_type_is_last_segment :
  forall (projectId formIso : string) (file : File) (d : Draw),
    let recorded := doc_fileType (new_document projectId (file, d)) in
    (forall pre ext,
        file_name file = pre ++ String "."%char ext ->
        has_dot ext = false ->
        recorded = JsString.toLowerCase ext)
    /\ (has_dot (file_name file) = false ->
        recorded = JsString.toLowerCase (file_name file))
    /\ In ("fileType",
           FormText (if JsString.truthy recorded then recorded else "unknown"))
          (upload_form file projectId formIso).
Proof.
  intros projectId formIso file d recorded. subst recorded. cbn.
  unfold JsString.split_dot_pop. split; [ | split].
  - intros pre ext Hname Hext. rewrite Hname, last_segment_after_dot.
    rewrite last_segment_without_dot by exact Hext. reflexivity.
  - intros Hname. rewrite last_segment_without_dot by exact Hname.
    reflexivity.
  - unfold upload_form, JsString.or_else, JsString.split_dot_pop.
    right. right. right. left. reflexivity.
Qed.

(* ===================================================================== *)
(** ** More on the chat panel *)
(* ===================================================================== *)

(** [handleSend] past its guard with no project selected. *)
Lemma handleSend_unselected env now timestamp w :
  selectedProject w = None ->
  JsString.truthy (JsString.trim (inputMessage w)) = true ->
  isLoading w = false ->
  spawn (handleSend env now timestamp) w
  = {| projects := projects w;
       selectedProject := selectedProject w;
       documents := documents w;
       messages := messages w;
       isLoading := isLoading w;
       inputMessage := "";
       inflight :=
         (inflight w ++
          [ (next_handle w,
             PostChatQuery
               {| include_sources := true;
                  max_chunks := match env with Some n => n | None => 5 end;
                  payload_project_id := "";
                  query := inputMessage w |}) ])%list;
       timers := timers w;
       console := console w;
       uncaught := uncaught w;
       next_handle := S (next_handle w) |}.
Proof.
  intros Hsel Htrim Hload.
  unfold handleSend, handleSendMessage, postChatQuery, selectedProjectId.
  js_unfold. cbn. rewrite Htrim, Hload. cbn. rewrite Hsel. cbn.
  rewrite ?Hsel, ?Hload. reflexivity.
Qed.

(** X8.  [handleSend] does nothing at all when the input is blank (empty
    or white space only) or a query is pending; otherwise it sends
    exactly one chat query, whose text is the input as typed, not
    trimmed, and clears the input. *)
Theorem handleSend_sends_iff_ink :
  forall (env : option Z) (now : Z) (timestamp : string) (w : World),
    (orb (blank (inputMessage w)) (isLoading w) = true ->
     spawn (handleSend env now timestamp) w = w)
    /\ (orb (blank (inputMessage w)) (isLoading w) = false ->
        exists payload,
          inflight (spawn (handleSend env now timestamp) w)
          = (inflight w ++ [(next_handle w, PostChatQuery payload)])%list
          /\ query payload = inputMessage w
          /\ inputMessage (spawn (handleSend env now timestamp) w) = "").
Proof.
  intros env now timestamp w. split.
  - intros Hstop. apply handleSend_blocked.
    rewrite trim_truthy_iff_ink.
    destruct (blank (inputMessage w)), (isLoading w);
      try reflexivity; discriminate Hstop.
  - intros Hgo. apply orb_false_iff in Hgo. destruct Hgo as [Hink Hload].
    assert (Htrim : JsString.truthy (JsString.trim (inputMessage w)) = true)
      by (rewrite trim_truthy_iff_ink, Hink; reflexivity).
    destruct (selectedProject w) as [p |] eqn:Hsel.
    + rewrite (handleSend_sends env now timestamp w p Hsel Htrim Hload).
      eexists. cbn. repeat split; reflexivity.
    + rewrite (handleSend_unselected env now timestamp w Hsel Htrim Hload).
      eexists. cbn. repeat split; reflexivity.
Qed.

(** X9.  The handler itself does not require a project: called with none
    selected and an input that is not blank, [handleSend] still posts the
    query, with the empty text as project id, while [handleSendMessage]
    returns at once: no user message is appended and the loading flag
    stays down. *)
Theorem send_without_project_still_posts :
  forall (env : option Z) (now : Z) (timestamp : string) (w : World),
    selectedProject w = None ->
    blank (inputMessage w) = false ->
    isLoading w = false ->
    let w' := spawn (handleSend env now timestamp) w in
    messages w' = messages w
    /\ isLoading w' = false
    /\ exists payload,
         inflight w' = (inflight w ++ [(next_handle w, PostChatQuery payload)])%list
         /\ payload_project_id payload = ""
         /\ query payload = inputMessage w.
Proof.
  intros env now timestamp w Hsel Hink Hload w'. subst w'.
  assert (Htrim : JsString.truthy (JsString.trim (inputMessage w)) = true)
    by (rewrite trim_truthy_iff_ink, Hink; reflexivity).
  rewrite (handleSend_unselected env now timestamp w Hsel Htrim Hload). cbn.
  split; [reflexivity | ]. split; [exact Hload | ].
  eexists. repeat split; reflexivity.
Qed.

Lemma send_enabled_inv w :
  send_disabled w = false ->
  JsString.truthy (JsString.trim (inputMessage w)) = true
  /\ textarea_disabled w = false.
Proof.
  unfold send_disabled, textarea_disabled. intros H.
  apply orb_false_iff in H. destruct H as [Htrim Hrest].
  apply negb_false_iff in Htrim. split; assumption.
Qed.

(** X10.  The Send button is disabled exactly when its [disabled]
    expression holds (its [loading] prop adds nothing), and whenever it
    is enabled a click goes through the guard of [handleSend]: a project
    is selected, one user message with the typed text is appended, the
    loading flag is raised, and the button and the text area are
    disabled from then on. *)
Theorem enabled_send_button_sends :
  forall (env : option Z) (w : World) (now : Z) (timestamp : string),
    send_button_disabled w = send_disabled w
    /\ (send_button_disabled w = false ->
        exists w' p,
          selectedProject w = Some p
          /\ exec env (PressSend now timestamp) w = Some w'
          /\ messages w'
             = (messages w ++
                [ {| msg_id := "msg-" ++ JsString.of_Z now;
                     msg_projectId := project_id p;
                     msg_content := inputMessage w;
                     msg_role := user;
                     msg_timestamp := timestamp;
                     msg_sources := None |} ])%list
          /\ isLoading w' = true
          /\ send_button_disabled w' = true
          /\ textarea_disabled w' = true).
Proof.
  intros env w now timestamp.
  assert (Hsame : send_button_disabled w = send_disabled w).
  { unfold send_button_disabled, Button_disabled, send_disabled.
    destruct (JsString.truthy (JsString.trim (inputMessage w))),
      (isLoading w), (name_falsy (selectedProjectName w)); reflexivity. }
  split; [exact Hsame | ].
  intros Hen. rewrite Hsame in Hen.
  destruct (send_enabled_inv w Hen) as [Htrim Harea].
  destruct (textarea_enabled_inv w Harea) as [Hload [p Hsel]].
  exists (spawn (handleSend env now timestamp) w), p.
  split; [exact Hsel | ]. split.
  { unfold exec. rewrite Harea. reflexivity. }
  rewrite (handleSend_sends env now timestamp w p Hsel Htrim Hload).
  split; [reflexivity | ]. split; [reflexivity | ].
  split; [ | reflexivity].
  unfold send_button_disabled, Button_disabled. cbn.
  destruct (send_disabled _); reflexivity.
Qed.

(** X11.  A fulfilled chat response whose body has the documented shape
    lowers the loading flag and is not an unhandled rejection: when it
    reports failure it adds nothing to the thread, leaves the input as it
    is and writes one [console.error] line; when it reports success it
    clears the input.  A body that is a string, a number or a boolean, or
    an object that reports failure and has no [message_metadata], takes
    the same failure branch.  A body that is [null], or an object that
    reports success without [message_metadata], makes [handleSend] throw
    a [TypeError] after its [await]: nothing is appended or logged, the
    error is an unhandled rejection, and the loading flag, which is up
    while a query is in flight, stays up along every later run. *)
Theorem fulfilled_chat_response_outcomes :
  forall (env : option Z) (w w' : World) (rid : nat),
    (forall response,
        exec env (ChatSettled rid (Fulfilled response)) w = Some w' ->
        isLoading w' = false
        /\ uncaught w' = uncaught w
        /\ (success response = false ->
            messages w' = messages w
            /\ inputMessage w' = inputMessage w
            /\ console w'
               = (console w ++ [console_error "Failed to send message" None])%list)
        /\ (success response = true ->
            inputMessage w' = "" /\ console w' = console w))
    /\ (forall body,
          exec env (ChatSettledUnshaped rid body) w = Some w' ->
          messages w' = messages w
          /\ inputMessage w' = inputMessage w
          /\ match body with
             | BodyNull =>
                 isLoading w' = isLoading w
                 /\ console w' = console w
                 /\ uncaught w'
                    = (uncaught w ++
                       [TypeError
                          "Cannot read properties of null (reading 'success')"])%list
             | BodyWithoutMetadata true =>
                 isLoading w' = isLoading w
                 /\ console w' = console w
                 /\ uncaught w'
                    = (uncaught w ++
                       [TypeError
                          "Cannot read properties of undefined (reading 'project_id')"])%list
             | BodyPrimitive | BodyWithoutMetadata false =>
                 isLoading w' = false
                 /\ uncaught w' = uncaught w
                 /\ console w'
                    = (console w ++
                       [console_error "Failed to send message" None])%list
             end)
    /\ (forall body,
          reachable env w ->
          exec env (ChatSettledUnshaped rid body) w = Some w' ->
          body = BodyNull \/ body = BodyWithoutMetadata true ->
          isLoading w' = true
          /\ forall evs w'',
               run env evs w' = Some w'' ->
               isLoading w'' = true /\ send_disabled w'' = true).
Proof.
  intros env w w' rid. split; [ | split].
  - intros response Hexec.
    destruct (chat_settled_shape _ _ _ _ _ Hexec) as (payload & _ & ->).
    unfold handleSend_resume, postChatQuery_resume. js_unfold. cbn.
    destruct (success response); cbn.
    + split; [reflexivity | ]. split; [reflexivity | ].
      split; [discriminate | ]. intros _. split; reflexivity.
    + split; [reflexivity | ]. split; [reflexivity | ].
      split; [ | discriminate]. intros _. repeat split; reflexivity.
  - intros body Hexec.
    destruct (chat_settled_unshaped_shape _ _ _ _ _ Hexec) as (payload & _ & ->).
    destruct body as [| | []]; repeat split; reflexivity.
  - intros body Hreach Hexec Hthrows.
    pose proof (reachable_one_query env w Hreach) as Hinv.
    destruct (chat_settled_unshaped_shape _ _ _ _ _ Hexec)
      as (payload & Hpend & Hw').
    assert (Hup : isLoading w = true).
    { destruct Hinv as [Hidle _]. destruct (isLoading w) eqn:Hl; [reflexivity | ].
      apply pending_chat_inflight in Hpend. rewrite (Hidle eq_refl) in Hpend.
      destruct Hpend. }
    assert (Hup' : isLoading w' = true).
    { rewrite Hw'. destruct Hthrows as [-> | ->]; exact Hup. }
    assert (Hstuck : stuck_loading w').
    { split; [exact Hup' | ].
      rewrite Hw', handleSend_resume_unshaped_chat_inflight, chat_inflight_settle.
      destruct Hinv as [_ Hone].
      eapply single_settled; [exact Hone | ].
      apply pending_chat_inflight. exact Hpend. }
    split; [exact Hup' | ].
    intros evs w'' Hrun.
    destruct (run_stuck env evs w' w'' Hstuck Hrun) as [Hl _].
    split; [exact Hl | apply loading_disables; exact Hl].
Qed.

(** X12.  Along every run from the first render at most one chat query is
    in flight, and while one is in flight the loading flag is up. *)
Theorem at_most_one_chat_query :
  forall (env : option Z) (w : World),
    reachable env w ->
    (length (chat_inflight w) <= 1)%nat
    /\ (forall rid payload,
          pending w rid = Some (PostChatQuery payload) -> isLoading w = true).
Proof.
  intros env w Hreach.
  destruct (reachable_one_query env w Hreach) as [Hidle Hone].
  split; [exact Hone | ].
  intros rid payload Hpend.
  destruct (isLoading w) eqn:Hl; [reflexivity | ].
  apply pending_chat_inflight in Hpend. rewrite (Hidle eq_refl) in Hpend.
  destruct Hpend.
Qed.

(** X14.  The chat history is not merged with the thread: when a history
    response lands after a message was sent, the message list becomes the
    flattened response, so the user message just appended is gone unless
    the backend returned it, while the loading flag stays up for the
    reply. *)
Theorem history_response_replaces_thread :
  forall (env : option Z) (w w2 : World) (now : Z) (timestamp : string)
         (p : Project) (rid : nat) (data : list Conversation),
    selectedProject w = Some p ->
    blank (inputMessage w) = false ->
    isLoading w = false ->
    exec env (HistorySettled rid (Fulfilled (Some data)))
         (spawn (handleSend env now timestamp) w) = Some w2 ->
    messages w2 = flatMap conv_messages data
    /\ isLoading w2 = true
    /\ (Forall (fun m => msg_id m <> "msg-" ++ JsString.of_Z now)
               (flatMap conv_messages data) ->
        Forall (fun m => msg_id m <> "msg-" ++ JsString.of_Z now) (messages w2)
        /\ exists sent,
             In sent (messages (spawn (handleSend env now timestamp) w))
             /\ msg_id sent = "msg-" ++ JsString.of_Z now).
Proof.
  intros env w w2 now timestamp p rid data Hsel Hink Hload Hexec.
  assert (Htrim : JsString.truthy (JsString.trim (inputMessage w)) = true)
    by (rewrite trim_truthy_iff_ink, Hink; reflexivity).
  destruct (history_settled_shape _ _ _ _ _ Hexec) as (projectId & _ & ->).
  rewrite (handleSend_sends env now timestamp w p Hsel Htrim Hload).
  split; [reflexivity | ]. split; [reflexivity | ].
  intros Habsent. split; [exact Habsent | ].
  eexists. split; [apply in_or_app; right; left; reflexivity | reflexivity].
Qed.

(* ===================================================================== *)
(** ** More on projects *)
(* ===================================================================== *)

Lemma same_selection_refl a : same_selection a a = true.
Proof.
  destruct a as [p |]; cbn; [ | reflexivity].
  destruct (Project_eq_dec p p); [reflexivity | contradiction].
Qed.

Lemma handleProjectDelete_runs projectId w :
  spawn (handleProjectDelete projectId) w
  = {| projects :=
         filter (fun p => negb (String.eqb (project_id p) projectId)) (projects w);
       selectedProject := selection_after_delete projectId (selectedProject w);
       documents :=
         filter (fun d => negb (String.eqb (doc_projectId d) projectId))
                (documents w);
       messages :=
         filter (fun m => negb (String.eqb (msg_projectId m) projectId))
                (messages w);
       isLoading := isLoading w;
       inputMessage := inputMessage w;
       inflight := (inflight w ++ [(next_handle w, DeleteProject projectId)])%list;
       timers := timers w;
       console := (console w ++ [console_log "[App] Project deleted:"])%list;
       uncaught := uncaught w;
       next_handle := S (next_handle w) |}.
Proof.
  unfold handleProjectDelete, DeleteProjects, selection_after_delete.
  js_unfold. cbn.
  destruct (selectedProject w) as [p |]; cbn;
    [destruct (String.eqb (project_id p) projectId); cbn | ]; reflexivity.
Qed.

(** The render after a deletion sends nothing: the selection is the same
    or has become empty. *)
Lemma dispatch_handleProjectDelete projectId w :
  dispatch (handleProjectDelete projectId) w
  = spawn (handleProjectDelete projectId) w.
Proof.
  unfold dispatch, rerender. rewrite handleProjectDelete_runs.
  cbn [selectedProject]. unfold selection_after_delete.
  destruct (selectedProject w) as [p |]; cbn.
  - destruct (String.eqb (project_id p) projectId); cbn.
    + reflexivity.
    + destruct (Project_eq_dec p p); [reflexivity | contradiction].
  - reflexivity.
Qed.

Lemma filter_all {A} (f : A -> bool) (l : list A) :
  Forall (fun x => f x = true) l -> filter f l = l.
Proof.
  induction 1 as [| x l Hx _ IH]; cbn; [reflexivity | ].
  rewrite Hx, IH. reflexivity.
Qed.

Lemma filter_idempotent {A} (f : A -> bool) (l : list A) :
  filter f (filter f l) = filter f l.
Proof.
  rewrite filter_filter. apply filter_ext. intros a. apply andb_diag.
Qed.

(** X1.  Selecting a listed project other than the current one makes it
    the selection, keeps of the thread only the messages of that project
    (in their order), leaves the document list as it is until a response
    lands, and sends exactly two requests, in this order: the documents
    and the chat history of that project. *)
Theorem select_project_fetches_both :
  forall (env : option Z) (w w' : World) (p : Project),
    same_selection (selectedProject w) (Some p) = false ->
    exec env (SelectProject p) w = Some w' ->
    selectedProject w' = Some p
    /\ messages w'
       = filter (fun m => String.eqb (msg_projectId m) (project_id p))
                (messages w)
    /\ documents w' = documents w
    /\ inflight w'
       = (inflight w ++
          [ (next_handle w, GetProjectDocuments (project_id p));
            (S (next_handle w), GetChatHistory (project_id p)) ])%list.
Proof.
  intros env w w' p Hnew Hexec. unfold exec in Hexec.
  destruct (listed p w); [ | discriminate].
  inversion Hexec; subst; clear Hexec.
  unfold dispatch, rerender.
  assert (Hhandled :
            spawn (handleProjectSelect p) w
            = {| projects := projects w;
                 selectedProject := Some p;
                 documents := documents w;
                 messages :=
                   filter (fun m => String.eqb (msg_projectId m) (project_id p))
                          (messages w);
                 isLoading := isLoading w;
                 inputMessage := inputMessage w;
                 inflight := inflight w;
                 timers := timers w;
                 console := (console w ++ [console_log "[App] Project selected:"])%list;
                 uncaught := uncaught w;
                 next_handle := next_handle w |}) by reflexivity.
  rewrite Hhandled. cbn [selectedProject]. rewrite Hnew.
  unfold selection_effect, fetchProjectDocuments, fetchChatHistory,
    getProjectDocumentsQuery, getChatHistory.
  js_unfold. cbn. rewrite or_else_empty, <- app_assoc.
  repeat split; reflexivity.
Qed.

Lemma projects_settled_shape env rid r w w' :
  exec env (ProjectsSettled rid r) w = Some w' ->
  w' = spawn (fetchProjects_resume r) (settle rid w).
Proof.
  unfold exec. destruct (pending w rid) as [[] |]; try discriminate.
  intros H. inversion H. reflexivity.
Qed.

(** X2.  [fetchProjects] has no [catch]: a rejected list request leaves
    the project list as it is, is logged once by [getProjectsQuery] and
    ends as an unhandled rejection.  An empty body is logged as
    [Failed to fetch projects] and changes nothing.  A body replaces the
    whole list, and the selected project is kept as it was, listed or
    not. *)
Theorem fetchProjects_outcomes :
  forall (env : option Z) (w w' : World) (rid : nat),
    (forall e,
        exec env (ProjectsSettled rid (Rejected e)) w = Some w' ->
        projects w' = projects w
        /\ console w'
           = (console w ++ [console_error "Error posting chat query:" (Some e)])%list
        /\ uncaught w' = (uncaught w ++ [e])%list)
    /\ (exec env (ProjectsSettled rid (Fulfilled None)) w = Some w' ->
        projects w' = projects w
        /\ console w'
           = (console w ++ [console_error "Failed to fetch projects" None])%list
        /\ uncaught w' = uncaught w)
    /\ (forall data,
          exec env (ProjectsSettled rid (Fulfilled (Some data))) w = Some w' ->
          projects w' = data
          /\ selectedProject w' = selectedProject w
          /\ console w' = console w).
Proof.
  intros env w w' rid. split; [ | split].
  - intros e Hexec. rewrite (projects_settled_shape _ _ _ _ _ Hexec).
    repeat split; reflexivity.
  - intros Hexec. rewrite (projects_settled_shape _ _ _ _ _ Hexec).
    repeat split; reflexivity.
  - intros data Hexec. rewrite (projects_settled_shape _ _ _ _ _ Hexec).
    repeat split; reflexivity.
Qed.

(** X3.  [fetchProjectDocuments] and [fetchChatHistory] catch what their
    access function throws again: a rejected request leaves the document
    list, respectively the thread, as it is, writes two [console.error]
    lines (the access function's, then the handler's) and is not an
    unhandled rejection.  An empty body writes one line and changes
    nothing either. *)
Theorem selection_fetches_catch_failures :
  forall (env : option Z) (w w' : World) (rid : nat),
    (forall e,
        exec env (DocumentsSettled rid (Rejected e)) w = Some w' ->
        documents w' = documents w
        /\ uncaught w' = uncaught w
        /\ console w'
           = (console w ++
              [ console_error "Error posting chat query:" (Some e);
                console_error "Error fetching project documents:" (Some e) ])%list)
    /\ (forall e,
          exec env (HistorySettled rid (Rejected e)) w = Some w' ->
          messages w' = messages w
          /\ uncaught w' = uncaught w
          /\ console w'
             = (console w ++
                [ console_error "Error posting chat feedback:" (Some e);
                  console_error "Error fetching chat history:" (Some e) ])%list)
    /\ (exec env (DocumentsSettled rid (Fulfilled None)) w = Some w' ->
        documents w' = documents w
        /\ console w'
           = (console w ++
              [console_error "Failed to fetch project documents" None])%list)
    /\ (exec env (HistorySettled rid (Fulfilled None)) w = Some w' ->
        messages w' = messages w
        /\ console w'
           = (console w ++
              [ console_log "Chat history response:";
                console_error "Failed to fetch chat history" None ])%list).
Proof.
  intros env w w' rid. split; [ | split; [ | split]].
  - intros e Hexec.
    destruct (documents_settled_shape _ _ _ _ _ Hexec) as (pid & _ & ->).
    cbn. rewrite <- app_assoc. repeat split; reflexivity.
  - intros e Hexec.
    destruct (history_settled_shape _ _ _ _ _ Hexec) as (pid & _ & ->).
    cbn. rewrite <- app_assoc. repeat split; reflexivity.
  - intros Hexec.
    destruct (documents_settled_shape _ _ _ _ _ Hexec) as (pid & _ & ->).
    repeat split; reflexivity.
  - intros Hexec.
    destruct (history_settled_shape _ _ _ _ _ Hexec) as (pid & _ & ->).
    cbn. rewrite <- app_assoc. repeat split; reflexivity.
Qed.

Lemma handleProjectCreate_runs name description now createdAt updatedAt w :
  spawn (handleProjectCreate name description now createdAt updatedAt) w
  = {| projects :=
         (projects w ++
          [ {| project_id := "project-" ++ JsString.of_Z now;
               project_name := name;
               project_description := description;
               project_createdAt := createdAt;
               project_updatedAt := updatedAt;
               file_count := 0 |} ])%list;
       selectedProject := selectedProject w;
       documents := documents w;
       messages := messages w;
       isLoading := isLoading w;
       inputMessage := inputMessage w;
       inflight := inflight w;
       timers := timers w;
       console := (console w ++ [console_log "[App] Project created:"])%list;
       uncaught := uncaught w;
       next_handle := next_handle w |}.
Proof. reflexivity. Qed.

Lemma keep_other_ids (projectId : string) (l : list Project) :
  Forall (fun p => project_id p <> projectId) l ->
  filter (fun p => negb (String.eqb (project_id p) projectId)) l = l.
Proof.
  intros H. apply filter_all. eapply Forall_impl; [ | exact H].
  intros p Hp. cbn. apply negb_true_iff, String.eqb_neq. exact Hp.
Qed.

(** X4.  Creating a project locally and then deleting the id it was given
    gives back the project list as it was, provided no listed project
    already had that id; the creation sends nothing, the deletion sends
    one delete request for an id the backend never saw. *)
Theorem create_then_delete_restores_list :
  forall (w : World) (name : string) (description : option string)
         (now : Z) (createdAt updatedAt : string),
    Forall (fun p => project_id p <> "project-" ++ JsString.of_Z now)
           (projects w) ->
    let created :=
      spawn (handleProjectCreate name description now createdAt updatedAt) w in
    let deleted :=
      dispatch (handleProjectDelete ("project-" ++ JsString.of_Z now)) created in
    length (projects created) = S (length (projects w))
    /\ inflight created = inflight w
    /\ projects deleted = projects w
    /\ inflight deleted
       = (inflight w ++
          [(next_handle w, DeleteProject ("project-" ++ JsString.of_Z now))])%list.
Proof.
  intros w name description now createdAt updatedAt Hfresh created deleted.
  subst deleted created.
  rewrite dispatch_handleProjectDelete, handleProjectDelete_runs,
    handleProjectCreate_runs.
  cbn [projects inflight next_handle].
  split; [rewrite length_app; cbn; lia | ]. split; [reflexivity | ].
  split; [ | reflexivity].
  rewrite filter_app, (keep_other_ids _ _ Hfresh). cbn.
  rewrite String.eqb_refl. cbn. apply app_nil_r.
Qed.

(** X5.  Ids of locally created projects come from the clock alone: two
    projects created at the same reading of [Date.now()] get the same id,
    whatever their names, and one deletion of that id removes both. *)
Theorem same_clock_projects_share_id :
  forall (w : World) (name1 name2 : string) (desc1 desc2 : option string)
         (now : Z) (c1 u1 c2 u2 : string),
    let twice :=
      spawn (handleProjectCreate name2 desc2 now c2 u2)
            (spawn (handleProjectCreate name1 desc1 now c1 u1) w) in
    (exists a b,
        projects twice = (projects w ++ [a; b])%list
        /\ project_name a = name1 /\ project_name b = name2
        /\ project_id a = project_id b)
    /\ projects (dispatch (handleProjectDelete ("project-" ++ JsString.of_Z now))
                          twice)
       = filter (fun p => negb (String.eqb (project_id p)
                                           ("project-" ++ JsString.of_Z now)))
                (projects w).
Proof.
  intros w name1 name2 desc1 desc2 now c1 u1 c2 u2 twice. subst twice.
  rewrite dispatch_handleProjectDelete, handleProjectDelete_runs,
    !handleProjectCreate_runs.
  cbn [projects]. split.
  - eexists. eexists. rewrite <- app_assoc. cbn [app].
    repeat split; reflexivity.
  - rewrite !filter_app. cbn. rewrite String.eqb_refl. cbn.
    rewrite !app_nil_r. reflexivity.
Qed.

(** X6.  Deleting a project clears the selection exactly when the selected
    project has the deleted id, and then the chat input is disabled; the
    render that follows starts no fetch, so the only request sent is the
    delete request, which is sent even when no listed project has that
    id. *)
Theorem delete_clears_matching_selection :
  forall (w : World) (projectId : string),
    let w' := dispatch (handleProjectDelete projectId) w in
    selectedProject w'
    = match selectedProject w with
      | Some p =>
          if String.eqb (project_id p) projectId then None else Some p
      | None => None
      end
    /\ inflight w'
       = (inflight w ++ [(next_handle w, DeleteProject projectId)])%list
    /\ (forall p, selectedProject w = Some p -> project_id p = projectId ->
                  selectedProject w' = None /\ textarea_disabled w' = true).
Proof.
  intros w projectId w'. subst w'.
  rewrite dispatch_handleProjectDelete, handleProjectDelete_runs.
  cbn [selectedProject inflight]. unfold selection_after_delete.
  split; [reflexivity | ]. split; [reflexivity | ].
  intros p Hsel Hid. unfold textarea_disabled, selectedProjectName.
  cbn [selectedProject isLoading]. rewrite Hsel, Hid, String.eqb_refl. cbn.
  split; [reflexivity | apply orb_true_r].
Qed.

(** X7.  Deleting the same id twice changes the three lists and the
    selection no more than deleting it once, but sends a second delete
    request. *)
Theorem delete_twice_same_lists :
  forall (w : World) (projectId : string),
    let once := dispatch (handleProjectDelete projectId) w in
    let twice := dispatch (handleProjectDelete projectId) once in
    projects twice = projects once
    /\ documents twice = documents once
    /\ messages twice = messages once
    /\ selectedProject twice = selectedProject once
    /\ inflight twice
       = (inflight w ++ [ (next_handle w, DeleteProject projectId);
                          (S (next_handle w), DeleteProject projectId) ])%list.
Proof.
  intros w projectId once twice. subst twice once.
  rewrite !dispatch_handleProjectDelete, !handleProjectDelete_runs.
  cbn [projects documents messages selectedProject inflight next_handle].
  rewrite !filter_idempotent, <- app_assoc.
  repeat (split; [reflexivity | ]). split; [ | reflexivity].
  unfold selection_after_delete.
  destruct (selectedProject w) as [p |]; [ | reflexivity].
  destruct (String.eqb (project_id p) projectId) eqn:Hp; [reflexivity | ].
  rewrite Hp. reflexivity.
Qed.

Lemma add_project_settled_shape env rid r w w' :
  exec env (AddProjectSettled rid r) w = Some w' ->
  w' = spawn (handleCreateProject_resume r) (settle rid w).
Proof.
  unfold exec. destruct (pending w rid) as [[] |]; try discriminate.
  intros H. inversion H. reflexivity.
Qed.

(** X15.  The project form never touches the local project list.  With a
    blank name [handleCreateProject] does nothing; otherwise it posts the
    form as typed.  When the response has a body the list is fetched
    again (one [GET /api/projects]); with an empty body, or when the
    request is rejected, nothing is fetched, and a rejection ends as an
    unhandled rejection. *)
Theorem project_form_only_refetches :
  forall (env : option Z) (w w' : World) (rid : nat) (newProject : NewProject),
    (blank (new_name newProject) = true ->
     spawn (handleCreateProject newProject) w = w)
    /\ (blank (new_name newProject) = false ->
        projects (spawn (handleCreateProject newProject) w) = projects w
        /\ inflight (spawn (handleCreateProject newProject) w)
           = (inflight w ++ [(next_handle w, PostProject newProject)])%list)
    /\ (forall created,
          exec env (AddProjectSettled rid (Fulfilled (Some created))) w = Some w' ->
          projects w' = projects w
          /\ inflight w'
             = (inflight (settle rid w) ++ [(next_handle w, GetProjects)])%list)
    /\ (exec env (AddProjectSettled rid (Fulfilled None)) w = Some w' ->
        w' = settle rid w)
    /\ (forall e,
          exec env (AddProjectSettled rid (Rejected e)) w = Some w' ->
          projects w' = projects w
          /\ inflight w' = inflight (settle rid w)
          /\ uncaught w' = (uncaught w ++ [e])%list).
Proof.
  intros env w w' rid newProject.
  split; [ | split; [ | split; [ | split]]].
  - intros Hblank. unfold handleCreateProject.
    rewrite trim_truthy_iff_ink, Hblank. reflexivity.
  - intros Hink. unfold handleCreateProject.
    rewrite trim_truthy_iff_ink, Hink. split; reflexivity.
  - intros created Hexec. rewrite (add_project_settled_shape _ _ _ _ _ Hexec).
    split; reflexivity.
  - intros Hexec. rewrite (add_project_settled_shape _ _ _ _ _ Hexec).
    reflexivity.
  - intros e Hexec. rewrite (add_project_settled_shape _ _ _ _ _ Hexec).
    repeat split; reflexivity.
Qed.

(* ===================================================================== *)
(** ** The reconciliation timer, the source panel, the earlier revision *)
(* ===================================================================== *)

Lemma with_status_twice s d : with_status s (with_status s d) = with_status s d.
Proof. reflexivity. Qed.

Lemma mark_ready_documents newDocuments w :
  documents (spawn (mark_ready newDocuments) w)
  = map (fun doc =>
           match find (fun d => String.eqb (doc_id d) (doc_id doc))
                      newDocuments with
           | Some _ => with_status ready doc
           | None => doc
           end) (documents w).
Proof. reflexivity. Qed.

Lemma find_unknown_id (d : Document) (l : list Document) :
  ~ In (doc_id d) (map doc_id l) ->
  find (fun x => String.eqb (doc_id x) (doc_id d)) l = None.
Proof.
  intros Hout. destruct (find _ l) as [x |] eqn:Hfind; [ | reflexivity].
  exfalso. apply Hout. destruct (find_some _ _ Hfind) as [Hin Heq].
  apply String.eqb_eq in Heq. rewrite <- Heq. apply in_map. exact Hin.
Qed.

(** X13.  The callback of the reconciliation timer changes nothing but
    statuses: the document list keeps its length, order, ids, names and
    owners; a document whose id is not the id of one of the records the
    timer was armed with is left exactly as it is; running the callback a
    second time changes nothing more; projects and messages are not
    touched. *)
Theorem mark_ready_touches_status_only :
  forall (newDocuments : list Document) (w : World),
    let w' := spawn (mark_ready newDocuments) w in
    map doc_id (documents w') = map doc_id (documents w)
    /\ map doc_filename (documents w') = map doc_filename (documents w)
    /\ map doc_projectId (documents w') = map doc_projectId (documents w)
    /\ (forall before d after,
          documents w = (before ++ d :: after)%list ->
          ~ In (doc_id d) (map doc_id newDocuments) ->
          exists before' after',
            documents w' = (before' ++ d :: after')%list
            /\ length before' = length before)
    /\ documents (spawn (mark_ready newDocuments) w') = documents w'
    /\ projects w' = projects w
    /\ messages w' = messages w.
Proof.
  intros newDocuments w w'. subst w'.
  rewrite !mark_ready_documents.
  set (g := fun doc : Document =>
              match find (fun d => String.eqb (doc_id d) (doc_id doc))
                         newDocuments with
              | Some _ => with_status ready doc
              | None => doc
              end).
  assert (Hid : forall d, doc_id (g d) = doc_id d)
    by (intros d; unfold g; destruct (find _ newDocuments); reflexivity).
  assert (Hname : forall d, doc_filename (g d) = doc_filename d)
    by (intros d; unfold g; destruct (find _ newDocuments); reflexivity).
  assert (Hown : forall d, doc_projectId (g d) = doc_projectId d)
    by (intros d; unfold g; destruct (find _ newDocuments); reflexivity).
  split; [rewrite map_map; apply map_ext; exact Hid | ].
  split; [rewrite map_map; apply map_ext; exact Hname | ].
  split; [rewrite map_map; apply map_ext; exact Hown | ].
  split; [ | split; [ | split; reflexivity]].
  - intros before d after Hsplit Hout. rewrite Hsplit, map_app. cbn [map].
    exists (map g before), (map g after). split; [ | apply length_map].
    f_equal. f_equal. unfold g. rewrite (find_unknown_id d _ Hout).
    reflexivity.
  - rewrite map_map. apply map_ext. intros d. unfold g at 1.
    rewrite Hid. unfold g.
    destruct (find _ newDocuments); reflexivity.
Qed.

Lemma panel_run_invariant evs : forall s s',
  (isSourcePanelOpen s = true -> currentSources s <> []) ->
  panel_run evs s = Some s' ->
  isSourcePanelOpen s' = true -> currentSources s' <> [].
Proof.
  induction evs as [| ev rest IH]; intros s s' Hinv Hrun; cbn in Hrun.
  - inversion Hrun; subst. exact Hinv.
  - destruct (panel_exec ev s) as [s1 |] eqn:Hexec; [ | discriminate].
    apply (IH s1 s'); [ | exact Hrun].
    destruct ev as [message |]; cbn in Hexec.
    + unfold shows_sources_button in Hexec.
      destruct (isUser message); cbn in Hexec; [discriminate | ].
      destruct (msg_sources message) as [[| src rest'] |]; cbn in Hexec;
        try discriminate.
      inversion Hexec; subst. cbn. intros _. discriminate.
    + destruct (isSourcePanelOpen s); [ | discriminate].
      inversion Hexec; subst. cbn. discriminate.
Qed.

(** X17.  The source panel is opened only by the sources button of a
    bubble, and a bubble shows that button only for an assistant message
    with at least one source: whatever the user clicks, the panel is
    never open with an empty list, so its "No sources to display" body is
    never rendered; an open panel lists the sources of the last bubble
    clicked, and closing keeps them. *)
Theorem source_panel_never_open_empty :
  forall (evs : list PanelEvent) (s : PanelState),
    panel_run evs panel_init = Some s ->
    SourcePanel (currentSources s) (isSourcePanelOpen s) <> PanelEmpty
    /\ (forall message s',
          panel_exec (ClickSources message) s = Some s' ->
          msg_role message = assistant
          /\ msg_sources message = Some (currentSources s')
          /\ SourcePanel (currentSources s') (isSourcePanelOpen s')
             = PanelList (currentSources s')
                 ("Showing " ++ count_of_sources (length (currentSources s'))))
    /\ (forall s',
          panel_exec ClickClose s = Some s' ->
          currentSources s' = currentSources s
          /\ SourcePanel (currentSources s') (isSourcePanelOpen s') = PanelHidden).
Proof.
  intros evs s Hrun. split; [ | split].
  - pose proof (panel_run_invariant evs panel_init s) as Hinv.
    assert (Hopen : isSourcePanelOpen s = true -> currentSources s <> []).
    { apply Hinv; [cbn; discriminate | exact Hrun]. }
    unfold SourcePanel. destruct (isSourcePanelOpen s); cbn; [ | discriminate].
    destruct (currentSources s) as [| src rest]; cbn; [ | discriminate].
    exfalso. apply Hopen; reflexivity.
  - intros message s' Hexec. cbn in Hexec.
    unfold shows_sources_button, isUser in Hexec.
    destruct (msg_role message); cbn in Hexec; [discriminate | ].
    destruct (msg_sources message) as [[| src rest] |]; cbn in Hexec;
      try discriminate.
    inversion Hexec; subst. cbn. repeat split; reflexivity.
  - intros s' Hexec. cbn in Hexec.
    destruct (isSourcePanelOpen s); [ | discriminate].
    inversion Hexec; subst. split; reflexivity.
Qed.


(** X19.  The two revisions of [handleProjectDelete] leave the same three
    lists and the same selection; wiring the backend in added the delete
    request and nothing else. *)
Theorem delete_revisions_agree_on_lists :
  forall (projectId : string) (w : World),
    let later := spawn (handleProjectDelete projectId) w in
    let earlier := spawn (Legacy.handleProjectDelete projectId) w in
    projects later = projects earlier
    /\ documents later = documents earlier
    /\ messages later = messages earlier
    /\ selectedProject later = selectedProject earlier
    /\ console later = console earlier
    /\ inflight earlier = inflight w
    /\ inflight later
       = (inflight w ++ [(next_handle w, DeleteProject projectId)])%list.
Proof.
  intros projectId w later earlier. subst later earlier.
  rewrite handleProjectDelete_runs.
  unfold Legacy.handleProjectDelete, selection_after_delete. js_unfold. cbn.
  destruct (selectedProject w) as [p |]; cbn;
    [destruct (String.eqb (project_id p) projectId); cbn | ];
    repeat split; reflexivity.
Qed.

(* ===================================================================== *)
(** ** Nothing is cancelled *)
(* ===================================================================== *)

Lemma additive_still {A} (m : Js A) :
  (forall w, inflight (fst (m w)) = inflight w /\ timers (fst (m w)) = timers w) ->
  additive m.
Proof.
  intros H w. destruct (H w) as [Hi Ht].
  split; exists []; rewrite app_nil_r; assumption.
Qed.

Lemma additive_ret {A} (a : A) : additive (ret a).
Proof. apply additive_still. intros w. split; reflexivity. Qed.

Lemma additive_throw {A} (e : JsError) : additive (@throw A e).
Proof. apply additive_still. intros w. split; reflexivity. Qed.

Lemma additive_get : additive get.
Proof. apply additive_still. intros w. split; reflexivity. Qed.

Lemma additive_await {A} (p : Settled A) : additive (await p).
Proof. destruct p; [apply additive_ret | apply additive_throw]. Qed.

Lemma additive_log entry : additive (log entry).
Proof. apply additive_still. intros w. split; reflexivity. Qed.

Lemma additive_setProjects f : additive (setProjects f).
Proof. apply additive_still. intros w. split; reflexivity. Qed.

Lemma additive_setDocuments f : additive (setDocuments f).
Proof. apply additive_still. intros w. split; reflexivity. Qed.

Lemma additive_setMessages f : additive (setMessages f).
Proof. apply additive_still. intros w. split; reflexivity. Qed.

Lemma additive_setSelectedProject p : additive (setSelectedProject p).
Proof. apply additive_still. intros w. split; reflexivity. Qed.

Lemma additive_setIsLoading b : additive (setIsLoading b).
Proof. apply additive_still. intros w. split; reflexivity. Qed.

Lemma additive_setInputMessage s : additive (setInputMessage s).
Proof. apply additive_still. intros w. split; reflexivity. Qed.

Lemma additive_axios r : additive (axios r).
Proof.
  intros w. split; [eexists; reflexivity | ].
  exists []. rewrite app_nil_r. reflexivity.
Qed.

Lemma additive_setTimeout closure : additive (setTimeout closure).
Proof.
  intros w. split; [ | eexists; reflexivity].
  exists []. rewrite app_nil_r. reflexivity.
Qed.

Lemma additive_bind {A B} (m : Js A) (k : A -> Js B) :
  additive m -> (forall a, additive (k a)) -> additive (bind m k).
Proof.
  intros Hm Hk w. unfold bind.
  destruct (Hm w) as [[sent Hs] [tm Ht]].
  destruct (m w) as [w1 [a | e]]; cbn in *.
  - destruct (Hk a w1) as [[sent' Hs'] [tm' Ht']].
    split; [exists (sent ++ sent')%list | exists (tm ++ tm')%list].
    + rewrite Hs', Hs, app_assoc. reflexivity.
    + rewrite Ht', Ht, app_assoc. reflexivity.
  - split; eauto.
Qed.

Lemma additive_try_catch {A} (body : Js A) (handler : JsError -> Js A) :
  additive body -> (forall e, additive (handler e)) ->
  additive (try_catch body handler).
Proof.
  intros Hm Hk w. unfold try_catch.
  destruct (Hm w) as [[sent Hs] [tm Ht]].
  destruct (body w) as [w1 [a | e]]; cbn in *.
  - split; eauto.
  - destruct (Hk e w1) as [[sent' Hs'] [tm' Ht']].
    split; [exists (sent ++ sent')%list | exists (tm ++ tm')%list].
    + rewrite Hs', Hs, app_assoc. reflexivity.
    + rewrite Ht', Ht, app_assoc. reflexivity.
Qed.

Create HintDb additive.
#[local] Hint Resolve additive_ret additive_throw additive_get additive_await
  additive_log additive_setProjects additive_setDocuments additive_setMessages
  additive_setSelectedProject additive_setIsLoading additive_setInputMessage
  additive_axios additive_setTimeout : additive.

Ltac additive_walk :=
  repeat first
    [ progress auto with additive
    | apply additive_bind; [ | intro ]
    | apply additive_try_catch; [ | intro ]
    | match goal with
      | |- additive (match ?x with _ => _ end) => destruct x
      | |- additive (let _ := _ in _) => cbv zeta
      end ].

Lemma additive_handlers env :
  (forall p, additive (handleProjectSelect p))
  /\ (forall projectId, additive (handleProjectDelete projectId))
  /\ (forall name description now createdAt updatedAt,
        additive (handleProjectCreate name description now createdAt updatedAt))
  /\ (forall np, additive (handleCreateProject np))
  /\ (forall files projectId formIso updatedAt,
        additive (handleFileUpload files projectId formIso updatedAt))
  /\ (forall now timestamp, additive (handleSend env now timestamp))
  /\ additive selection_effect.
Proof.
  repeat apply conj; intros.
  - unfold handleProjectSelect. additive_walk.
  - unfold handleProjectDelete, DeleteProjects. additive_walk.
  - unfold handleProjectCreate. additive_walk.
  - unfold handleCreateProject, AddProjects. additive_walk.
  - unfold handleFileUpload, uploadDocumentQuery.
    destruct files as [| [file0 d0] rest]; additive_walk.
  - unfold handleSend, handleSendMessage, postChatQuery. additive_walk.
  - unfold selection_effect, fetchProjectDocuments, fetchChatHistory,
      getProjectDocumentsQuery, getChatHistory. additive_walk.
Qed.

Lemma additive_resumptions :
  (forall r, additive (fetchProjects_resume r))
  /\ (forall r, additive (handleCreateProject_resume r))
  /\ (forall r, additive (_ <- DeleteProjects_resume r ;; ret tt))
  /\ (forall r, additive (fetchProjectDocuments_resume r))
  /\ (forall r, additive (_ <- uploadDocumentQuery_resume r ;; ret tt))
  /\ (forall r, additive (handleSend_resume r))
  /\ (forall r, additive (fetchChatHistory_resume r))
  /\ (forall newDocuments, additive (mark_ready newDocuments)).
Proof.
  repeat apply conj; intros.
  - unfold fetchProjects_resume, getProjectsQuery_resume. additive_walk.
  - unfold handleCreateProject_resume, AddProjects_resume, fetchProjects,
      getProjectsQuery. additive_walk.
  - unfold DeleteProjects_resume. additive_walk.
  - unfold fetchProjectDocuments_resume, getProjectDocumentsQuery_resume.
    additive_walk.
  - unfold uploadDocumentQuery_resume. additive_walk.
  - unfold handleSend_resume, postChatQuery_resume. additive_walk.
  - unfold fetchChatHistory_resume, getChatHistory_resume. additive_walk.
  - unfold mark_ready. additive_walk.
Qed.

Lemma additive_useDropzone files projectId formIso updatedAt :
  additive (useDropzone (onDrop files projectId formIso updatedAt)).
Proof.
  destruct (additive_handlers None) as (_ & _ & _ & _ & Hup & _).
  unfold useDropzone, onDrop.
  apply additive_try_catch; [ | intro; apply additive_log].
  apply additive_bind; [apply additive_log | intro]. apply Hup.
Qed.

Lemma additive_handleSend_resume_unshaped body :
  additive (handleSend_resume_unshaped body).
Proof. unfold handleSend_resume_unshaped. additive_walk. Qed.

Lemma spawn_keeps (m : Js unit) w :
  additive m ->
  (forall entry, In entry (inflight w) -> In entry (inflight (spawn m w)))
  /\ (forall entry, In entry (timers w) -> In entry (timers (spawn m w))).
Proof.
  intros Hm. destruct (Hm w) as [[sent Hs] [tm Ht]]. unfold spawn.
  destruct (m w) as [w1 [a | e]]; cbn in *; rewrite Hs, Ht;
    split; intros entry Hin; apply in_or_app; left; exact Hin.
Qed.

Lemma dispatch_keeps (m : Js unit) w :
  additive m ->
  (forall entry, In entry (inflight w) -> In entry (inflight (dispatch m w)))
  /\ (forall entry, In entry (timers w) -> In entry (timers (dispatch m w))).
Proof.
  intros Hm. unfold dispatch, rerender.
  destruct (spawn_keeps m w Hm) as [Hi Ht].
  destruct (same_selection _ _); [split; assumption | ].
  destruct (additive_handlers None) as (_ & _ & _ & _ & _ & _ & Heff).
  destruct (spawn_keeps selection_effect (spawn m w) Heff) as [Hi' Ht'].
  split; intros entry Hin; [apply Hi', Hi | apply Ht', Ht]; exact Hin.
Qed.

Lemma settle_keeps_others rid w h r :
  h <> rid -> In (h, r) (inflight w) -> In (h, r) (inflight (settle rid w)).
Proof.
  intros Hneq Hin. cbn. apply filter_In. split; [exact Hin | ].
  unfold same_handle. cbn. apply negb_true_iff, Nat.eqb_neq. exact Hneq.
Qed.

Lemma disarm_keeps_others tid w t c :
  t <> tid -> In (t, c) (timers w) -> In (t, c) (timers (disarm tid w)).
Proof.
  intros Hneq Hin. cbn. apply filter_In. split; [exact Hin | ].
  cbn. apply negb_true_iff, Nat.eqb_neq. exact Hneq.
Qed.

Lemma settled_keeps (m : Js unit) rid w h r :
  additive m ->
  In (h, r) (inflight w) ->
  In (h, r) (inflight (spawn m (settle rid w))) \/ rid = h.
Proof.
  intros Hm Hin. destruct (Nat.eq_dec h rid) as [-> | Hneq]; [right; reflexivity | ].
  left. apply (spawn_keeps m (settle rid w) Hm).
  apply settle_keeps_others; assumption.
Qed.

Lemma settled_keeps_timers (m : Js unit) rid w entry :
  additive m ->
  In entry (timers w) -> In entry (timers (spawn m (settle rid w))).
Proof.
  intros Hm Hin. apply (spawn_keeps m (settle rid w) Hm). exact Hin.
Qed.

(** X20.  Nothing is ever cancelled.  A request in flight stays in flight
    through every event but its own settlement, and an armed timer stays
    armed through every event but its own expiry: neither selecting or
    deleting a project nor any response that lands aborts a request or
    clears a timer. *)
Theorem nothing_is_cancelled :
  forall (env : option Z) (ev : Event) (w w' : World),
    exec env ev w = Some w' ->
    (forall h r, In (h, r) (inflight w) ->
                 In (h, r) (inflight w') \/ settles ev h)
    /\ (forall t closure, In (t, closure) (timers w) ->
                          In (t, closure) (timers w') \/ ev = TimerFired t).
Proof.
  intros env ev w w' Hexec.
  destruct (additive_handlers env) as (Hsel & Hdel & Hnew & Hform & Hup & Hsend & _).
  destruct additive_resumptions
    as (Rproj & Radd & Rdel & Rdoc & Rup & Rchat & Rhist & Rmark).
  destruct ev; unfold exec in Hexec.
  - destruct (listed project w); inversion Hexec; subst.
    destruct (dispatch_keeps _ w (Hsel project)) as [Hi Ht].
    split; intros; left; [apply Hi | apply Ht]; assumption.
  - destruct (listed project w); inversion Hexec; subst.
    destruct (dispatch_keeps _ w (Hdel (project_id project))) as [Hi Ht].
    split; intros; left; [apply Hi | apply Ht]; assumption.
  - inversion Hexec; subst.
    destruct (spawn_keeps _ w (Hnew name description now createdAt updatedAt))
      as [Hi Ht].
    split; intros; left; [apply Hi | apply Ht]; assumption.
  - inversion Hexec; subst.
    destruct (spawn_keeps _ w (Hform newProject)) as [Hi Ht].
    split; intros; left; [apply Hi | apply Ht]; assumption.
  - destruct (selectedProject w) as [p |]; inversion Hexec; subst.
    destruct (spawn_keeps _ w
                (additive_useDropzone files (project_id p) formIso updatedAt))
      as [Hi Ht].
    split; intros; left; [apply Hi | apply Ht]; assumption.
  - destruct (textarea_disabled w); inversion Hexec; subst.
    destruct (spawn_keeps _ w (additive_setInputMessage text)) as [Hi Ht].
    split; intros; left; [apply Hi | apply Ht]; assumption.
  - destruct (textarea_disabled w); inversion Hexec; subst.
    destruct (spawn_keeps _ w (Hsend now timestamp)) as [Hi Ht].
    split; intros; left; [apply Hi | apply Ht]; assumption.
  - destruct (pending w rid) as [[] |]; inversion Hexec; subst.
    split; intros; [apply settled_keeps | left; apply settled_keeps_timers];
      auto using additive_handleSend_resume_unshaped.
  - destruct (pending w rid) as [[] |]; inversion Hexec; subst.
    split; intros; [apply settled_keeps | left; apply settled_keeps_timers];
      auto using additive_handleSend_resume_unshaped.
  - destruct (pending w rid) as [[] |]; inversion Hexec; subst.
    split; intros; [apply settled_keeps | left; apply settled_keeps_timers];
      auto using additive_handleSend_resume_unshaped.
  - destruct (pending w rid) as [[] |]; inversion Hexec; subst.
    split; intros; [apply settled_keeps | left; apply settled_keeps_timers];
      auto using additive_handleSend_resume_unshaped.
  - destruct (pending w rid) as [[] |]; inversion Hexec; subst.
    split; intros; [apply settled_keeps | left; apply settled_keeps_timers];
      auto using additive_handleSend_resume_unshaped.
  - destruct (pending w rid) as [[] |]; inversion Hexec; subst.
    split; intros; [apply settled_keeps | left; apply settled_keeps_timers];
      auto using additive_handleSend_resume_unshaped.
  - destruct (pending w rid) as [[] |]; inversion Hexec; subst.
    split; intros; [apply settled_keeps | left; apply settled_keeps_timers];
      auto using additive_handleSend_resume_unshaped.
  - destruct (pending w rid) as [[] |]; inversion Hexec; subst.
    split; intros; [apply settled_keeps | left; apply settled_keeps_timers];
      auto using additive_handleSend_resume_unshaped.
  - destruct (armed w tid) as [newDocuments |]; inversion Hexec; subst.
    destruct (spawn_keeps _ (disarm tid w) (Rmark newDocuments)) as [Hi Ht].
    split.
    + intros h r Hin. left. apply Hi. exact Hin.
    + intros t closure Hin.
      destruct (Nat.eq_dec t tid) as [-> | Hneq]; [right; reflexivity | ].
      left. apply Ht. apply disarm_keeps_others; assumption.
Qed.

(* ===================================================================== *)
(** ** A failed upload is not rolled back *)
(* ===================================================================== *)

(** X21.  When the upload request of a drop is rejected, the optimistic
    records stay in the document list, each still [processing], and the
    file count stays raised (by the number of files, up to 2^53); the
    failure is logged and ends as an unhandled rejection, and when the
    timer armed by the drop expires, the records of the drop, at the end
    of the list, have status [ready] all the same. *)
Theorem failed_upload_still_ends_ready :
  forall (file0 : File) (d0 : Draw) (rest : list (File * Draw))
         (projectId formIso updatedAt : string) (w : World)
         (rid tid : nat) (e : JsError),
    let files := (file0, d0) :: rest in
    let newDocuments := map (new_document projectId) files in
    let dropped := spawn (handleFileUpload files projectId formIso updatedAt) w in
    let failed := spawn (_ <- uploadDocumentQuery_resume (Rejected e) ;; ret tt)
                        (settle rid dropped) in
    let expired := spawn (mark_ready newDocuments) (disarm tid failed) in
    documents failed = (documents w ++ newDocuments)%list
    /\ length newDocuments = length files
    /\ Forall (fun d => doc_status d = processing /\ doc_projectId d = projectId)
              newDocuments
    /\ map file_count (projects failed)
       = map (fun p => if String.eqb (project_id p) projectId
                       then JsNumber.add (file_count p) (Z.of_nat (length files))
                       else file_count p) (projects w)
    /\ (counts_stay_exact projectId (Z.of_nat (length files)) (projects w) ->
        map file_count (projects failed)
        = map (fun p => if String.eqb (project_id p) projectId
                        then file_count p + Z.of_nat (length files)
                        else file_count p) (projects w))
    /\ console failed
       = (console w ++ [console_error "Error uploading document:" (Some e)])%list
    /\ uncaught failed = (uncaught w ++ [e])%list
    /\ projects expired = projects failed
    /\ exists earlier readied,
         documents expired = (earlier ++ readied)%list
         /\ length earlier = length (documents w)
         /\ length readied = length files
         /\ Forall (fun d => doc_status d = ready) readied
         /\ map doc_id readied = map doc_id newDocuments
         /\ map doc_filename readied = map (fun f => file_name (fst f)) files.
Proof.
  intros file0 d0 rest projectId formIso updatedAt w rid tid e
         files newDocuments dropped failed expired.
  destruct (new_documents_fields projectId files)
    as (Hfiles & Hnames & _ & _ & Hfresh).
  fold newDocuments in Hfiles, Hnames, Hfresh.
  assert (Hdocs : documents (disarm tid failed)
                  = (documents w ++ newDocuments)%list).
  { subst failed dropped newDocuments files. rewrite handleFileUpload_runs.
    reflexivity. }
  assert (Hprojects :
            projects failed
            = map (bump_file_count projectId (Z.of_nat (length files)) updatedAt)
                  (projects w)).
  { subst failed dropped files. rewrite handleFileUpload_runs. reflexivity. }
  split; [exact Hdocs | ]. split; [exact Hfiles | ]. split; [exact Hfresh | ].
  split; [rewrite Hprojects; apply counts_after_bump | ].
  split.
  { intros Hsafe. rewrite Hprojects, counts_after_bump.
    apply counts_exact_in_range. exact Hsafe. }
  split.
  { subst failed dropped files. rewrite handleFileUpload_runs. reflexivity. }
  split.
  { subst failed dropped files. rewrite handleFileUpload_runs. reflexivity. }
  split; [reflexivity | ].
  destruct (records_ready_after_expiry (documents w) newDocuments
              (disarm tid failed) Hdocs)
    as (earlier & readied & Hexp & Hlen & Hst & Hrid & Hrname & _).
  exists earlier, readied. split; [exact Hexp | ]. split; [exact Hlen | ].
  split.
  { rewrite <- Hfiles, <- (length_map doc_id readied), Hrid. apply length_map. }
  split; [exact Hst | ]. split; [exact Hrid | ].
  rewrite Hrname. exact Hnames.
Qed.

(* ===================================================================== *)
(** ** The further statements at sample inputs *)
(* ===================================================================== *)

(** X1 at a sample: [Alpha] is selected from the list. *)
Lemma select_project_fetches_both_sample :
  let w := Sample.world_after
             [ProjectsSettled 0 (Fulfilled (Some [Sample.alpha; Sample.beta]))] in
  let w' := Sample.world_after Sample.opened in
  same_selection (selectedProject w) (Some Sample.alpha) = false
  /\ exec None (SelectProject Sample.alpha) w = Some w'
  /\ inflight w'
     = (inflight w ++
        [ (next_handle w, GetProjectDocuments (project_id Sample.alpha));
          (S (next_handle w), GetChatHistory (project_id Sample.alpha)) ])%list.
Proof.
  intros w w'.
  assert (Hnew : same_selection (selectedProject w) (Some Sample.alpha) = false)
    by (vm_compute; reflexivity).
  assert (Hexec : exec None (SelectProject Sample.alpha) w = Some w')
    by (vm_compute; reflexivity).
  split; [exact Hnew | ]. split; [exact Hexec | ].
  exact (proj2 (proj2 (proj2
           (select_project_fetches_both None w w' Sample.alpha Hnew Hexec)))).
Defined.

(** X2 at a sample: the first list request is rejected. *)
Lemma fetchProjects_outcomes_sample :
  let w' := Sample.world_after [ProjectsSettled 0 (Rejected Sample.network_error)] in
  exec None (ProjectsSettled 0 (Rejected Sample.network_error)) (boot) = Some w'
  /\ projects w' = projects boot
  /\ console w'
     = (console boot ++
        [console_error "Error posting chat query:" (Some Sample.network_error)])%list
  /\ uncaught w' = (uncaught boot ++ [Sample.network_error])%list.
Proof.
  intros w'.
  assert (Hexec :
            exec None (ProjectsSettled 0 (Rejected Sample.network_error)) boot
            = Some w') by (vm_compute; reflexivity).
  split; [exact Hexec | ].
  exact (proj1 (fetchProjects_outcomes None boot w' 0) Sample.network_error Hexec).
Defined.

(** X3 at a sample: the documents request for [Alpha] is rejected. *)
Lemma selection_fetches_catch_failures_sample :
  let w := Sample.world_after Sample.opened in
  let w' := Sample.world_after
              (Sample.opened ++ [DocumentsSettled 1 (Rejected Sample.network_error)]) in
  exec None (DocumentsSettled 1 (Rejected Sample.network_error)) w = Some w'
  /\ documents w' = documents w
  /\ uncaught w' = uncaught w
  /\ console w'
     = (console w ++
        [ console_error "Error posting chat query:" (Some Sample.network_error);
          console_error "Error fetching project documents:"
            (Some Sample.network_error) ])%list.
Proof.
  intros w w'.
  assert (Hexec :
            exec None (DocumentsSettled 1 (Rejected Sample.network_error)) w
            = Some w') by (vm_compute; reflexivity).
  split; [exact Hexec | ].
  exact (proj1 (selection_fetches_catch_failures None w w' 1)
           Sample.network_error Hexec).
Defined.

(** X4 at a sample: "Q3 Filings" is created and deleted again. *)
Lemma create_then_delete_restores_list_sample :
  let w := Sample.world_after Sample.opened in
  Forall (fun p => project_id p <> "project-" ++ JsString.of_Z 1700000000000)
         (projects w)
  /\ projects
       (dispatch (handleProjectDelete ("project-" ++ JsString.of_Z 1700000000000))
          (spawn (handleProjectCreate "Q3 Filings" (Some "") 1700000000000
                    "2023-11-14T22:13:20.000Z" "2023-11-14T22:13:20.000Z") w))
     = projects w.
Proof.
  intros w.
  assert (Hfresh :
            Forall (fun p => project_id p
                             <> "project-" ++ JsString.of_Z 1700000000000)
                   (projects w)).
  { vm_compute. repeat constructor; discriminate. }
  split; [exact Hfresh | ].
  exact (proj1 (proj2 (proj2
           (create_then_delete_restores_list w "Q3 Filings" (Some "")
              1700000000000 "2023-11-14T22:13:20.000Z"
              "2023-11-14T22:13:20.000Z" Hfresh)))).
Defined.

(** X6 at a sample: the selected project [Alpha] is deleted. *)
Lemma delete_clears_matching_selection_sample :
  let w := Sample.world_after Sample.opened in
  let w' := dispatch (handleProjectDelete "p1") w in
  selectedProject w = Some Sample.alpha
  /\ selectedProject w' = None
  /\ textarea_disabled w' = true.
Proof.
  intros w w'.
  assert (Hsel : selectedProject w = Some Sample.alpha)
    by (vm_compute; reflexivity).
  split; [exact Hsel | ].
  exact (proj2 (proj2 (delete_clears_matching_selection w "p1"))
           Sample.alpha Hsel eq_refl).
Defined.

(** X8 at a sample: three spaces are typed and Enter is pressed. *)
Lemma handleSend_sends_iff_ink_sample :
  let w := Sample.world_after (Sample.opened ++ [ChangeInput "   "]) in
  orb (blank (inputMessage w)) (isLoading w) = true
  /\ spawn (handleSend None 1700000000000 "2023-11-14T22:13:20.000Z") w = w.
Proof.
  intros w.
  assert (Hstop : orb (blank (inputMessage w)) (isLoading w) = true)
    by (vm_compute; reflexivity).
  split; [exact Hstop | ].
  exact (proj1 (handleSend_sends_iff_ink None 1700000000000
                  "2023-11-14T22:13:20.000Z" w) Hstop).
Defined.

(** X9 at a sample: [handleSend] with "hi" typed and nothing selected. *)
Lemma send_without_project_still_posts_sample :
  let w := mkWorld [] None [] [] false "hi" [] [] [] [] 0 in
  messages (spawn (handleSend None 1700000000000 "2023-11-14T22:13:20.000Z") w)
  = messages w.
Proof.
  intros w.
  exact (proj1 (send_without_project_still_posts None 1700000000000
                  "2023-11-14T22:13:20.000Z" w eq_refl eq_refl eq_refl)).
Defined.

(** X10 at a sample: "Revenue?" is typed with [Alpha] selected. *)
Lemma enabled_send_button_sends_sample :
  let w := Sample.world_after (Sample.opened ++ [ChangeInput "Revenue?"]) in
  send_button_disabled w = false
  /\ exists w' p,
       selectedProject w = Some p
       /\ exec None (PressSend 1700000000000 "2023-11-14T22:13:20.000Z") w = Some w'
       /\ messages w'
          = (messages w ++
             [ {| msg_id := "msg-" ++ JsString.of_Z 1700000000000;
                  msg_projectId := project_id p;
                  msg_content := inputMessage w;
                  msg_role := user;
                  msg_timestamp := "2023-11-14T22:13:20.000Z";
                  msg_sources := None |} ])%list
       /\ isLoading w' = true
       /\ send_button_disabled w' = true
       /\ textarea_disabled w' = true.
Proof.
  intros w.
  assert (Hen : send_button_disabled w = false) by (vm_compute; reflexivity).
  split; [exact Hen | ].
  exact (proj2 (enabled_send_button_sends None w 1700000000000
                  "2023-11-14T22:13:20.000Z") Hen).
Defined.

(** X11 at a sample: the reply to "Revenue?" arrives; or [null] arrives
    in its place, and then [Beta] is selected. *)
Lemma fulfilled_chat_response_outcomes_sample :
  let w := Sample.world_after Sample.asked in
  let w' := Sample.world_after
              (Sample.asked ++ [ChatSettled 3 (Fulfilled Sample.reply)]) in
  let n' := Sample.world_after (Sample.asked ++ [ChatSettledUnshaped 3 BodyNull]) in
  let n'' := Sample.world_after
               (Sample.asked ++ [ChatSettledUnshaped 3 BodyNull;
                                 SelectProject Sample.beta]) in
  exec None (ChatSettled 3 (Fulfilled Sample.reply)) w = Some w'
  /\ isLoading w = true
  /\ isLoading w' = false
  /\ reachable None w
  /\ exec None (ChatSettledUnshaped 3 BodyNull) w = Some n'
  /\ run None [SelectProject Sample.beta] n' = Some n''
  /\ isLoading n'' = true
  /\ send_disabled n'' = true.
Proof.
  intros w w' n' n''.
  assert (Hexec : exec None (ChatSettled 3 (Fulfilled Sample.reply)) w = Some w')
    by (vm_compute; reflexivity).
  assert (Hreach : reachable None w)
    by (exists Sample.asked; vm_compute; reflexivity).
  assert (Hnull : exec None (ChatSettledUnshaped 3 BodyNull) w = Some n')
    by (vm_compute; reflexivity).
  assert (Hrun : run None [SelectProject Sample.beta] n' = Some n'')
    by (vm_compute; reflexivity).
  split; [exact Hexec | ]. split; [vm_compute; reflexivity | ].
  split.
  { exact (proj1 (proj1 (fulfilled_chat_response_outcomes None w w' 3)
                    Sample.reply Hexec)). }
  split; [exact Hreach | ]. split; [exact Hnull | ]. split; [exact Hrun | ].
  exact (proj2 (proj2 (proj2 (fulfilled_chat_response_outcomes None w n' 3))
                  BodyNull Hreach Hnull (or_introl eq_refl))
           [SelectProject Sample.beta] n'' Hrun).
Defined.

(** X12 at a sample: after "Revenue?" was sent. *)
Lemma at_most_one_chat_query_sample :
  let w := Sample.world_after Sample.asked in
  reachable None w /\ (length (chat_inflight w) <= 1)%nat.
Proof.
  intros w.
  assert (Hreach : reachable None w)
    by (exists Sample.asked; vm_compute; reflexivity).
  split; [exact Hreach | ].
  exact (proj1 (at_most_one_chat_query None w Hreach)).
Defined.

(** X13 at a sample: a timer armed for another record expires. *)
Lemma mark_ready_touches_status_only_sample :
  let newDocuments := map (new_document "p1") Sample.drop in
  let stored := with_status processing Sample.report_pdf in
  let w := mkWorld [] None [stored] [] false "" [] [] [] [] 0 in
  exists before' after',
    documents (spawn (mark_ready newDocuments) w)
    = (before' ++ stored :: after')%list
    /\ length before' = length (@nil Document).
Proof.
  intros newDocuments stored w.
  apply (proj1 (proj2 (proj2 (proj2
           (mark_ready_touches_status_only newDocuments w)))) [] stored []).
  - reflexivity.
  - vm_compute. intros [H | [H | []]]; discriminate H.
Defined.

(** X14 at a sample: the history of [Alpha] lands after "Revenue?" was
    sent. *)
Lemma history_response_replaces_thread_sample :
  let w := Sample.world_after (Sample.opened ++ [ChangeInput "Revenue?"]) in
  let w2 := Sample.world_after
              (Sample.asked ++ [HistorySettled 2 (Fulfilled (Some Sample.history))]) in
  exec None (HistorySettled 2 (Fulfilled (Some Sample.history)))
       (spawn (handleSend None 1700000000000 "2023-11-14T22:13:20.000Z") w)
  = Some w2
  /\ messages w2 = flatMap conv_messages Sample.history
  /\ isLoading w2 = true.
Proof.
  intros w w2.
  assert (Hsel : selectedProject w = Some Sample.alpha)
    by (vm_compute; reflexivity).
  assert (Hink : blank (inputMessage w) = false) by (vm_compute; reflexivity).
  assert (Hload : isLoading w = false) by (vm_compute; reflexivity).
  assert (Hexec :
            exec None (HistorySettled 2 (Fulfilled (Some Sample.history)))
                 (spawn (handleSend None 1700000000000
                           "2023-11-14T22:13:20.000Z") w)
            = Some w2) by (vm_compute; reflexivity).
  split; [exact Hexec | ].
  destruct (history_response_replaces_thread None w w2 1700000000000
              "2023-11-14T22:13:20.000Z" Sample.alpha 2 Sample.history
              Hsel Hink Hload Hexec) as (Hm & Hl & _).
  split; [exact Hm | exact Hl].
Defined.

(** X15 at a sample: the form is submitted with a name of two spaces. *)
Lemma project_form_only_refetches_sample :
  spawn (handleCreateProject {| new_name := "  "; new_description := "x" |}) boot
  = boot.
Proof.
  exact (proj1 (project_form_only_refetches None boot boot 0
                  {| new_name := "  "; new_description := "x" |}) eq_refl).
Defined.

(** X16 at a sample: [setup.EXE] is recorded with the type [exe]. *)
Lemma file_type_is_last_segment_sample :
  doc_fileType
    (new_document "p1"
       ({| file_name := "setup.EXE"; file_size := 10; file_bytes := "MZ" |},
        {| draw_now := 1700000000000; draw_random := "0.5";
           draw_iso := "2023-11-14T22:13:20.000Z" |}))
  = JsString.toLowerCase "EXE".
Proof.
  exact (proj1 (file_type_is_last_segment "p1" "2023-11-14T22:13:20.001Z"
                  {| file_name := "setup.EXE"; file_size := 10;
                     file_bytes := "MZ" |}
                  {| draw_now := 1700000000000; draw_random := "0.5";
                     draw_iso := "2023-11-14T22:13:20.000Z" |})
           "setup" "EXE" eq_refl eq_refl).
Defined.

(** X17 at a sample: the sources of the answer are opened and closed. *)
Lemma source_panel_never_open_empty_sample :
  let s := {| currentSources := [Sample.excerpt]; isSourcePanelOpen := false |} in
  panel_run [ClickSources Sample.answer; ClickClose] panel_init = Some s
  /\ SourcePanel (currentSources s) (isSourcePanelOpen s) <> PanelEmpty.
Proof.
  intros s.
  assert (Hrun : panel_run [ClickSources Sample.answer; ClickClose] panel_init
                 = Some s) by reflexivity.
  split; [exact Hrun | ].
  exact (proj1 (source_panel_never_open_empty
                  [ClickSources Sample.answer; ClickClose] s Hrun)).
Defined.

(** X20 at a sample: [Beta] is selected while the documents of [Alpha]
    are in flight. *)
Lemma nothing_is_cancelled_sample :
  let w := Sample.world_after Sample.opened in
  let w' := Sample.world_after Sample.switched in
  exec None (SelectProject Sample.beta) w = Some w'
  /\ In (1%nat, GetProjectDocuments "p1") (inflight w)
  /\ (In (1%nat, GetProjectDocuments "p1") (inflight w')
      \/ settles (SelectProject Sample.beta) 1).
Proof.
  intros w w'.
  assert (Hexec : exec None (SelectProject Sample.beta) w = Some w')
    by (vm_compute; reflexivity).
  assert (Hin : In (1%nat, GetProjectDocuments "p1") (inflight w))
    by (vm_compute; left; reflexivity).
  split; [exact Hexec | ]. split; [exact Hin | ].
  exact (proj1 (nothing_is_cancelled None (SelectProject Sample.beta) w w' Hexec)
           1%nat (GetProjectDocuments "p1") Hin).
Defined.

(** X21 at a sample: the upload of the two files dropped on [Alpha] is
    rejected; the count has gone from 1 to 3 and stays there. *)
Lemma failed_upload_still_ends_ready_sample :
  let w := Sample.world_after Sample.opened in
  let failed :=
    spawn (_ <- uploadDocumentQuery_resume (Rejected Sample.network_error) ;; ret tt)
          (settle 3 (spawn (handleFileUpload Sample.drop "p1"
                              "2023-11-14T22:13:20.001Z"
                              "2023-11-14T22:13:20.002Z") w)) in
  counts_stay_exact "p1" (Z.of_nat (length Sample.drop)) (projects w)
  /\ map file_count (projects failed)
     = map (fun p => if String.eqb (project_id p) "p1"
                     then file_count p + Z.of_nat (length Sample.drop)
                     else file_count p) (projects w).
Proof.
  intros w failed.
  split; [exact sample_counts_stay_exact | ].
  destruct (failed_upload_still_ends_ready Sample.a_pdf
              {| draw_now := 1700000000000; draw_random := "0.25";
                 draw_iso := "2023-11-14T22:13:20.000Z" |}
              [ (Sample.b_docx,
                 {| draw_now := 1700000000000; draw_random := "0.75";
                    draw_iso := "2023-11-14T22:13:20.000Z" |}) ]
              "p1" "2023-11-14T22:13:20.001Z" "2023-11-14T22:13:20.002Z" w
              3%nat 4%nat Sample.network_error)
    as (_ & _ & _ & _ & Hexact & _).
  exact (Hexact sample_counts_stay_exact).
Defined.
